(** * Hawaii fisheries cleaning pipeline: non-commercial cleaner and orchestrator

    A shallow embedding of [clean_noncommercial.py] (class
    [NonCommercialDataCleaner]) and [pipeline.py] (class
    [FisheriesCleaningPipeline]).

    Python objects are mutated in place and exceptions leave the mutations
    made so far in place, so a method is a function from the object's state
    to an outcome (a returned value or a raised exception) and the new
    state.  The CSV files of the output directory, the log and the input
    directory are part of that state.

    Conventions of the model:
    - a DataFrame is its column index and its rows, a row mapping column
      names to cells; pandas' column-wise operations are written column-wise
      and shown below to act row by row;
    - a float is an exact rational and [NaN]/[<NA>] are one missing cell;
    - what [pd.to_numeric] reads in a text, and what [sorted] does with a
      list that holds a non-text value, are parameters;
    - the clock is read once per call and passed in; writing a file does not
      fail;
    - [clean_commercial.py] is not among the sources: the commercial cleaner
      is a parameter of the orchestrator. *)

From Stdlib Require Import ZArith QArith Ascii String.
Close Scope Q_scope.
From stdpp Require Import base option list gmap strings sorting.

(** ** Python values *)

Inductive PyExc :=
  | KeyError (k : string)
  | TypeError
  | ValueError
  | AttributeError.

Inductive Outcome (A : Type) :=
  | Returned (a : A)
  | Raised (e : PyExc).
Arguments Returned {A} a.
Arguments Raised {A} e.

Definition is_raised {A} (o : Outcome A) : bool :=
  match o with Raised _ => true | Returned _ => false end.

(** A cell of a table as [pd.read_csv] yields it: missing ([NaN]/[<NA>]),
    an integer, a float (idealised as a rational) or a text. *)
Inductive Cell :=
  | NA
  | CInt (z : Z)
  | CFloat (q : Q)
  | CStr (s : string).

Global Instance Q_eq_dec : EqDecision Q.
Proof. solve_decision. Defined.
Global Instance Cell_eq_dec : EqDecision Cell.
Proof. solve_decision. Defined.

Definition Cell_enc (c : Cell) : unit + (Z + (Z * positive + string)) :=
  match c with
  | NA => inl ()
  | CInt z => inr (inl z)
  | CFloat q => inr (inr (inl (Qnum q, Qden q)))
  | CStr s => inr (inr (inr s))
  end.
Definition Cell_dec (x : unit + (Z + (Z * positive + string))) : Cell :=
  match x with
  | inl _ => NA
  | inr (inl z) => CInt z
  | inr (inr (inl (n, d))) => CFloat (Qmake n d)
  | inr (inr (inr s)) => CStr s
  end.
Global Instance Cell_countable : Countable Cell.
Proof.
  apply (inj_countable' Cell_enc Cell_dec).
  intros [| z | [n d] | s]; reflexivity.
Defined.

(** A row maps a column name to its cell; a DataFrame is its column index and
    its rows in order. *)
Record DataFrame := mkDataFrame {
  columns : list string;
  rows : list (gmap string Cell)
}.

Definition cell (c : string) (r : gmap string Cell) : Cell :=
  default NA (r !! c).

(** [len(df)] *)
Definition len (df : DataFrame) : Z := Z.of_nat (length (rows df)).

(** [df[c]]: the column, [KeyError] when the table has no such column. *)
Definition getitem (df : DataFrame) (c : string) : Outcome (list Cell) :=
  if decide (c ∈ columns df) then Returned (cell c <$> rows df)
  else Raised (KeyError c).

(** [df[c] = vals] *)
Definition setitem (df : DataFrame) (c : string) (vals : list Cell) : DataFrame :=
  {| columns := if decide (c ∈ columns df) then columns df else columns df ++ [c];
     rows := zip_with (λ r v, <[c := v]> r) (rows df) vals |}.

(** [df[mask]]: the rows whose mask entry is [True], in order. *)
Fixpoint select_rows {A} (mask : list bool) (rs : list A) : list A :=
  match mask, rs with
  | b :: mask', r :: rs' =>
      if b then r :: select_rows mask' rs' else select_rows mask' rs'
  | _, _ => []
  end.

Definition getitem_mask (df : DataFrame) (mask : list bool) : DataFrame :=
  {| columns := columns df; rows := select_rows mask (rows df) |}.

(** [df.drop(columns=cs)] *)
Definition drop_columns (df : DataFrame) (cs : list string) : DataFrame :=
  {| columns := filter (λ c, c ∉ cs) (columns df);
     rows := (λ r, foldr delete r cs) <$> rows df |}.

(** [Series.unique()]: distinct values in order of first appearance. *)
Definition unique (l : list Cell) : list Cell :=
  reverse (remove_dups (reverse l)).

(** [Series.isnull()], [Series.notna()], [Series.isin(vs)] *)
Definition isnull (c : Cell) : bool :=
  match c with NA => true | _ => false end.
Definition notna (c : Cell) : bool := negb (isnull c).
Definition isin (vs : list string) (c : Cell) : bool :=
  match c with CStr s => bool_decide (s ∈ vs) | _ => false end.

(** [mask.sum()] and [mask.any()] of a boolean series *)
Definition mask_sum (m : list bool) : Z := Z.of_nat (length (filter Is_true m)).
Definition mask_any (m : list bool) : bool := existsb id m.

(** [mapM] for outcomes: the first exception wins. *)
Fixpoint collect {A B} (f : A → Outcome B) (l : list A) : Outcome (list B) :=
  match l with
  | [] => Returned []
  | x :: l' =>
      match f x with
      | Raised e => Raised e
      | Returned y =>
          match collect f l' with
          | Raised e => Raised e
          | Returned ys => Returned (y :: ys)
          end
      end
  end.

(** Numeric value of a cell; comparing or adding a text raises [TypeError]. *)
Definition numeric (c : Cell) : Outcome (option Q) :=
  match c with
  | NA => Returned None
  | CInt z => Returned (Some (inject_Z z))
  | CFloat q => Returned (Some q)
  | CStr _ => Raised TypeError
  end.

Definition Qltb (a b : Q) : bool := negb (Qle_bool b a).

(** [series < k] and [series > k]: a missing cell compares false. *)
Definition cell_lt (k : Z) (c : Cell) : Outcome bool :=
  match numeric c with
  | Raised e => Raised e
  | Returned None => Returned false
  | Returned (Some q) => Returned (Qltb q (inject_Z k))
  end.
Definition cell_gt (k : Z) (c : Cell) : Outcome bool :=
  match numeric c with
  | Raised e => Raised e
  | Returned None => Returned false
  | Returned (Some q) => Returned (Qltb (inject_Z k) q)
  end.

(** ** State and exceptions *)

Definition M (S A : Type) : Type := S → Outcome A * S.

Global Instance M_ret {S} : MRet (M S) := λ A a s, (Returned a, s).
Global Instance M_bind {S} : MBind (M S) := λ A B f m s,
  match m s with
  | (Returned a, s') => f a s'
  | (Raised e, s') => (Raised e, s')
  end.

Definition get {S} : M S S := λ s, (Returned s, s).
Definition modify {S} (f : S → S) : M S () := λ s, (Returned (), f s).
Definition lift {S A} (o : Outcome A) : M S A := λ s, (o, s).
Definition when {S} (b : bool) (m : M S ()) : M S () :=
  if b then m else mret ().

(** ** Clock and log *)

Record DateTime := mkDateTime {
  dt_year : nat; dt_month : nat; dt_day : nat;
  dt_hour : nat; dt_minute : nat; dt_second : nat
}.

Definition digit (n : nat) : ascii := ascii_of_nat (48 + n `mod` 10).

(** [strftime('%Y%m%d')] *)
Definition strftime_Ymd (d : DateTime) : string :=
  String (digit (dt_year d `div` 1000)) (String (digit (dt_year d `div` 100))
  (String (digit (dt_year d `div` 10)) (String (digit (dt_year d))
  (String (digit (dt_month d `div` 10)) (String (digit (dt_month d))
  (String (digit (dt_day d `div` 10)) (String (digit (dt_day d)) ""))))))).

(** [strftime('%Y%m%d_%H%M%S')] *)
Definition strftime_Ymd_HMS (d : DateTime) : string :=
  strftime_Ymd d +:+ "_" +:+
  String (digit (dt_hour d `div` 10)) (String (digit (dt_hour d))
  (String (digit (dt_minute d `div` 10)) (String (digit (dt_minute d))
  (String (digit (dt_second d `div` 10)) (String (digit (dt_second d)) ""))))).

Inductive Level := INFO | WARNING | ERROR.

Inductive Issue :=
  | NegativeValues (n : Z)
  | YearsOutsideRange (ys : list Cell).

Inductive LogMsg :=
  | Text (s : string)
  | NoFileFound
  | LoadedRows (n : Z) (name : string)
  | ErrorLoading
  | MissingRequired (cols : list string)
  | OptionalPresent (cols : list string)
  | NullYears (n : Z)
  | NullExchangeValues (n : Z)
  | DataQualityIssue (i : Issue)
  | Unexpected (what : string) (vals : list Cell)
  | AllValid (what : string) (vals : list Cell)
  | RemovedNulls (n : Z)
  | RemovedAggregates (n : Z)
  | RemovedColumns (cols : list string)
  | ExportedRows (n : Z) (path : string)
  | RowsIn (n : Z)
  | RowsOut (n : Z)
  | RowsRemoved (n : Z).

(** ** The summary dictionary of [generateSummaryStatistics] *)

Module Summary.
Record t := mk {
  data_type : string;
  processing_timestamp : DateTime;
  raw_row_count : Z;
  cleaned_row_count : Z;
  rows_removed : Z;
  min_year : Z;                       (* date_range.min_year *)
  max_year : Z;                       (* date_range.max_year *)
  total_exchange_value : Q;
  unique_islands : list Cell;
  unique_counties : list Cell;
  unique_species_groups : list Cell;
  unique_ecosystem_types : list Cell;
  records_by_year : gmap Cell Z;
  records_by_island : gmap Cell Z;
  total_value_by_year : gmap Cell Q
}.
End Summary.

(** ** The cleaner object *)

(** What the glob patterns and [pd.read_csv] find in the input directory. *)
Inductive InputDir :=
  | NoFile
  | Unreadable
  | CsvFile (name : string) (df : DataFrame).

Record NonCommercialDataCleaner := mkCleaner {
  input_dir : InputDir;
  output_dir : string;
  data : option DataFrame;
  raw_row_count : Z;
  cleaned_row_count : Z;
  files : gmap string DataFrame;   (* CSV files on disk, by path *)
  log : list (Level * LogMsg)
}.

Definition set_data (d : option DataFrame) (c : NonCommercialDataCleaner) :=
  mkCleaner (input_dir c) (output_dir c) d (raw_row_count c)
            (cleaned_row_count c) (files c) (log c).
Definition set_raw_row_count (n : Z) (c : NonCommercialDataCleaner) :=
  mkCleaner (input_dir c) (output_dir c) (data c) n
            (cleaned_row_count c) (files c) (log c).
Definition set_cleaned_row_count (n : Z) (c : NonCommercialDataCleaner) :=
  mkCleaner (input_dir c) (output_dir c) (data c) (raw_row_count c)
            n (files c) (log c).
Definition write_file (p : string) (df : DataFrame) (c : NonCommercialDataCleaner) :=
  mkCleaner (input_dir c) (output_dir c) (data c) (raw_row_count c)
            (cleaned_row_count c) (<[p := df]> (files c)) (log c).
Definition add_log (l : Level) (m : LogMsg) (c : NonCommercialDataCleaner) :=
  mkCleaner (input_dir c) (output_dir c) (data c) (raw_row_count c)
            (cleaned_row_count c) (files c) (log c ++ [(l, m)]).

(** [__init__]: the output directory of the constructor holds [fs]. *)
Definition init (inp : InputDir) (out : string) (fs : gmap string DataFrame)
  : NonCommercialDataCleaner :=
  mkCleaner inp out None 0 0 fs [].

Definition logging (l : Level) (m : LogMsg) : M NonCommercialDataCleaner () :=
  modify (add_log l m).

(** [self.data], used where [None] would raise [e]. *)
Definition self_data (e : PyExc) : M NonCommercialDataCleaner DataFrame :=
  λ s, match data s with
       | Some df => (Returned df, s)
       | None => (Raised e, s)
       end.

Definition nonempty {A} (l : list A) : bool :=
  match l with [] => false | _ => true end.

(** ** Schema constants of [clean_noncommercial.py] *)

Definition required_columns : list string :=
  ["year"; "island"; "county"; "species_group"; "ecosystem_type"; "exchange_value"].
Definition optional_columns : list string :=
  ["island_olelo"; "county_olelo"; "exchange_value_formatted"].
Definition expected_ecosystems : list string :=
  ["Inshore — Reef"; "Coastal — Open Ocean"; "All Ecosystems"].
Definition expected_species : list string := ["Herbivores"].
Definition expected_islands : list string :=
  ["Hawaii"; "Kauai"; "Lanai"; "Maui"; "Molokai"; "Oahu"].
Definition expected_counties : list string :=
  ["Hawaii"; "Maui"; "Honolulu"; "Kauai"].
Definition display_columns : list string :=
  ["island_olelo"; "county_olelo"; "exchange_value_formatted"].

(** ** Reductions used by the summary *)

(** [int(x)]: truncation; [int(pd.NA)] raises [TypeError]. *)
Definition py_int (x : option Q) : Outcome Z :=
  match x with
  | None => Raised TypeError
  | Some q => Returned (Z.quot (Qnum q) (Zpos (Qden q)))
  end.

Definition opt_best (better : Q → Q → bool) (a : option Q) (b : option Q) : option Q :=
  match a, b with
  | Some x, Some y => Some (if better x y then x else y)
  | Some x, None => Some x
  | None, _ => b
  end.

(** [Series.min()], [Series.max()], [Series.sum()]: missing cells are skipped;
    the minimum of no value at all is missing. *)
Definition series_min (l : list (option Q)) : option Q :=
  foldr (opt_best Qle_bool) None l.
Definition series_max (l : list (option Q)) : option Q :=
  foldr (opt_best (λ x y, Qle_bool y x)) None l.
Definition series_sum (l : list (option Q)) : Q :=
  foldr (λ v acc, Qplus (default 0%Q v) acc) 0%Q l.

(** [groupby(key).size()] and [groupby(key)[v].sum()]: rows with a missing
    key are left out. *)
Definition group_size (keys : list Cell) : gmap Cell Z :=
  foldr (λ k m, if isnull k then m else <[k := (1 + default 0 (m !! k))%Z]> m)
        ∅ keys.
Definition group_sum (keys : list Cell) (vals : list (option Q)) : gmap Cell Q :=
  foldr (λ kv m, if isnull kv.1 then m
                 else <[kv.1 := Qplus (default 0%Q kv.2) (default 0%Q (m !! kv.1))]> m)
        ∅ (zip keys vals).

Definition text_of (c : Cell) : option string :=
  match c with CStr s => Some s | _ => None end.

Section Cleaner.

(** What [pd.to_numeric] reads in a text, if anything. *)
Variable parse_number : string → option Q.
(** [sorted] on a list that holds a value that is not a text. *)
Variable sorted_mixed : list Cell → Outcome (list Cell).

(** [pd.to_numeric(series, errors='coerce')], cell by cell: a text that does
    not parse becomes missing. *)
Definition to_numeric (c : Cell) : Cell :=
  match c with
  | CStr s => match parse_number s with
              | Some q => CFloat q
              | None => NA
              end
  | _ => c
  end.

(** The range of [int64]. *)
Definition in_int64 (z : Z) : bool :=
  ((- 2 ^ 63 <=? z) && (z <=? 2 ^ 63 - 1))%Z.
Global Arguments in_int64 : simpl never.

(** [.astype('Int64')], cell by cell: a float that is not a whole number
    cannot be cast, and neither can a whole number outside the range of
    [int64]. *)
Definition astype_Int64 (c : Cell) : Outcome Cell :=
  match c with
  | NA => Returned NA
  | CInt z => if in_int64 z then Returned (CInt z) else Raised TypeError
  | CFloat q => if decide (Qden (Qred q) = 1%positive)
                then if in_int64 (Qnum (Qred q))
                     then Returned (CInt (Qnum (Qred q)))
                     else Raised TypeError
                else Raised TypeError
  | CStr _ => Raised ValueError
  end.

(** [sorted(values)] *)
Definition py_sorted (l : list Cell) : Outcome (list Cell) :=
  match mapM text_of l with
  | Some ss => Returned (CStr <$> merge_sort (λ a b : string, Is_true (String.leb a b)) ss)
  | None => sorted_mixed l
  end.

Local Abbreviation Cleaner := NonCommercialDataCleaner.

Definition loadData : M Cleaner bool :=
  logging INFO (Text "Loading non commercial fisheries data ");;
  s ← get;
  match input_dir s with
  | NoFile => logging ERROR NoFileFound;; mret false
  | Unreadable => logging ERROR ErrorLoading;; mret false
  | CsvFile name df =>
      modify (set_data (Some df));;
      modify (set_raw_row_count (len df));;
      logging INFO (LoadedRows (len df) name);;
      mret true
  end.

Definition validateSchema : M Cleaner bool :=
  logging INFO (Text "Validating data schema ");;
  df ← self_data AttributeError;
  let missing_required := filter (λ col, col ∉ columns df) required_columns in
  if nonempty missing_required then
    logging ERROR (MissingRequired missing_required);;
    mret false
  else
    let present_optional := filter (λ col, col ∈ columns df) optional_columns in
    when (nonempty present_optional) (logging INFO (OptionalPresent present_optional));;
    logging INFO (Text "Schema validation passed");;
    mret true.

Definition validateDataTypes : M Cleaner () :=
  logging INFO (Text "Validating data types ");;
  df ← self_data TypeError;
  year ← lift (getitem df "year");
  year' ← lift (collect astype_Int64 (to_numeric <$> year));
  modify (set_data (Some (setitem df "year" year')));;
  df ← self_data TypeError;
  exchange_value ← lift (getitem df "exchange_value");
  modify (set_data (Some (setitem df "exchange_value" (to_numeric <$> exchange_value))));;
  df ← self_data TypeError;
  year ← lift (getitem df "year");
  let null_years := mask_sum (isnull <$> year) in
  exchange_value ← lift (getitem df "exchange_value");
  let null_values := mask_sum (isnull <$> exchange_value) in
  when (0 <? null_years)%Z (logging WARNING (NullYears null_years));;
  when (0 <? null_values)%Z (logging WARNING (NullExchangeValues null_values)).

Definition validateDataRanges : M Cleaner bool :=
  logging INFO (Text "Validating data ranges ");;
  df ← self_data TypeError;
  exchange_value ← lift (getitem df "exchange_value");
  negative ← lift (collect (cell_lt 0) exchange_value);
  let issues1 :=
    if mask_any negative then [NegativeValues (mask_sum negative)] else [] in
  year ← lift (getitem df "year");
  below ← lift (collect (cell_lt 2005) year);
  out_of_range ←
    (if mask_any below then mret true
     else above ← lift (collect (cell_gt 2022) year); mret (mask_any above));
  issues2 ←
    (if out_of_range : bool then
       above ← lift (collect (cell_gt 2022) year);
       let invalid_years :=
         unique (select_rows (zip_with orb below above) year) in
       mret [YearsOutsideRange invalid_years]
     else mret []);
  let issues := issues1 ++ issues2 in
  (if nonempty issues then
     foldr (λ issue k, logging WARNING (DataQualityIssue issue);; k) (mret ()) issues
   else logging INFO (Text "Data range validation passed"));;
  mret true.

(** The four categorical validators share one shape: the distinct values of
    a column are compared with the expected vocabulary. *)
Definition validate_vocabulary (intro col what : string) (expected : list string)
  : M Cleaner () :=
  logging INFO (Text intro);;
  df ← self_data TypeError;
  values ← lift (getitem df col);
  let unique_values := unique values in
  let unexpected := filter (λ e, ¬ Is_true (isin expected e)) unique_values in
  if nonempty unexpected then
    logging WARNING (Unexpected what unexpected)
  else
    sorted_values ← lift (py_sorted unique_values);
    logging INFO (AllValid what sorted_values).

Definition validateEcosystemTypes : M Cleaner () :=
  validate_vocabulary "Validating ecosystem types " "ecosystem_type"
                      "ecosystem types" expected_ecosystems.
Definition validateSpeciesGroups : M Cleaner () :=
  validate_vocabulary "Validating species groups " "species_group"
                      "species groups" expected_species.
Definition validateIslands : M Cleaner () :=
  validate_vocabulary "Validating island names " "island"
                      "island names" expected_islands.
Definition validateCounties : M Cleaner () :=
  validate_vocabulary "Validating county names " "county"
                      "county names" expected_counties.

Definition removeNullValues : M Cleaner () :=
  logging INFO (Text "Removing null/NA exchange values ");;
  df ← self_data TypeError;
  let before_count := len df in
  exchange_value ← lift (getitem df "exchange_value");
  modify (set_data (Some (getitem_mask df (notna <$> exchange_value))));;
  df ← self_data TypeError;
  let after_count := len df in
  let removed := (before_count - after_count)%Z in
  if (0 <? removed)%Z then logging INFO (RemovedNulls removed)
  else logging INFO (Text "No null/NA values to remove").

Definition removeAggregateRows (remove_aggregates : bool) : M Cleaner () :=
  if negb remove_aggregates then
    logging INFO (Text "Skipping aggregate row removal (remove_aggregates=False)")
  else
    logging INFO (Text "Removing aggregate rows ");;
    df ← self_data TypeError;
    let before_count := len df in
    ecosystem_type ← lift (getitem df "ecosystem_type");
    modify (set_data (Some (getitem_mask df
      (negb <$> (isin ["All Ecosystems"] <$> ecosystem_type)))));;
    df ← self_data TypeError;
    let after_count := len df in
    let removed := (before_count - after_count)%Z in
    if (0 <? removed)%Z then logging INFO (RemovedAggregates removed)
    else logging INFO (Text "No aggregate rows found to remove").

Definition removeDisplayColumns (remove_display : bool) : M Cleaner () :=
  if negb remove_display then
    logging INFO (Text "Keeping display columns")
  else
    logging INFO (Text "Removing display only columns ");;
    df ← self_data AttributeError;
    let columns_to_drop := filter (λ col, col ∈ columns df) display_columns in
    if nonempty columns_to_drop then
      modify (set_data (Some (drop_columns df columns_to_drop)));;
      logging INFO (RemovedColumns columns_to_drop)
    else logging INFO (Text "No display columns to remove").

Definition sorted_unique (df : DataFrame) (col : string) : M Cleaner (list Cell) :=
  values ← lift (getitem df col);
  lift (py_sorted (unique values)).

Definition generateSummaryStatistics (now : DateTime) : M Cleaner Summary.t :=
  logging INFO (Text "Generating summary statistics ");;
  s ← get;
  df ← self_data TypeError;
  year ← lift (getitem df "year");
  years ← lift (collect numeric year);
  min_year ← lift (py_int (series_min years));
  max_year ← lift (py_int (series_max years));
  exchange_value ← lift (getitem df "exchange_value");
  values ← lift (collect numeric exchange_value);
  unique_islands ← sorted_unique df "island";
  unique_counties ← sorted_unique df "county";
  unique_species_groups ← sorted_unique df "species_group";
  unique_ecosystem_types ← sorted_unique df "ecosystem_type";
  island ← lift (getitem df "island");
  mret {| Summary.data_type := "non_commercial";
          Summary.processing_timestamp := now;
          Summary.raw_row_count := raw_row_count s;
          Summary.cleaned_row_count := len df;
          Summary.rows_removed := (raw_row_count s - len df)%Z;
          Summary.min_year := min_year;
          Summary.max_year := max_year;
          Summary.total_exchange_value := series_sum values;
          Summary.unique_islands := unique_islands;
          Summary.unique_counties := unique_counties;
          Summary.unique_species_groups := unique_species_groups;
          Summary.unique_ecosystem_types := unique_ecosystem_types;
          Summary.records_by_year := group_size year;
          Summary.records_by_island := group_size island;
          Summary.total_value_by_year := group_sum year values |}.

(** [self.output_dir / f'cleaned_noncommercial_{timestamp}.csv'] *)
Definition output_path (out : string) (now : DateTime) : string :=
  out +:+ "/" +:+ "cleaned_noncommercial_" +:+ strftime_Ymd now +:+ ".csv".

Definition exportCleanedData (now : DateTime) : M Cleaner string :=
  logging INFO (Text "Exporting cleaned non commercial data ");;
  s ← get;
  let output_file := output_path (output_dir s) now in
  df ← self_data AttributeError;
  modify (write_file output_file df);;
  modify (set_cleaned_row_count (len df));;
  logging INFO (ExportedRows (len df) output_file);;
  mret output_file.

Definition runCleaningPipeline (remove_aggregates remove_display : bool)
    (now : DateTime) : M Cleaner (bool * option string * option Summary.t) :=
  logging INFO (Text "NON COMMERCIAL FISHERIES DATA CLEANING PIPELINE");;
  loaded ← loadData;
  if negb loaded then mret (false, None, None) else
  valid ← validateSchema;
  if negb valid then mret (false, None, None) else
  validateDataTypes;;
  validateDataRanges;;
  validateEcosystemTypes;;
  validateSpeciesGroups;;
  validateIslands;;
  validateCounties;;
  removeNullValues;;
  removeAggregateRows remove_aggregates;;
  removeDisplayColumns remove_display;;
  output_file ← exportCleanedData now;
  summary ← generateSummaryStatistics now;
  logging INFO (Text "NON COMMERCIAL DATA CLEANING COMPLETE");;
  s ← get;
  logging INFO (RowsIn (raw_row_count s));;
  logging INFO (RowsOut (cleaned_row_count s));;
  logging INFO (RowsRemoved (raw_row_count s - cleaned_row_count s));;
  mret (true, Some output_file, Some summary).

End Cleaner.

(** ** The orchestrator of [pipeline.py] *)

(** Modelled from the spec: the CleaningSummary of the commercial cleaner
    ([clean_commercial.py] is not among the sources), with the keys that
    [pipeline.py] reads from it. *)
Module CommercialSummary.
Record t := mk {
  raw_row_count : Z;
  cleaned_row_count : Z;
  rows_removed : Z;
  min_year : Z;
  max_year : Z;
  total_exchange_value : Q;
  unique_counties : list Cell;
  unique_species_groups : list Cell;
  unique_area_ids : list Cell
}.
End CommercialSummary.

(** Values stored in the result dictionaries. *)
Inductive PyVal :=
  | VNone
  | VBool (b : bool)
  | VStr (s : string)
  | VSummary (s : Summary.t)
  | VCommercialSummary (s : CommercialSummary.t).

(** [d[k]] on a dictionary *)
Definition subscript (d : gmap string PyVal) (k : string) : Outcome PyVal :=
  match d !! k with
  | Some v => Returned v
  | None => Raised (KeyError k)
  end.

(** Truth value of [self.results[kind]]: [None] and the empty dictionary are
    false. *)
Definition truthy (r : option (gmap string PyVal)) : bool :=
  match r with
  | None => false
  | Some d => bool_decide (d ≠ ∅)
  end.

Definition truthy_val (v : PyVal) : bool :=
  match v with
  | VNone => false
  | VBool b => b
  | VStr s => bool_decide (s ≠ "")
  | VSummary _ | VCommercialSummary _ => true
  end.

(** [None[...]] raises [TypeError]. *)
Definition the_dict (r : option (gmap string PyVal)) : Outcome (gmap string PyVal) :=
  match r with
  | Some d => Returned d
  | None => Raised TypeError
  end.

(** Reads of a summary dictionary *)
Definition summary_Z (fn : Summary.t → Z) (fc : CommercialSummary.t → Z)
    (v : PyVal) : Outcome Z :=
  match v with
  | VSummary s => Returned (fn s)
  | VCommercialSummary s => Returned (fc s)
  | _ => Raised TypeError
  end.
Definition get_raw_row_count :=
  summary_Z Summary.raw_row_count CommercialSummary.raw_row_count.
Definition get_cleaned_row_count :=
  summary_Z Summary.cleaned_row_count CommercialSummary.cleaned_row_count.
Definition get_rows_removed :=
  summary_Z Summary.rows_removed CommercialSummary.rows_removed.
Definition get_min_year := summary_Z Summary.min_year CommercialSummary.min_year.
Definition get_max_year := summary_Z Summary.max_year CommercialSummary.max_year.
Definition get_total_exchange_value (v : PyVal) : Outcome Q :=
  match v with
  | VSummary s => Returned (Summary.total_exchange_value s)
  | VCommercialSummary s => Returned (CommercialSummary.total_exchange_value s)
  | _ => Raised TypeError
  end.
(** [len(summary[key])] for the keys of one kind of summary only *)
Definition get_len (fn : option (Summary.t → list Cell))
    (fc : option (CommercialSummary.t → list Cell)) (key : string)
    (v : PyVal) : Outcome Z :=
  match v, fn, fc with
  | VSummary s, Some f, _ => Returned (Z.of_nat (length (f s)))
  | VCommercialSummary s, _, Some f => Returned (Z.of_nat (length (f s)))
  | VSummary _, None, _ | VCommercialSummary _, _, None => Raised (KeyError key)
  | _, _, _ => Raised TypeError
  end.

Record Overall := mkOverall {
  total_records : Z;
  overall_total_exchange_value : Q;
  combined_min_year : Z;
  combined_max_year : Z
}.

(** The combined summary; [overall = None] is the key being absent. *)
Record CombinedSummary := mkCombined {
  pipeline_timestamp : DateTime;
  combined_commercial : PyVal;
  combined_non_commercial : PyVal;
  overall : option Overall
}.

Record Results := mkResults {
  commercial : option (gmap string PyVal);
  non_commercial : option (gmap string PyVal)
}.

Inductive ReportMsg :=
  | Line (s : string)
  | LoggingInitialized (log_file : string)
  | RemoveAggregatesFlag (b : bool)
  | RemoveDisplayFlag (b : bool)
  | ReportSuccess (kind : string) (input output removed lo hi : Z) (total : Q)
                  (dims : list Z)
  | ReportFailed (kind : string).

Global Instance Outcome_ret : MRet Outcome := λ A a, Returned a.
Global Instance Outcome_bind : MBind Outcome := λ A B f o,
  match o with
  | Returned a => f a
  | Raised e => Raised e
  end.

(** [self.results[kind]['summary']] *)
Definition result_summary (r : option (gmap string PyVal)) : Outcome PyVal :=
  d ← the_dict r; subscript d "summary".

(** [str(output_file)] *)
Definition py_str (p : option string) : string := default "None" p.

Section Orchestrator.

Variable parse_number : string → option Q.
Variable sorted_mixed : list Cell → Outcome (list Cell).

(** The commercial cleaner of [clean_commercial.py], which is not among the
    sources: its state and its [runCleaningPipeline]. *)
Variable CommercialDataCleaner : Type.
Variable commercial_runCleaningPipeline :
  bool → bool → DateTime →
  M CommercialDataCleaner (bool * option string * option CommercialSummary.t).

Record FisheriesCleaningPipeline := mkPipeline {
  commercial_cleaner : CommercialDataCleaner;
  noncommercial_cleaner : NonCommercialDataCleaner;
  results : Results;
  report : list (Level * ReportMsg)
}.

Local Abbreviation Pipeline := FisheriesCleaningPipeline.

Definition set_commercial (r : option (gmap string PyVal)) (p : Pipeline) : Pipeline :=
  mkPipeline (commercial_cleaner p) (noncommercial_cleaner p)
             (mkResults r (non_commercial (results p))) (report p).
Definition set_non_commercial (r : option (gmap string PyVal)) (p : Pipeline) : Pipeline :=
  mkPipeline (commercial_cleaner p) (noncommercial_cleaner p)
             (mkResults (commercial (results p)) r) (report p).
Definition say (l : Level) (m : ReportMsg) : M Pipeline () :=
  modify (λ p, mkPipeline (commercial_cleaner p) (noncommercial_cleaner p)
                          (results p) (report p ++ [(l, m)])).

(** [__init__] *)
Definition new_pipeline (cc : CommercialDataCleaner) (nc : NonCommercialDataCleaner)
  : Pipeline :=
  mkPipeline cc nc (mkResults None None) [].

(** A method call on one of the two cleaners. *)
Definition on_commercial {A} (m : M CommercialDataCleaner A) : M Pipeline A :=
  λ p, let '(o, c) := m (commercial_cleaner p) in
       (o, mkPipeline c (noncommercial_cleaner p) (results p) (report p)).
Definition on_noncommercial {A} (m : M NonCommercialDataCleaner A) : M Pipeline A :=
  λ p, let '(o, c) := m (noncommercial_cleaner p) in
       (o, mkPipeline (commercial_cleaner p) c (results p) (report p)).

Definition setupLogging (now : DateTime) : M Pipeline () :=
  say INFO (LoggingInitialized
              ("logs/cleaning_pipeline_" +:+ strftime_Ymd_HMS now +:+ ".log")).

Definition success_record (output_file : option string) (summary : PyVal)
  : gmap string PyVal :=
  <["success" := VBool true]>
    (<["output_file" := VStr (py_str output_file)]>
       (<["summary" := summary]> ∅)).
Definition failure_record (error : string) : gmap string PyVal :=
  <["success" := VBool false]> (<["error" := VStr error]> ∅).

Definition runCommercialCleaning (remove_aggregates remove_display : bool)
    (now : DateTime) : M Pipeline bool :=
  say INFO (Line "STARTING COMMERCIAL DATA CLEANING");;
  r ← on_commercial
        (commercial_runCleaningPipeline remove_aggregates remove_display now);
  let '(success, output_file, summary) := r in
  if success : bool then
    modify (set_commercial (Some
      (success_record output_file (from_option VCommercialSummary VNone summary))));;
    mret true
  else
    modify (set_commercial (Some
      (failure_record "Commercial data cleaning failed")));;
    mret false.

Definition runNoncommercialCleaning (remove_aggregates remove_display : bool)
    (now : DateTime) : M Pipeline bool :=
  say INFO (Line "STARTING NON COMMERCIAL DATA CLEANING");;
  r ← on_noncommercial
        (runCleaningPipeline parse_number sorted_mixed
           remove_aggregates remove_display now);
  let '(success, output_file, summary) := r in
  if success : bool then
    modify (set_non_commercial (Some
      (success_record output_file (from_option VSummary VNone summary))));;
    mret true
  else
    modify (set_non_commercial (Some
      (failure_record "Non commercial data cleaning failed")));;
    mret false.

Definition generateCombinedSummary (now : DateTime) : M Pipeline CombinedSummary :=
  say INFO (Line "Generating combined summary statistics...");;
  p ← get;
  let rc := commercial (results p) in
  let rn := non_commercial (results p) in
  c ← lift (if truthy rc then result_summary rc else Returned VNone);
  n ← lift (if truthy rn then result_summary rn else Returned VNone);
  if truthy rc && truthy rn then
    total_records ← lift (
      a ← result_summary rc ≫= get_cleaned_row_count;
      b ← result_summary rn ≫= get_cleaned_row_count;
      mret (a + b)%Z);
    total_exchange_value ← lift (
      a ← result_summary rc ≫= get_total_exchange_value;
      b ← result_summary rn ≫= get_total_exchange_value;
      mret (Qplus a b));
    min_year ← lift (
      a ← result_summary rc ≫= get_min_year;
      b ← result_summary rn ≫= get_min_year;
      mret (Z.min a b));
    max_year ← lift (
      a ← result_summary rc ≫= get_max_year;
      b ← result_summary rn ≫= get_max_year;
      mret (Z.max a b));
    mret (mkCombined now c n
            (Some (mkOverall total_records total_exchange_value min_year max_year)))
  else
    mret (mkCombined now c n None).

(** One block of the final report: the figures of a successful dataset, or
    the line that it failed. *)
Definition report_block (kind : string) (r : option (gmap string PyVal))
    (dims : list (PyVal → Outcome Z)) : M Pipeline () :=
  ok ← lift (if truthy r
             then d ← the_dict r; v ← subscript d "success"; mret (truthy_val v)
             else Returned false);
  if ok : bool then
    summary ← lift (result_summary r);
    raw ← lift (get_raw_row_count summary);
    cleaned ← lift (get_cleaned_row_count summary);
    removed ← lift (get_rows_removed summary);
    lo ← lift (get_min_year summary);
    hi ← lift (get_max_year summary);
    total ← lift (get_total_exchange_value summary);
    ds ← lift (collect (λ f, f summary) dims);
    say INFO (ReportSuccess kind raw cleaned removed lo hi total ds)
  else say INFO (ReportFailed kind).

Definition generatePipelineReport : M Pipeline () :=
  say INFO (Line "FISHERIES DATA CLEANING PIPELINE : FINAL REPORT");;
  p ← get;
  report_block "COMMERCIAL FISHERIES" (commercial (results p))
    [get_len None (Some CommercialSummary.unique_counties) "unique_counties";
     get_len None (Some CommercialSummary.unique_species_groups) "unique_species_groups";
     get_len None (Some CommercialSummary.unique_area_ids) "unique_area_ids"];;
  p ← get;
  report_block "NON COMMERCIAL FISHERIES" (non_commercial (results p))
    [get_len (Some Summary.unique_islands) None "unique_islands"].

Definition runFullPipeline (remove_aggregates remove_display : bool)
    (now : DateTime) : M Pipeline bool :=
  setupLogging now;;
  say INFO (Line "FISHERIES DATA CLEANING PIPELINE - START");;
  say INFO (RemoveAggregatesFlag remove_aggregates);;
  say INFO (RemoveDisplayFlag remove_display);;
  comm_success ← runCommercialCleaning remove_aggregates remove_display now;
  noncomm_success ← runNoncommercialCleaning remove_aggregates remove_display now;
  generatePipelineReport;;
  let overall_success := comm_success && noncomm_success in
  say INFO (Line (if overall_success then "Pipeline Status: SUCCESS"
                  else "Pipeline Status: PARTIAL SUCCESS OR FAILURE"));;
  mret overall_success.

End Orchestrator.

Arguments mkPipeline {_} _ _ _ _.
Arguments commercial_cleaner {_} _.
Arguments noncommercial_cleaner {_} _.
Arguments results {_} _.
Arguments report {_} _.
Arguments set_commercial {_} _ _.
Arguments set_non_commercial {_} _ _.
Arguments say {_} _ _ _.
Arguments new_pipeline {_} _ _.
Arguments on_commercial {_ _} _ _.
Arguments on_noncommercial {_ _} _ _.
Arguments setupLogging {_} _ _.
Arguments runCommercialCleaning {_} _ _ _ _ _.
Arguments runNoncommercialCleaning _ _ {_} _ _ _ _.
Arguments generateCombinedSummary {_} _ _.
Arguments report_block {_} _ _ _ _.
Arguments generatePipelineReport {_} _.
Arguments runFullPipeline _ _ {_} _ _ _ _ _.

(** ** The table along the pipeline, row by row

    The stages work column by column; these are the same tables described
    row by row.  The lemmas below show that each stage computes them. *)

(** The [year] cell after [validateDataTypes]. *)
Definition year_cast (parse_number : string → option Q) (c : Cell) : Cell :=
  match astype_Int64 (to_numeric parse_number c) with
  | Returned y => y
  | Raised _ => NA
  end.

(** The [year] cell of the row can be cast to [Int64]. *)
Definition castable (parse_number : string → option Q) (r : gmap string Cell) : Prop :=
  is_raised (astype_Int64 (to_numeric parse_number (cell "year" r))) = false.

Global Instance castable_dec parse_number r : Decision (castable parse_number r).
Proof. unfold castable. apply _. Defined.

Definition coerce_row (parse_number : string → option Q) (r : gmap string Cell)
  : gmap string Cell :=
  <["exchange_value" := to_numeric parse_number (cell "exchange_value" r)]>
    (<["year" := year_cast parse_number (cell "year" r)]> r).

Definition after_types (parse_number : string → option Q) (df : DataFrame) : DataFrame :=
  {| columns := columns df; rows := coerce_row parse_number <$> rows df |}.

Definition after_nulls (df : DataFrame) : DataFrame :=
  {| columns := columns df;
     rows := filter (λ r, cell "exchange_value" r ≠ NA) (rows df) |}.

Definition is_rollup (r : gmap string Cell) : Prop :=
  cell "ecosystem_type" r = CStr "All Ecosystems".

Definition after_aggregates (remove_aggregates : bool) (df : DataFrame) : DataFrame :=
  if remove_aggregates then
    {| columns := columns df; rows := filter (λ r, ¬ is_rollup r) (rows df) |}
  else df.

Definition after_display (remove_display : bool) (df : DataFrame) : DataFrame :=
  let columns_to_drop := filter (λ col, col ∈ columns df) display_columns in
  if remove_display && nonempty columns_to_drop
  then drop_columns df columns_to_drop else df.

(** What [removeDisplayColumns] does to one row of [df]. *)
Definition strip_row (remove_display : bool) (df : DataFrame) (r : gmap string Cell)
  : gmap string Cell :=
  let columns_to_drop := filter (λ col, col ∈ columns df) display_columns in
  if remove_display && nonempty columns_to_drop
  then foldr delete r columns_to_drop else r.

Definition cleaned_table (parse_number : string → option Q)
    (remove_aggregates remove_display : bool) (df : DataFrame) : DataFrame :=
  after_display remove_display
    (after_aggregates remove_aggregates
       (after_nulls (after_types parse_number df))).

(** The number of missing cells of a column, and the lines that
    [validateDataTypes] logs on leaving the table [df]. *)
Definition null_count (c : string) (df : DataFrame) : Z :=
  mask_sum (isnull <$> (cell c <$> rows df)).

Definition types_log (df : DataFrame) : list (Level * LogMsg) :=
  [(INFO, Text "Validating data types ")]
  ++ (if (0 <? null_count "year" df)%Z
      then [(WARNING, NullYears (null_count "year" df))] else [])
  ++ (if (0 <? null_count "exchange_value" df)%Z
      then [(WARNING, NullExchangeValues (null_count "exchange_value" df))] else []).

(** The end of [runCleaningPipeline], from the summary on. *)
Definition summarize_and_return (sorted_mixed : list Cell → Outcome (list Cell))
    (now : DateTime) (output_file : string)
  : M NonCommercialDataCleaner (bool * option string * option Summary.t) :=
  summary ← generateSummaryStatistics sorted_mixed now;
  logging INFO (Text "NON COMMERCIAL DATA CLEANING COMPLETE");;
  s ← get;
  logging INFO (RowsIn (raw_row_count s));;
  logging INFO (RowsOut (cleaned_row_count s));;
  logging INFO (RowsRemoved (raw_row_count s - cleaned_row_count s));;
  mret (true, Some output_file, Some summary).

(** The cleaner after a successful load of [df]. *)
Definition loaded (df : DataFrame) (s : NonCommercialDataCleaner) :=
  set_raw_row_count (len df) (set_data (Some df) s).

(** The cleaner after the export of [out]. *)
Definition exported (now : DateTime) (out : DataFrame) (s : NonCommercialDataCleaner) :=
  set_cleaned_row_count (len out)
    (write_file (output_path (output_dir s) now) out (set_data (Some out) s)).

(** The input is structurally bad: no file, an unreadable file, or a table
    that misses a required column. *)
Definition structural_failure (s : NonCommercialDataCleaner) : Prop :=
  input_dir s = NoFile ∨ input_dir s = Unreadable
  ∨ ∃ name df, input_dir s = CsvFile name df
               ∧ Exists (λ col, col ∉ columns df) required_columns.

(** A text cell; [validateDataTypes] leaves none in the columns it coerces. *)
Definition is_text (c : Cell) : bool :=
  match c with CStr _ => true | _ => false end.

(** The state with another log. *)
Definition with_log (lg : list (Level * LogMsg)) (c : NonCommercialDataCleaner) :=
  mkCleaner (input_dir c) (output_dir c) (data c) (raw_row_count c)
            (cleaned_row_count c) (files c) lg.

(** A method changes nothing but the log. *)
Definition logs_only {A} (m : M NonCommercialDataCleaner A) : Prop :=
  ∀ s, ∃ lg, (m s).2 = with_log lg s.

(** All of the state that is not the log. *)
Definition unchanged (s s' : NonCommercialDataCleaner) : Prop :=
  data s' = data s ∧ raw_row_count s' = raw_row_count s ∧
  cleaned_row_count s' = cleaned_row_count s ∧ files s' = files s ∧
  input_dir s' = input_dir s ∧ output_dir s' = output_dir s.

(** The record that [runCommercialCleaning] stores for an outcome of the
    commercial cleaner, and [runNoncommercialCleaning] for one of the
    non-commercial cleaner. *)
Definition commercial_record (r : bool * option string * option CommercialSummary.t)
  : gmap string PyVal :=
  if r.1.1 then success_record r.1.2 (from_option VCommercialSummary VNone r.2)
  else failure_record "Commercial data cleaning failed".

Definition noncommercial_record (r : bool * option string * option Summary.t)
  : gmap string PyVal :=
  if r.1.1 then success_record r.1.2 (from_option VSummary VNone r.2)
  else failure_record "Non commercial data cleaning failed".

(** The orchestrator with another report. *)
Definition with_report {C} (rp : list (Level * ReportMsg))
    (p : FisheriesCleaningPipeline C) : FisheriesCleaningPipeline C :=
  mkPipeline (commercial_cleaner p) (noncommercial_cleaner p) (results p) rp.

(** The run returned a success with a path and a summary. *)
Definition succeeded (o : Outcome (bool * option string * option Summary.t)) : bool :=
  match o with
  | Returned (true, Some _, Some _) => true
  | _ => false
  end.

(** ** Concrete inputs *)

Fixpoint digits_value (s : string) (acc : Z) : option Z :=
  match s with
  | EmptyString => Some acc
  | String a s' =>
      let n := Z.of_nat (nat_of_ascii a) in
      if ((48 <=? n) && (n <=? 57))%Z then digits_value s' (10 * acc + (n - 48))%Z
      else None
  end.

(** A reading of decimal integers, for the examples: [pd.to_numeric] accepts
    these (and more). *)
Definition parse_decimal (s : string) : option Q :=
  match s with
  | EmptyString => None
  | _ => inject_Z <$> digits_value s 0
  end.

(** A [sorted] for the examples: a list of at most one value is sorted, and
    a longer one that holds a value that is not a text raises. *)
Definition no_mixed_sort (l : list Cell) : Outcome (list Cell) :=
  match l with
  | [] | [_] => Returned l
  | _ => Raised TypeError
  end.

Definition mkrow (year island county species ecosystem value : Cell)
  : gmap string Cell :=
  list_to_map [("year", year); ("island", island); ("county", county);
               ("species_group", species); ("ecosystem_type", ecosystem);
               ("exchange_value", value)].

Definition reef_row : gmap string Cell :=
  mkrow (CInt 2010) (CStr "Oahu") (CStr "Honolulu") (CStr "Herbivores")
        (CStr "Inshore — Reef") (CFloat (100 # 1)).
Definition rollup_row : gmap string Cell :=
  mkrow (CStr "2011") (CStr "Maui") (CStr "Maui") (CStr "Herbivores")
        (CStr "All Ecosystems") (CInt 250).
Definition blank_row : gmap string Cell :=
  mkrow (CInt 2012) (CStr "Kauai") (CStr "Kauai") (CStr "Herbivores")
        (CStr "Inshore — Reef") (CStr "n/a").

Definition sample : DataFrame :=
  mkDataFrame required_columns [reef_row; rollup_row; blank_row].

Definition day1 : DateTime := mkDateTime 2026 2 23 9 30 0.
Definition day1_later : DateTime := mkDateTime 2026 2 23 17 5 42.
Definition day2 : DateTime := mkDateTime 2026 2 24 9 30 0.

Definition fresh (df : DataFrame) : NonCommercialDataCleaner :=
  init (CsvFile "tidied_noncomm_ev.csv" df) "data/cleaned" ∅.

(** A table without the [island] column. *)
Definition no_island : DataFrame :=
  mkDataFrame ["year"; "county"; "species_group"; "ecosystem_type"; "exchange_value"]
              [delete "island" reef_row].

(** A table whose every exchange value is blank. *)
Definition all_blank : DataFrame :=
  mkDataFrame required_columns [blank_row; blank_row].

(** A table in which the rows that survive cleaning alternate with rows
    that do not: a rollup row and a row with a blank exchange value. *)
Definition kauai_row : gmap string Cell :=
  mkrow (CInt 2012) (CStr "Kauai") (CStr "Kauai") (CStr "Herbivores")
        (CStr "Inshore — Reef") (CInt 30).
Definition lanai_row : gmap string Cell :=
  mkrow (CStr "2013") (CStr "Lanai") (CStr "Maui") (CStr "Herbivores")
        (CStr "Inshore — Reef") (CStr "55").
Definition interleaved : DataFrame :=
  mkDataFrame required_columns
    [reef_row; rollup_row; kauai_row; blank_row; lanai_row].

(** Another day's worth of rows. *)
Definition sample_later : DataFrame :=
  mkDataFrame required_columns [reef_row; reef_row; rollup_row].

(** Two stand-ins for the commercial cleaner: one whose run fails to load,
    one whose run succeeds. *)
Definition commercial_summary : CommercialSummary.t :=
  CommercialSummary.mk 100 92 8 1997 2021 (10000000 # 1)
    [CStr "Hawaii"] [CStr "Pelagics"] [CInt 100].

Definition commercial_fails (remove_aggregates remove_display : bool)
    (now : DateTime) : M () (bool * option string * option CommercialSummary.t) :=
  mret (false, None, None).

Definition commercial_succeeds (remove_aggregates remove_display : bool)
    (now : DateTime) : M () (bool * option string * option CommercialSummary.t) :=
  mret (true, Some ("data/cleaned/cleaned_commercial_" +:+ strftime_Ymd now +:+ ".csv"),
        Some commercial_summary).

(** The orchestrator after a run in which the commercial cleaner succeeded
    and the non-commercial cleaner found no input file. *)
Definition after_partial_failure : FisheriesCleaningPipeline () :=
  (runFullPipeline parse_decimal no_mixed_sort commercial_succeeds
     true false day1
     (new_pipeline () (init NoFile "data/cleaned" ∅))).2.

(** Two runs of the cleaner on the same day, over the same output
    directory: in the morning on [sample], in the afternoon on
    [sample_later]. *)
Definition morning_run : NonCommercialDataCleaner :=
  (runCleaningPipeline parse_decimal no_mixed_sort true false day1
     (fresh sample)).2.
Definition afternoon_run : NonCommercialDataCleaner :=
  (runCleaningPipeline parse_decimal no_mixed_sort true false day1_later
     (init (CsvFile "tidied_noncomm_ev.csv" sample_later) "data/cleaned"
           (files morning_run))).2.

(** ** What the range check reports, row by row *)

(** The number a cell holds, if it holds one. *)
Definition value (c : Cell) : option Q :=
  match c with
  | CInt z => Some (inject_Z z)
  | CFloat q => Some q
  | _ => None
  end.

(** The row has no negative exchange value and no year outside 2005-2022;
    a missing cell is in range. *)
Definition in_range (r : gmap string Cell) : Prop :=
  (∀ q, value (cell "exchange_value" r) = Some q → Qle 0 q)
  ∧ (∀ y, value (cell "year" r) = Some y → Qle (inject_Z 2005) y ∧ Qle y (inject_Z 2022)).

Definition lt_bool (k : Z) (c : Cell) : bool :=
  match cell_lt k c with Returned b => b | Raised _ => false end.
Definition gt_bool (k : Z) (c : Cell) : bool :=
  match cell_gt k c with Returned b => b | Raised _ => false end.

(** The issues that [validateDataRanges] finds in a table without text in
    its two numeric columns, and the lines it logs. *)
Definition range_issues (df : DataFrame) : list Issue :=
  let exchange_value := cell "exchange_value" <$> rows df in
  let year := cell "year" <$> rows df in
  let negative := lt_bool 0 <$> exchange_value in
  let below := lt_bool 2005 <$> year in
  let above := gt_bool 2022 <$> year in
  (if mask_any negative then [NegativeValues (mask_sum negative)] else [])
  ++ (if mask_any below || mask_any above
      then [YearsOutsideRange (unique (select_rows (zip_with orb below above) year))]
      else []).

Definition ranges_log (df : DataFrame) : list (Level * LogMsg) :=
  (INFO, Text "Validating data ranges ")
  :: (if nonempty (range_issues df)
      then (λ i, (WARNING, DataQualityIssue i)) <$> range_issues df
      else [(INFO, Text "Data range validation passed")]).

(** ** Dates *)

(** The ranges of the fields of a [datetime]. *)
Definition valid_date (d : DateTime) : Prop :=
  1 ≤ dt_year d < 100 * 100 ∧ 1 ≤ dt_month d ≤ 12 ∧ 1 ≤ dt_day d ≤ 31.

Definition same_day (d d' : DateTime) : Prop :=
  dt_year d = dt_year d' ∧ dt_month d = dt_month d' ∧ dt_day d = dt_day d'.

(** ** Counting *)

(** The number of cells of a column that hold [k]. *)
Definition count_of (k : Cell) (keys : list Cell) : Z :=
  Z.of_nat (length (filter (λ c, c = k) keys)).

(** ** Directories *)

(** The parts of a path between its slashes. *)
Fixpoint split_slash (s : string) : list string :=
  match s with
  | EmptyString => [EmptyString]
  | String c s' =>
      if Ascii.eqb c "/" then EmptyString :: split_slash s'
      else match split_slash s' with
           | part :: parts => String c part :: parts
           | [] => [String c EmptyString]
           end
  end.

(** A directory that [pathlib] spells as it is given, so that the text of
    [Path(out) / name] is [out], a slash and [name]: no part is a single
    dot, and none is empty but the first of an absolute path. *)
Definition plain_dir (out : string) : bool :=
  match split_slash out with
  | first :: rest =>
      negb (String.eqb first ".")
      && forallb (λ part, negb (String.eqb part "") && negb (String.eqb part "."))
           rest
      && (negb (String.eqb first "") || nonempty rest)
  | [] => false
  end.

(** ** The entry point of [pipeline.py] *)

(** [main]: a pipeline on [data/raw] and [data/cleaned], run with
    [remove_aggregates=False] and [remove_display=False]; [raw] is what the
    non-commercial cleaner finds in [data/raw] and [fs] what [data/cleaned]
    holds.  The two [print] lines are left out. *)
Definition main (parse_number : string → option Q)
    (sorted_mixed : list Cell → Outcome (list Cell)) {C}
    (commercial_runCleaningPipeline :
       bool → bool → DateTime → M C (bool * option string * option CommercialSummary.t))
    (now : DateTime) (cc : C) (raw : InputDir) (fs : gmap string DataFrame)
  : Outcome bool * FisheriesCleaningPipeline C :=
  runFullPipeline parse_number sorted_mixed commercial_runCleaningPipeline
    false false now (new_pipeline cc (init raw "data/cleaned" fs)).

(** ** More concrete inputs *)

(** A table with a year that is no whole number. *)
Definition fractional_year : DataFrame :=
  mkDataFrame required_columns
    [reef_row;
     mkrow (CFloat (4021 # 2)) (CStr "Maui") (CStr "Maui") (CStr "Herbivores")
           (CStr "Inshore — Reef") (CInt 70)].

(** A table without the [exchange_value] column. *)
Definition no_value : DataFrame :=
  mkDataFrame ["year"; "island"; "county"; "species_group"; "ecosystem_type"]
              [delete "exchange_value" reef_row].

(** A table none of whose rows has a year. *)
Definition no_years : DataFrame :=
  mkDataFrame required_columns
    [mkrow NA (CStr "Oahu") (CStr "Honolulu") (CStr "Herbivores")
           (CStr "Inshore — Reef") (CInt 40);
     mkrow (CStr "unknown") (CStr "Maui") (CStr "Maui") (CStr "Herbivores")
           (CStr "Inshore — Reef") (CInt 70)].

(** A table with two display columns. *)
Definition with_display : DataFrame :=
  mkDataFrame (required_columns ++ ["island_olelo"; "exchange_value_formatted"])
    [<["island_olelo" := CStr "Oʻahu"]>
       (<["exchange_value_formatted" := CStr "$100"]> reef_row);
     <["island_olelo" := CStr "Kauaʻi"]>
       (<["exchange_value_formatted" := CStr "$30"]> kauai_row)].

(** The cleaner holding [sample] as loaded, and as coerced. *)
Definition holding_sample : NonCommercialDataCleaner :=
  loaded sample (fresh sample).
Definition holding_coerced : NonCommercialDataCleaner :=
  set_data (Some (after_types parse_decimal sample)) (fresh sample).

(** A stand-in for a commercial cleaner whose run raises. *)
Definition commercial_raises (remove_aggregates remove_display : bool)
    (now : DateTime) : M () (bool * option string * option CommercialSummary.t) :=
  λ s, (Raised ValueError, s).

(** ** The dashboard generators of [generate_dashboard.py] and
       [generate_components.py] *)

(** [findLatestCsv]: [sorted(glob.glob(...))[-1]], or [None] without a
    match; [matches] is what the glob finds. *)
Definition findLatestCsv (matches : list string) : option string :=
  let matches := merge_sort (λ a b : string, Is_true (String.leb a b)) matches in
  if nonempty matches then last matches else None.

(** One day is not after another. *)
Definition day_le (d d' : DateTime) : Prop :=
  dt_year d < dt_year d'
  ∨ dt_year d = dt_year d'
    ∧ (dt_month d < dt_month d'
       ∨ dt_month d = dt_month d' ∧ dt_day d ≤ dt_day d').

(** A field of a row of [csv.DictReader]: a text, or [None] where the line
    was too short. *)
Inductive CsvVal :=
  | CsvStr (s : string)
  | CsvNone.

Global Instance CsvVal_eq_dec : EqDecision CsvVal.
Proof. solve_decision. Defined.

(** Truth value of a field: [None] and the empty text are false. *)
Definition truthy_field (c : CsvVal) : bool :=
  match c with
  | CsvStr s => bool_decide (s ≠ "")
  | CsvNone => false
  end.

(** [comparison], the first difference deciding *)
Definition lex (c1 c2 : comparison) : comparison :=
  match c1 with Eq => c2 | _ => c1 end.

Section Dashboard.

(** Python's floats, with [float(0)], [+] and [>]. *)
Variable float : Type.
Variable fzero : float.
Variable fadd : float → float → float.
Variable fgt : float → float → bool.
(** [int(s)] and [float(s)] on a text; [None] is [ValueError]. *)
Variable int_of_text : string → option Z.
Variable float_of_text : string → option float.

(** A normalized row. *)
Record ChartRow := mkChartRow {
  row_type : string;
  row_year : Z;
  row_county : CsvVal;
  row_island : CsvVal;
  row_species_group : CsvVal;
  row_ecosystem_type : CsvVal;
  row_exchange_value : float
}.

(** [int(r.get('year', 0))] and [float(r.get('exchange_value', 0))];
    [None] is [ValueError] or [TypeError]. *)
Definition get_year (r : gmap string CsvVal) : option Z :=
  match r !! "year" with
  | None => Some 0%Z
  | Some (CsvStr s) => int_of_text s
  | Some CsvNone => None
  end.
Definition get_exchange_value (r : gmap string CsvVal) : option float :=
  match r !! "exchange_value" with
  | None => Some fzero
  | Some (CsvStr s) => float_of_text s
  | Some CsvNone => None
  end.
(** [r.get(key, '')] *)
Definition get_field (r : gmap string CsvVal) (key : string) : CsvVal :=
  default (CsvStr "") (r !! key).

Definition normalize_commercial (r : gmap string CsvVal) : option ChartRow :=
  year ← get_year r;
  exchange_value ← get_exchange_value r;
  Some (mkChartRow "commercial" year (get_field r "county") (CsvStr "")
          (get_field r "species_group") (get_field r "ecosystem_type")
          exchange_value).
Definition normalize_noncommercial (r : gmap string CsvVal) : option ChartRow :=
  year ← get_year r;
  exchange_value ← get_exchange_value r;
  Some (mkChartRow "noncommercial" year (get_field r "county") (get_field r "island")
          (get_field r "species_group") (get_field r "ecosystem_type")
          exchange_value).

(** The loops of [normalizeCommercial] and [normalizeNoncommercial]: a row
    whose conversion raises is skipped. *)
Fixpoint normalize_rows (f : gmap string CsvVal → option ChartRow)
    (rows : list (gmap string CsvVal)) : list ChartRow :=
  match rows with
  | [] => []
  | r :: rows' =>
      match f r with
      | Some row => row :: normalize_rows f rows'
      | None => normalize_rows f rows'
      end
  end.
Definition normalizeCommercial := normalize_rows normalize_commercial.
Definition normalizeNoncommercial := normalize_rows normalize_noncommercial.

(** [sum(...)] of floats *)
Definition py_sum (l : list float) : float := foldl fadd fzero l.

(** [sorted(set(r['year'] for r in rows))] *)
Definition sorted_years (rows : list ChartRow) : list Z :=
  merge_sort Z.le (remove_dups (row_year <$> rows)).

(** A dictionary of totals, in insertion order:
    [d[k] = d.get(k, 0) + v]. *)
Fixpoint add_total (d : list (CsvVal * float)) (k : CsvVal) (v : float)
  : list (CsvVal * float) :=
  match d with
  | [] => [(k, fadd fzero v)]
  | (k', t) :: d' =>
      if decide (k' = k) then (k', fadd t v) :: d'
      else (k', t) :: add_total d' k v
  end.
Definition totals_by (key : ChartRow → CsvVal) (keep : CsvVal → bool)
    (rows : list ChartRow) : list (CsvVal * float) :=
  foldl (λ d r, if keep (key r) then add_total d (key r) (row_exchange_value r)
                else d) [] rows.
(** [d.get(k, 0)] *)
Definition get_total (d : list (CsvVal * float)) (k : CsvVal) : float :=
  default fzero ((λ found, found.2.2) <$> list_find (λ kv, kv.1 = k) d).
(** [max(d, key=d.get)]: the first key whose total no later one exceeds
    along the way; [None] for the empty dictionary. *)
Definition max_key (d : list (CsvVal * float)) : option CsvVal :=
  match d with
  | [] => None
  | kv :: d' => Some (foldl (λ best kv', if fgt kv'.2 best.2 then kv' else best)
                        kv d').1
  end.

Record DashboardSummary := mkDashboardSummary {
  comm_total : float;
  noncomm_total : float;
  comm_year_min : option Z;
  comm_year_max : option Z;
  noncomm_year_min : option Z;
  noncomm_year_max : option Z;
  top_species : CsvVal;
  top_species_val : float;
  top_county : CsvVal;
  top_county_val : float;
  dashboard_total_records : Z
}.

Definition computeSummary (commercial noncommercial : list ChartRow)
  : DashboardSummary :=
  let comm_years := if nonempty commercial then sorted_years commercial else [] in
  let noncomm_years :=
    if nonempty noncommercial then sorted_years noncommercial else [] in
  let species_totals :=
    totals_by row_species_group (λ _, true) (commercial ++ noncommercial) in
  let top_species := default (CsvStr "—") (max_key species_totals) in
  let county_totals :=
    totals_by row_county truthy_field (commercial ++ noncommercial) in
  let top_county := default (CsvStr "—") (max_key county_totals) in
  {| comm_total := py_sum (row_exchange_value <$> commercial);
     noncomm_total := py_sum (row_exchange_value <$> noncommercial);
     comm_year_min := head comm_years;
     comm_year_max := last comm_years;
     noncomm_year_min := head noncomm_years;
     noncomm_year_max := last noncomm_years;
     top_species := top_species;
     top_species_val := get_total species_totals top_species;
     top_county := top_county;
     top_county_val := get_total county_totals top_county;
     dashboard_total_records := (Z.of_nat (length commercial) + Z.of_nat (length noncommercial))%Z |}.

End Dashboard.

Arguments mkChartRow {_} _ _ _ _ _ _ _.
Arguments row_type {_} _.
Arguments row_year {_} _.
Arguments row_county {_} _.
Arguments row_island {_} _.
Arguments row_species_group {_} _.
Arguments row_ecosystem_type {_} _.
Arguments row_exchange_value {_} _.
Arguments normalize_rows {_} _ _.
Arguments sorted_years {_} _.
Arguments max_key {_} _ _.
Arguments comm_total {_} _.
Arguments noncomm_total {_} _.
Arguments comm_year_min {_} _.
Arguments comm_year_max {_} _.
Arguments noncomm_year_min {_} _.
Arguments noncomm_year_max {_} _.
Arguments top_species {_} _.
Arguments top_species_val {_} _.
Arguments top_county {_} _.
Arguments top_county_val {_} _.
Arguments dashboard_total_records {_} _.

(** * Proofs *)

(** ** Running a sequence of methods *)

Lemma bind_Returned {S A B} (m : M S A) (f : A → M S B) s a s' :
  m s = (Returned a, s') → (m ≫= f) s = f a s'.
Proof. intros H. unfold mbind, M_bind. by rewrite H. Qed.

Lemma bind_Raised {S A B} (m : M S A) (f : A → M S B) s e s' :
  m s = (Raised e, s') → (m ≫= f) s = (Raised e, s').
Proof. intros H. unfold mbind, M_bind. by rewrite H. Qed.

Lemma with_log_unchanged lg s : unchanged s (with_log lg s).
Proof. by repeat split. Qed.

Lemma logs_only_ret {A} (a : A) : logs_only (mret a).
Proof. intros s. exists (log s). by destruct s. Qed.

Lemma logs_only_lift {A} (o : Outcome A) : logs_only (lift o).
Proof. intros s. exists (log s). by destruct s. Qed.

Lemma logs_only_get : logs_only get.
Proof. intros s. exists (log s). by destruct s. Qed.

Lemma logs_only_logging l m : logs_only (logging l m).
Proof. intros s. by exists (log s ++ [(l, m)]). Qed.

Lemma logs_only_self_data e : logs_only (self_data e).
Proof.
  intros s. exists (log s). unfold self_data.
  destruct s as [? ? [df|] ? ? ? ?]; reflexivity.
Qed.

Lemma logs_only_bind {A B} (m : M NonCommercialDataCleaner A)
    (f : A → M NonCommercialDataCleaner B) :
  logs_only m → (∀ a, logs_only (f a)) → logs_only (m ≫= f).
Proof.
  intros Hm Hf s. destruct (Hm s) as [lg Hlg].
  unfold mbind, M_bind. destruct (m s) as [[a|e] s1]; simpl in Hlg; subst s1.
  - destruct (Hf a (with_log lg s)) as [lg' ->]. by exists lg'.
  - by exists lg.
Qed.

Lemma logs_only_when b (m : M NonCommercialDataCleaner ()) :
  logs_only m → logs_only (when b m).
Proof. destruct b; [done | intros _; apply logs_only_ret]. Qed.

Lemma logs_only_if {A} (b : bool) (m1 m2 : M NonCommercialDataCleaner A) :
  logs_only m1 → logs_only m2 → logs_only (if b then m1 else m2).
Proof. by destruct b. Qed.

Create HintDb frame discriminated.
#[local] Hint Resolve logs_only_ret logs_only_lift logs_only_get logs_only_logging
  logs_only_self_data logs_only_when logs_only_if : frame.
#[local] Hint Extern 2 (logs_only (_ ≫= _)) =>
  apply logs_only_bind; [ | intros ? ] : frame.

Lemma logs_only_foldr_issue (issues : list Issue) :
  logs_only (foldr (λ issue k, logging WARNING (DataQualityIssue issue);; k)
                   (mret ()) issues).
Proof. induction issues; simpl; auto with frame. Qed.

#[local] Hint Resolve logs_only_foldr_issue : frame.

Lemma logging_run l m s :
  logging l m s = (Returned (), with_log (log s ++ [(l, m)]) s).
Proof. reflexivity. Qed.

(** ** Columns and masks *)

Lemma select_rows_filter {A} (f : A → bool) (P : A → Prop) `{!∀ x, Decision (P x)}
    (l : list A) :
  (∀ x, f x = true ↔ P x) → select_rows (f <$> l) l = filter P l.
Proof.
  intros Hf. induction l as [|x l IH]; [done|].
  cbn [fmap list_fmap select_rows]. rewrite filter_cons, IH.
  destruct (f x) eqn:E, (decide (P x)) as [HP|HP]; try done.
  - by apply Hf in E.
  - apply Hf in HP. congruence.
Qed.

Lemma collect_Returned {A B} (f : A → Outcome B) (g : A → B) (l : list A) :
  Forall (λ x, f x = Returned (g x)) l → collect f l = Returned (g <$> l).
Proof.
  induction 1 as [|x l Hx _ IH]; [done|].
  cbn. by rewrite Hx, IH.
Qed.

Lemma collect_fmap {A B C} (f : B → Outcome C) (h : A → B) (l : list A) :
  collect f (h <$> l) = collect (f ∘ h) l.
Proof. induction l as [|x l IH]; [done|]. cbn. by rewrite IH. Qed.

Lemma collect_total {A B} (f : A → Outcome B) (l : list A) :
  Forall (λ x, ∃ y, f x = Returned y) l → ∃ ys, collect f l = Returned ys.
Proof.
  induction 1 as [|x l [y Hy] _ [ys IH]]; cbn; [eauto|].
  rewrite Hy, IH. eauto.
Qed.

Lemma collect_Returned_inv {A B} (f : A → Outcome B) (l : list A) ys :
  collect f l = Returned ys → Forall (λ x, is_raised (f x) = false) l.
Proof.
  revert ys. induction l as [|x l IH]; intros ys; cbn; [by constructor|].
  destruct (f x) eqn:Hx; [|done].
  destruct (collect f l) eqn:Hl; [|done].
  intros _. constructor; [by rewrite Hx | by eapply IH].
Qed.

Lemma zip_with_insert_fmap (c : string) (g : gmap string Cell → Cell)
    (rs : list (gmap string Cell)) :
  zip_with (λ r v, <[c := v]> r) rs (g <$> rs) = (λ r, <[c := g r]> r) <$> rs.
Proof. induction rs as [|r rs IH]; [done|]. cbn. by rewrite IH. Qed.

Lemma getitem_in df c :
  c ∈ columns df → getitem df c = Returned (cell c <$> rows df).
Proof. intros H. unfold getitem. by rewrite decide_True. Qed.

Lemma getitem_notin df c :
  c ∉ columns df → getitem df c = Raised (KeyError c).
Proof. intros H. unfold getitem. by rewrite decide_False. Qed.

Lemma setitem_in df c (g : gmap string Cell → Cell) :
  c ∈ columns df →
  setitem df c (g <$> rows df)
  = {| columns := columns df; rows := (λ r, <[c := g r]> r) <$> rows df |}.
Proof.
  intros H. unfold setitem. by rewrite decide_True, zip_with_insert_fmap.
Qed.

Lemma filter_none {A} (P : A → Prop) `{!∀ x, Decision (P x)} (l : list A) :
  Forall (λ x, ¬ P x) l → filter P l = [].
Proof.
  induction 1 as [|x l Hx _ IH]; [done|].
  by rewrite filter_cons_False.
Qed.

Lemma filter_some {A} (P : A → Prop) `{!∀ x, Decision (P x)} (l : list A) :
  Exists P l → nonempty (filter P l) = true.
Proof.
  induction 1 as [x l Hx | x l _ IH].
  - by rewrite filter_cons_True.
  - rewrite filter_cons. by destruct (decide (P x)).
Qed.

Lemma cell_insert_eq c v r : cell c (<[c := v]> r) = v.
Proof. unfold cell. by rewrite lookup_insert_eq. Qed.

Lemma cell_insert_ne c c' v r : c ≠ c' → cell c' (<[c := v]> r) = cell c' r.
Proof. intros H. unfold cell. by rewrite lookup_insert_ne. Qed.

Lemma cell_lt_Returned k c :
  is_text c = false → ∃ b, cell_lt k c = Returned b.
Proof. destruct c; intros; try done; cbn; eauto. Qed.

Lemma cell_gt_Returned k c :
  is_text c = false → ∃ b, cell_gt k c = Returned b.
Proof. destruct c; intros; try done; cbn; eauto. Qed.

Lemma isin_text vs c : isin vs c = true → is_text c = true.
Proof. by destruct c. Qed.

Lemma isin_singleton v c : isin [v] c = true ↔ c = CStr v.
Proof.
  destruct c as [| | |s]; cbn; try done.
  rewrite bool_decide_eq_true, list_elem_of_singleton.
  split; [by intros -> | by intros [= ->]].
Qed.

Lemma required_columns_in df :
  Forall (λ col, col ∈ columns df) required_columns →
  "year" ∈ columns df ∧ "island" ∈ columns df ∧ "county" ∈ columns df
  ∧ "species_group" ∈ columns df ∧ "ecosystem_type" ∈ columns df
  ∧ "exchange_value" ∈ columns df.
Proof.
  unfold required_columns. intros H.
  repeat (apply Forall_cons in H as [? H]). by repeat split.
Qed.

Ltac run_unfold :=
  unfold mbind, M_bind, mret, M_ret, logging, modify, self_data, lift, get;
  cbn -[filter].

(** ** The stages that do not read a text as a number *)

Lemma loadData_file s name df :
  input_dir s = CsvFile name df →
  ∃ lg, loadData s = (Returned true, with_log lg (loaded df s)).
Proof.
  intros Hi. unfold loadData. run_unfold. rewrite Hi. cbn.
  eexists; reflexivity.
Qed.

Lemma loadData_fails s :
  input_dir s = NoFile ∨ input_dir s = Unreadable →
  ∃ lg, loadData s = (Returned false, with_log lg s).
Proof.
  intros Hi. unfold loadData. run_unfold.
  destruct Hi as [-> | ->]; cbn; eexists; destruct s; reflexivity.
Qed.

Lemma validateSchema_ok s df :
  data s = Some df → Forall (λ col, col ∈ columns df) required_columns →
  ∃ lg, validateSchema s = (Returned true, with_log lg s).
Proof.
  intros Hd Hc. unfold validateSchema. run_unfold. rewrite Hd. cbn -[filter].
  rewrite filter_none by (eapply Forall_impl; [exact Hc|]; by intros c ? ?).
  cbn. unfold when. destruct (nonempty _); cbn; eexists; reflexivity.
Qed.

Lemma validateSchema_missing s df :
  data s = Some df → Exists (λ col, col ∉ columns df) required_columns →
  ∃ lg, validateSchema s = (Returned false, with_log lg s).
Proof.
  intros Hd Hc. unfold validateSchema. run_unfold. rewrite Hd. cbn -[filter].
  rewrite filter_some by done. cbn. eexists; reflexivity.
Qed.

Lemma validateDataRanges_logs_only : logs_only validateDataRanges.
Proof. unfold validateDataRanges. auto 20 with frame. Qed.

Lemma validateDataRanges_run s df :
  data s = Some df →
  "year" ∈ columns df → "exchange_value" ∈ columns df →
  Forall (λ r, is_text (cell "year" r) = false
               ∧ is_text (cell "exchange_value" r) = false) (rows df) →
  ∃ lg, validateDataRanges s = (Returned true, with_log lg s).
Proof.
  intros Hd Hy He Hn.
  destruct (validateDataRanges_logs_only s) as [lg Hlg].
  exists lg. rewrite <- Hlg. apply injective_projections; [|done]. cbn [fst].
  clear Hlg lg.
  unfold validateDataRanges. run_unfold. rewrite Hd. cbn.
  rewrite !getitem_in by done.
  destruct (collect_total (cell_lt 0) (cell "exchange_value" <$> rows df)) as [neg ->].
  { apply Forall_fmap. eapply Forall_impl; [exact Hn|].
    intros r [_ H]. by apply cell_lt_Returned. }
  destruct (collect_total (cell_lt 2005) (cell "year" <$> rows df)) as [lo ->].
  { apply Forall_fmap. eapply Forall_impl; [exact Hn|].
    intros r [H _]. by apply cell_lt_Returned. }
  destruct (collect_total (cell_gt 2022) (cell "year" <$> rows df)) as [hi ->].
  { apply Forall_fmap. eapply Forall_impl; [exact Hn|].
    intros r [H _]. by apply cell_gt_Returned. }
  destruct (mask_any neg), (mask_any lo), (mask_any hi); reflexivity.
Qed.

Lemma removeNullValues_run s df :
  data s = Some df → "exchange_value" ∈ columns df →
  ∃ lg, removeNullValues s
        = (Returned (), with_log lg (set_data (Some (after_nulls df)) s)).
Proof.
  intros Hd He. unfold removeNullValues. run_unfold. rewrite Hd. cbn.
  rewrite getitem_in by done. rewrite <- list_fmap_compose.
  assert (getitem_mask df (notna ∘ cell "exchange_value" <$> rows df) = after_nulls df)
    as ->.
  { unfold getitem_mask, after_nulls. f_equal.
    apply select_rows_filter. intros r. cbn.
    by destruct (cell "exchange_value" r). }
  destruct (0 <? _)%Z; cbn; eexists; reflexivity.
Qed.

Lemma removeAggregateRows_run remove_aggregates s df :
  data s = Some df → "ecosystem_type" ∈ columns df →
  ∃ lg, removeAggregateRows remove_aggregates s
        = (Returned (),
           with_log lg (set_data (Some (after_aggregates remove_aggregates df)) s)).
Proof.
  intros Hd He. unfold removeAggregateRows, after_aggregates.
  destruct remove_aggregates; run_unfold.
  - rewrite Hd. cbn. rewrite getitem_in by done. rewrite <- !list_fmap_compose.
    match goal with |- context [getitem_mask df ?m] =>
      assert (getitem_mask df m
              = {| columns := columns df;
                   rows := filter (λ r, ¬ is_rollup r) (rows df) |}) as ->
    end.
    { unfold getitem_mask. f_equal.
      apply select_rows_filter. intros r. cbn. unfold is_rollup.
      rewrite negb_true_iff, <- not_true_iff_false. by rewrite isin_singleton. }
    destruct (0 <? _)%Z; cbn; eexists; reflexivity.
  - eexists. rewrite <- Hd. reflexivity.
Qed.

Lemma removeDisplayColumns_run remove_display s df :
  data s = Some df →
  ∃ lg, removeDisplayColumns remove_display s
        = (Returned (),
           with_log lg (set_data (Some (after_display remove_display df)) s)).
Proof.
  intros Hd. unfold removeDisplayColumns, after_display.
  destruct remove_display; run_unfold.
  - rewrite Hd. cbn -[filter].
    destruct (nonempty _); cbn -[filter]; eexists; try reflexivity.
    rewrite <- Hd. reflexivity.
  - eexists. rewrite <- Hd. reflexivity.
Qed.

Lemma exportCleanedData_run now s df :
  data s = Some df →
  ∃ lg, exportCleanedData now s
        = (Returned (output_path (output_dir s) now), with_log lg (exported now df s)).
Proof.
  intros Hd. unfold exportCleanedData. run_unfold. rewrite Hd. cbn.
  eexists. unfold exported, set_data. rewrite <- Hd. reflexivity.
Qed.

(** ** The stages that depend on [pd.to_numeric] and [sorted] *)

Section Stages.
Context (parse_number : string → option Q).
Context (sorted_mixed : list Cell → Outcome (list Cell)).

Lemma year_cast_Returned r :
  castable parse_number r →
  astype_Int64 (to_numeric parse_number (cell "year" r))
  = Returned (year_cast parse_number (cell "year" r)).
Proof.
  unfold castable, year_cast.
  by destruct (astype_Int64 (to_numeric parse_number (cell "year" r))).
Qed.

Lemma to_numeric_not_text c : is_text (to_numeric parse_number c) = false.
Proof. destruct c; cbn; try done. by destruct (parse_number s). Qed.

Lemma year_cast_not_text c : is_text (year_cast parse_number c) = false.
Proof.
  unfold year_cast. destruct (to_numeric parse_number c); cbn; try done.
  - by destruct (in_int64 _).
  - destruct (decide _); [|done]. by destruct (in_int64 _).
Qed.

Lemma after_types_not_text df :
  Forall (λ r, is_text (cell "year" r) = false
               ∧ is_text (cell "exchange_value" r) = false)
         (rows (after_types parse_number df)).
Proof.
  cbn. apply Forall_fmap, Forall_true. intros r. cbn. unfold coerce_row. split.
  - rewrite cell_insert_ne, cell_insert_eq by done. apply year_cast_not_text.
  - rewrite cell_insert_eq. apply to_numeric_not_text.
Qed.

Lemma validateDataTypes_run s df :
  data s = Some df →
  "year" ∈ columns df → "exchange_value" ∈ columns df →
  Forall (castable parse_number) (rows df) →
  validateDataTypes parse_number s
  = (Returned (),
     with_log (log s ++ types_log (after_types parse_number df))
              (set_data (Some (after_types parse_number df)) s)).
Proof.
  intros Hd Hy He Hc. unfold validateDataTypes. run_unfold.
  rewrite Hd. cbn. rewrite (getitem_in _ _ Hy).
  rewrite <- list_fmap_compose, collect_fmap.
  rewrite (collect_Returned _ (λ r, year_cast parse_number (cell "year" r)))
    by (eapply Forall_impl; [exact Hc | intros r Hr; by apply year_cast_Returned]).
  rewrite (setitem_in df "year" _ Hy).
  set (df1 := {| columns := columns df; rows := _ |}).
  rewrite (getitem_in df1 "exchange_value") by exact He.
  rewrite <- list_fmap_compose.
  rewrite (setitem_in df1 "exchange_value") by exact He.
  set (df2 := {| columns := columns df1; rows := _ |}).
  rewrite (getitem_in df2 "year") by exact Hy.
  rewrite (getitem_in df2 "exchange_value") by exact He.
  assert (df2 = after_types parse_number df) as ->.
  { unfold df2, df1, after_types. cbn. f_equal.
    rewrite <- list_fmap_compose. apply list_fmap_ext. intros i r _. cbn.
    unfold coerce_row. by rewrite cell_insert_ne. }
  unfold when, types_log, null_count.
  do 2 destruct (0 <? _)%Z; cbn; unfold with_log, add_log, set_data; cbn;
    by rewrite <- ?app_assoc.
Qed.

Lemma validateDataTypes_returns s df :
  data s = Some df →
  "year" ∈ columns df → "exchange_value" ∈ columns df →
  Forall (castable parse_number) (rows df) →
  ∃ lg, validateDataTypes parse_number s
        = (Returned (), with_log lg (set_data (Some (after_types parse_number df)) s)).
Proof. intros. eexists. by apply validateDataTypes_run. Qed.

Lemma validateDataTypes_raises s df :
  data s = Some df →
  "year" ∈ columns df →
  ¬ Forall (castable parse_number) (rows df) →
  ∃ e lg, validateDataTypes parse_number s = (Raised e, with_log lg s).
Proof.
  intros Hd Hy Hc. unfold validateDataTypes. run_unfold.
  rewrite Hd. cbn. rewrite (getitem_in _ _ Hy).
  rewrite <- list_fmap_compose, collect_fmap.
  apply not_Forall_Exists in Hc; [|apply _].
  destruct (collect _ (rows df)) as [ys|e] eqn:Hcol.
  - apply collect_Returned_inv in Hcol.
    apply Exists_exists in Hc as (r & Hr & Hnc).
    rewrite Forall_forall in Hcol. by specialize (Hcol r Hr).
  - eexists _, _. reflexivity.
Qed.

Lemma validateDataTypes_inv s s1 :
  validateDataTypes parse_number s = (Returned (), s1) →
  ∃ df, data s = Some df ∧ "year" ∈ columns df ∧ "exchange_value" ∈ columns df
        ∧ Forall (castable parse_number) (rows df).
Proof.
  unfold validateDataTypes. run_unfold.
  destruct (data s) as [df|]; [|done]. cbn.
  unfold getitem at 1. destruct (decide ("year" ∈ columns df)) as [Hy|]; [|done].
  rewrite <- list_fmap_compose, collect_fmap.
  destruct (collect _ (rows df)) as [ys|e] eqn:Hcol; [|done].
  apply collect_Returned_inv in Hcol.
  unfold getitem at 1. cbn [columns setitem].
  rewrite (decide_True (P := "year" ∈ columns df)) by done.
  destruct (decide ("exchange_value" ∈ columns df)) as [He|]; [|done].
  intros _. exists df. by repeat split.
Qed.

Lemma py_sorted_texts (l : list Cell) :
  Forall (λ c, is_text c = true) l → ∃ l', py_sorted sorted_mixed l = Returned l'.
Proof.
  intros H. unfold py_sorted.
  destruct (mapM_is_Some_2 text_of l) as [ss ->]; [|eauto].
  eapply Forall_impl; [exact H|]. by intros [] ?; cbn; eauto.
Qed.

Lemma validate_vocabulary_logs_only intro col what expected :
  logs_only (validate_vocabulary sorted_mixed intro col what expected).
Proof. unfold validate_vocabulary. auto 20 with frame. Qed.

Lemma validate_vocabulary_run intro col what expected s df :
  data s = Some df → col ∈ columns df →
  ∃ lg, validate_vocabulary sorted_mixed intro col what expected s
        = (Returned (), with_log lg s).
Proof.
  intros Hd Hc.
  destruct (validate_vocabulary_logs_only intro col what expected s)
    as [lg Hlg].
  exists lg. rewrite <- Hlg. apply injective_projections; [|done]. cbn [fst].
  clear Hlg lg.
  unfold validate_vocabulary. run_unfold. rewrite Hd. cbn.
  rewrite getitem_in by done.
  destruct (filter _ (unique _)) as [|x l] eqn:Hf; cbn; [|done].
  destruct (py_sorted_texts (unique (cell col <$> rows df))) as [l' ->]; [|done].
  apply Forall_forall. intros c Hc'.
  apply (isin_text expected).
  destruct (isin expected c) eqn:E; [done|].
  exfalso. eapply (filter_nil_not_elem_of _ _ c Hf); [|done].
  rewrite E. by intros [].
Qed.

Lemma generateSummaryStatistics_logs_only now :
  logs_only (generateSummaryStatistics sorted_mixed now).
Proof. unfold generateSummaryStatistics, sorted_unique. auto 30 with frame. Qed.

Lemma generateSummaryStatistics_fields now s s' summary :
  generateSummaryStatistics sorted_mixed now s = (Returned summary, s') →
  ∃ df, data s = Some df
        ∧ Summary.raw_row_count summary = raw_row_count s
        ∧ Summary.cleaned_row_count summary = len df
        ∧ Summary.rows_removed summary = (raw_row_count s - len df)%Z.
Proof.
  unfold generateSummaryStatistics, sorted_unique. run_unfold.
  destruct (data s) as [df|]; [|done]. cbn.
  repeat (match goal with
          | |- context [match ?x with Returned _ => _ | Raised _ => _ end] =>
              destruct x; cbn; try done
          end).
  intros [= <- _]. eauto.
Qed.

Lemma generateSummaryStatistics_empty now s df :
  data s = Some df → "year" ∈ columns df → rows df = [] →
  (generateSummaryStatistics sorted_mixed now s).1 = Raised TypeError.
Proof.
  intros Hd Hy He. unfold generateSummaryStatistics. run_unfold.
  rewrite Hd. cbn. rewrite getitem_in by done. by rewrite He.
Qed.

End Stages.

(** ** The whole run *)

Ltac stage L :=
  match goal with
  | |- context [ (?m ≫= ?f) ?st ] =>
      let lg := fresh "lg" in
      let E := fresh "E" in
      edestruct L with (s := st) as [lg E];
      [.. | rewrite (bind_Returned m f st _ _ E); clear E; cbn [negb]]
  end.

Section Run.
Context (parse_number : string → option Q).
Context (sorted_mixed : list Cell → Outcome (list Cell)).

Lemma runCleaningPipeline_exports remove_aggregates remove_display now s name df :
  input_dir s = CsvFile name df →
  Forall (λ col, col ∈ columns df) required_columns →
  Forall (castable parse_number) (rows df) →
  ∃ lg,
    runCleaningPipeline parse_number sorted_mixed remove_aggregates remove_display now s
    = summarize_and_return sorted_mixed now (output_path (output_dir s) now)
        (with_log lg
           (exported now
              (cleaned_table parse_number remove_aggregates remove_display df)
              (loaded df s))).
Proof.
  intros Hi Hreq Hcast.
  destruct (required_columns_in df Hreq) as (Hy & Hisl & Hcty & Hsp & Heco & Hev).
  unfold runCleaningPipeline.
  rewrite (bind_Returned _ _ _ _ _ (logging_run _ _ _)).
  stage loadData_file; [exact Hi|].
  stage validateSchema_ok; [reflexivity | exact Hreq |].
  stage (validateDataTypes_returns parse_number);
    [reflexivity | exact Hy | exact Hev | exact Hcast |].
  stage validateDataRanges_run;
    [reflexivity | exact Hy | exact Hev | apply after_types_not_text |].
  unfold validateEcosystemTypes, validateSpeciesGroups, validateIslands,
    validateCounties.
  stage (validate_vocabulary_run sorted_mixed); [reflexivity | exact Heco |].
  stage (validate_vocabulary_run sorted_mixed); [reflexivity | exact Hsp |].
  stage (validate_vocabulary_run sorted_mixed); [reflexivity | exact Hisl |].
  stage (validate_vocabulary_run sorted_mixed); [reflexivity | exact Hcty |].
  stage removeNullValues_run; [reflexivity | exact Hev |].
  stage (removeAggregateRows_run remove_aggregates); [reflexivity | exact Heco |].
  stage (removeDisplayColumns_run remove_display); [reflexivity |].
  stage (exportCleanedData_run now); [reflexivity |].
  eexists. reflexivity.
Qed.

Lemma summarize_and_return_logs_only now output_file :
  logs_only (summarize_and_return sorted_mixed now output_file).
Proof.
  unfold summarize_and_return.
  pose proof (generateSummaryStatistics_logs_only sorted_mixed now).
  auto 20 with frame.
Qed.

Lemma summarize_and_return_Returned now output_file s r s' :
  summarize_and_return sorted_mixed now output_file s = (Returned r, s') →
  ∃ summary df,
    r = (true, Some output_file, Some summary) ∧ data s = Some df
    ∧ Summary.raw_row_count summary = raw_row_count s
    ∧ Summary.cleaned_row_count summary = len df
    ∧ Summary.rows_removed summary = (raw_row_count s - len df)%Z.
Proof.
  unfold summarize_and_return. unfold mbind at 1, M_bind at 1.
  destruct (generateSummaryStatistics sorted_mixed now s) as [[summary|e] s1] eqn:Hg;
    [|done].
  apply generateSummaryStatistics_fields in Hg as (df & ? & ? & ? & ?).
  run_unfold. intros [= <- _]. by exists summary, df.
Qed.

Lemma runCleaningPipeline_load_fails remove_aggregates remove_display now s :
  input_dir s = NoFile ∨ input_dir s = Unreadable →
  ∃ lg,
    runCleaningPipeline parse_number sorted_mixed remove_aggregates remove_display now s
    = (Returned (false, None, None), with_log lg s).
Proof.
  intros Hi. unfold runCleaningPipeline.
  rewrite (bind_Returned _ _ _ _ _ (logging_run _ _ _)).
  stage loadData_fails; [exact Hi|].
  eexists. reflexivity.
Qed.

Lemma runCleaningPipeline_schema_fails remove_aggregates remove_display now s name df :
  input_dir s = CsvFile name df →
  Exists (λ col, col ∉ columns df) required_columns →
  ∃ lg,
    runCleaningPipeline parse_number sorted_mixed remove_aggregates remove_display now s
    = (Returned (false, None, None), with_log lg (loaded df s)).
Proof.
  intros Hi Hm. unfold runCleaningPipeline.
  rewrite (bind_Returned _ _ _ _ _ (logging_run _ _ _)).
  stage loadData_file; [exact Hi|].
  stage validateSchema_missing; [reflexivity | exact Hm |].
  eexists. reflexivity.
Qed.

Lemma runCleaningPipeline_cast_fails remove_aggregates remove_display now s name df :
  input_dir s = CsvFile name df →
  Forall (λ col, col ∈ columns df) required_columns →
  ¬ Forall (castable parse_number) (rows df) →
  ∃ e lg,
    runCleaningPipeline parse_number sorted_mixed remove_aggregates remove_display now s
    = (Raised e, with_log lg (loaded df s)).
Proof.
  intros Hi Hreq Hc.
  destruct (required_columns_in df Hreq) as (Hy & _).
  unfold runCleaningPipeline.
  rewrite (bind_Returned _ _ _ _ _ (logging_run _ _ _)).
  stage loadData_file; [exact Hi|].
  stage validateSchema_ok; [reflexivity | exact Hreq |].
  match goal with
  | |- context [ (?m ≫= ?f) ?st ] =>
      edestruct (validateDataTypes_raises parse_number st df) as (e & lg1 & E);
        [reflexivity | exact Hy | exact Hc |];
      rewrite (bind_Raised m f st _ _ E)
  end.
  eexists _, _. reflexivity.
Qed.

(** Every run is of one of four kinds: the load fails, the schema check
    fails, a year cannot be cast, or the table is cleaned and exported and
    the summary is attempted. *)
Lemma runCleaningPipeline_cases remove_aggregates remove_display now s :
  let run := runCleaningPipeline parse_number sorted_mixed
               remove_aggregates remove_display now s in
  (∃ lg, (input_dir s = NoFile ∨ input_dir s = Unreadable)
         ∧ run = (Returned (false, None, None), with_log lg s))
  ∨ (∃ name df lg, input_dir s = CsvFile name df
         ∧ Exists (λ col, col ∉ columns df) required_columns
         ∧ run = (Returned (false, None, None), with_log lg (loaded df s)))
  ∨ (∃ name df e lg, input_dir s = CsvFile name df
         ∧ Forall (λ col, col ∈ columns df) required_columns
         ∧ ¬ Forall (castable parse_number) (rows df)
         ∧ run = (Raised e, with_log lg (loaded df s)))
  ∨ (∃ name df lg, input_dir s = CsvFile name df
         ∧ Forall (λ col, col ∈ columns df) required_columns
         ∧ Forall (castable parse_number) (rows df)
         ∧ run = summarize_and_return sorted_mixed now
                   (output_path (output_dir s) now)
                   (with_log lg
                      (exported now
                         (cleaned_table parse_number remove_aggregates
                            remove_display df)
                         (loaded df s)))).
Proof.
  intros run. subst run.
  destruct (input_dir s) as [| |name df] eqn:Hi.
  - left. edestruct runCleaningPipeline_load_fails as [lg E]; [by left|].
    exists lg. split; [by left | exact E].
  - left. edestruct runCleaningPipeline_load_fails as [lg E]; [by right|].
    exists lg. split; [by right | exact E].
  - right.
    destruct (decide (Forall (λ col, col ∈ columns df) required_columns))
      as [Hreq|Hreq].
    + right.
      destruct (decide (Forall (castable parse_number) (rows df))) as [Hc|Hc].
      * right. edestruct runCleaningPipeline_exports as [lg E]; [done..|].
        exists name, df, lg. by repeat split.
      * left. edestruct runCleaningPipeline_cast_fails as (e & lg & E); [done..|].
        exists name, df, e, lg. by repeat split.
    + left. apply not_Forall_Exists in Hreq; [|apply _].
      edestruct runCleaningPipeline_schema_fails as [lg E]; [done..|].
      exists name, df, lg. by repeat split.
Qed.

End Run.

(** ** Properties of the cleaner *)

Lemma rows_after_display remove_display df :
  rows (after_display remove_display df)
  = strip_row remove_display df <$> rows df.
Proof.
  unfold after_display, strip_row.
  destruct (remove_display && nonempty _); [done|].
  cbn. by rewrite list_fmap_id.
Qed.

Lemma columns_after_aggregates remove_aggregates df :
  columns (after_aggregates remove_aggregates df) = columns df.
Proof. by destruct remove_aggregates. Qed.

Lemma strip_row_eq remove_display df df' :
  columns df' = columns df →
  strip_row remove_display df' = strip_row remove_display df.
Proof. intros H. unfold strip_row. by rewrite H. Qed.

Lemma cell_strip_row remove_display df c r :
  c ∉ display_columns → cell c (strip_row remove_display df r) = cell c r.
Proof.
  intros Hc. unfold strip_row.
  destruct (remove_display && nonempty _); [|done].
  unfold cell. rewrite lookup_foldr_delete_not_elem_of; [done|].
  intros Hin. apply list_elem_of_filter in Hin as [_ Hin]. done.
Qed.

Lemma len_after_display remove_display df :
  len (after_display remove_display df) = len df.
Proof. unfold len. by rewrite rows_after_display, length_fmap. Qed.

Lemma removeNullValues_sublist c t t' :
  data c = Some t → data (removeNullValues c).2 = Some t' →
  rows t' `sublist_of` rows t.
Proof.
  intros Hd. destruct (decide ("exchange_value" ∈ columns t)) as [He|He].
  - destruct (removeNullValues_run c t Hd He) as [lg ->]. cbn.
    intros [= <-]. apply sublist_filter.
  - unfold removeNullValues. run_unfold. rewrite Hd. cbn.
    rewrite getitem_notin by done. cbn. rewrite Hd. by intros [= <-].
Qed.

Lemma removeAggregateRows_sublist remove_aggregates c t t' :
  data c = Some t → data (removeAggregateRows remove_aggregates c).2 = Some t' →
  rows t' `sublist_of` rows t.
Proof.
  intros Hd. destruct (decide ("ecosystem_type" ∈ columns t)) as [He|He].
  - destruct (removeAggregateRows_run remove_aggregates c t Hd He) as [lg ->]. cbn.
    intros [= <-]. destruct remove_aggregates; [apply sublist_filter | done].
  - unfold removeAggregateRows. destruct remove_aggregates; run_unfold.
    + rewrite Hd. cbn. rewrite getitem_notin by done. cbn. rewrite Hd.
      by intros [= <-].
    + rewrite Hd. by intros [= <-].
Qed.

Lemma logs_only_unchanged {A} (m : M NonCommercialDataCleaner A) s :
  logs_only m → unchanged s (m s).2.
Proof. intros H. destruct (H s) as [lg ->]. apply with_log_unchanged. Qed.

Section Claims.
Context (parse_number : string → option Q).
Context (sorted_mixed : list Cell → Outcome (list Cell)).

Local Abbreviation run := (runCleaningPipeline parse_number sorted_mixed).

Lemma rows_cleaned_table remove_aggregates remove_display df :
  rows (cleaned_table parse_number remove_aggregates remove_display df)
  = strip_row remove_display df
      <$> rows (after_aggregates remove_aggregates
                  (after_nulls (after_types parse_number df))).
Proof.
  unfold cleaned_table. rewrite rows_after_display.
  by rewrite (strip_row_eq _ df) by (by rewrite columns_after_aggregates).
Qed.

(** The state in which an exporting run ends. *)
Lemma runCleaningPipeline_final remove_aggregates remove_display now s name df :
  input_dir s = CsvFile name df →
  Forall (λ col, col ∈ columns df) required_columns →
  Forall (castable parse_number) (rows df) →
  ∃ lg, (run remove_aggregates remove_display now s).2
        = with_log lg
            (exported now
               (cleaned_table parse_number remove_aggregates remove_display df)
               (loaded df s)).
Proof.
  intros Hi Hreq Hc.
  destruct (runCleaningPipeline_exports parse_number sorted_mixed
              remove_aggregates remove_display now s name df Hi Hreq Hc) as [lg ->].
  destruct (summarize_and_return_logs_only sorted_mixed now
              (output_path (output_dir s) now)
              (with_log lg (exported now
                 (cleaned_table parse_number remove_aggregates remove_display df)
                 (loaded df s)))) as [lg' ->].
  by exists lg'.
Qed.

(** C2: a loaded table that misses a required column makes [validateSchema]
    return [False] and [runCleaningPipeline] return [(False, None, None)],
    and the run writes no file: the files on disk are those before the run.
    The same holds when the load itself fails. *)
Theorem schema_gate remove_aggregates remove_display now s :
  structural_failure s →
  (∀ name df c, input_dir s = CsvFile name df → data c = Some df →
                (validateSchema c).1 = Returned false)
  ∧ (run remove_aggregates remove_display now s).1 = Returned (false, None, None)
  ∧ files (run remove_aggregates remove_display now s).2 = files s.
Proof.
  intros [Hi | [Hi | (name & df & Hi & Hm)]].
  - split; [intros ? ? ? Hi'; congruence|].
    by destruct (runCleaningPipeline_load_fails parse_number sorted_mixed
                   remove_aggregates remove_display now s (or_introl Hi)) as [lg ->].
  - split; [intros ? ? ? Hi'; congruence|].
    by destruct (runCleaningPipeline_load_fails parse_number sorted_mixed
                   remove_aggregates remove_display now s (or_intror Hi)) as [lg ->].
  - split.
    + intros name' df' c Hi' Hc. rewrite Hi in Hi'. injection Hi' as _ <-.
      by destruct (validateSchema_missing c df Hc Hm) as [lg ->].
    + by destruct (runCleaningPipeline_schema_fails parse_number sorted_mixed
                     remove_aggregates remove_display now s name df Hi Hm) as [lg ->].
Qed.

(** C5: the advisory validators (ranges, ecosystem types, species groups,
    islands, counties) change nothing but the log, whatever the table holds
    and whether they return or raise: the table, the counters and the files
    are those before the call. *)
Theorem advisory_validation_changes_nothing s :
  unchanged s (validateDataRanges s).2
  ∧ unchanged s (validateEcosystemTypes sorted_mixed s).2
  ∧ unchanged s (validateSpeciesGroups sorted_mixed s).2
  ∧ unchanged s (validateIslands sorted_mixed s).2
  ∧ unchanged s (validateCounties sorted_mixed s).2.
Proof.
  refine (conj _ (conj _ (conj _ (conj _ _)))); apply logs_only_unchanged.
  - apply validateDataRanges_logs_only.
  - apply validate_vocabulary_logs_only.
  - apply validate_vocabulary_logs_only.
  - apply validate_vocabulary_logs_only.
  - apply validate_vocabulary_logs_only.
Qed.

Lemma to_numeric_idem c :
  to_numeric parse_number (to_numeric parse_number c) = to_numeric parse_number c.
Proof. destruct c; cbn; try done. by destruct (parse_number s). Qed.

Lemma year_cast_idem c :
  year_cast parse_number (year_cast parse_number c) = year_cast parse_number c.
Proof.
  unfold year_cast. destruct (to_numeric parse_number c); cbn; try done.
  - destruct (in_int64 _) eqn:E; cbn; [|done]. by rewrite E.
  - destruct (decide _); [|done].
    destruct (in_int64 _) eqn:E; cbn; [|done]. by rewrite E.
Qed.

Lemma year_cast_castable c r :
  cell "year" r = year_cast parse_number c → castable parse_number r.
Proof.
  unfold castable, year_cast. intros ->.
  destruct (to_numeric parse_number c); cbn; try done.
  - destruct (in_int64 _) eqn:E; cbn; [|done]. by rewrite E.
  - destruct (decide _); [|done].
    destruct (in_int64 _) eqn:E; cbn; [|done]. by rewrite E.
Qed.

Lemma coerce_row_idem r :
  coerce_row parse_number (coerce_row parse_number r) = coerce_row parse_number r.
Proof.
  unfold coerce_row at 1.
  assert (cell "year" (coerce_row parse_number r)
          = year_cast parse_number (cell "year" r)) as ->.
  { unfold coerce_row. by rewrite cell_insert_ne, cell_insert_eq. }
  assert (cell "exchange_value" (coerce_row parse_number r)
          = to_numeric parse_number (cell "exchange_value" r)) as ->.
  { unfold coerce_row. by rewrite cell_insert_eq. }
  rewrite year_cast_idem, to_numeric_idem. unfold coerce_row.
  apply map_eq. intros k.
  destruct (decide (k = "exchange_value")) as [->|];
    [by rewrite !lookup_insert_eq|].
  destruct (decide (k = "year")) as [->|];
    repeat first [rewrite lookup_insert_eq | rewrite lookup_insert_ne by done];
    done.
Qed.

Lemma after_types_idem df :
  after_types parse_number (after_types parse_number df) = after_types parse_number df.
Proof.
  unfold after_types. cbn. f_equal. rewrite <- list_fmap_compose.
  apply list_fmap_ext. intros i r _. cbn. apply coerce_row_idem.
Qed.

Lemma after_types_castable df :
  Forall (castable parse_number) (rows (after_types parse_number df)).
Proof.
  cbn. apply Forall_fmap, Forall_true. intros r. cbn.
  apply (year_cast_castable (cell "year" r)).
  unfold coerce_row. by rewrite cell_insert_ne, cell_insert_eq.
Qed.

(** C8: [validateDataTypes] is idempotent.  When a first application has
    returned, a second application returns too and changes nothing but the
    log: the cells, and so the nulls, are those left by the first.  Both
    applications log the same lines, with the null counts of that table. *)
Theorem validateDataTypes_idempotent s s1 :
  validateDataTypes parse_number s = (Returned (), s1) →
  ∃ s2 df1,
    validateDataTypes parse_number s1 = (Returned (), s2)
    ∧ unchanged s1 s2
    ∧ data s1 = Some df1
    ∧ log s1 = log s ++ types_log df1
    ∧ log s2 = log s1 ++ types_log df1.
Proof.
  intros H1.
  destruct (validateDataTypes_inv parse_number s s1 H1) as (df & Hd & Hy & He & Hc).
  rewrite (validateDataTypes_run parse_number s df Hd Hy He Hc) in H1.
  injection H1 as <-.
  eexists _, (after_types parse_number df).
  split.
  - erewrite validateDataTypes_run;
      [| reflexivity | exact Hy | exact He | apply after_types_castable].
    reflexivity.
  - rewrite after_types_idem. by repeat split.
Qed.

Lemma year_in_cleaned_table remove_aggregates remove_display df :
  "year" ∈ columns df →
  "year" ∈ columns (cleaned_table parse_number remove_aggregates remove_display df).
Proof.
  intros Hy. unfold cleaned_table, after_display.
  destruct (remove_display && nonempty _).
  - cbn [columns drop_columns]. apply list_elem_of_filter. split.
    + intros Hin. apply list_elem_of_filter in Hin as [_ Hin].
      revert Hin. compute_done.
    + by rewrite columns_after_aggregates.
  - by rewrite columns_after_aggregates.
Qed.

(** C9: when the table is empty after the removal stages,
    [generateSummaryStatistics] raises [TypeError] ([int] of the missing
    minimum of the empty [year] column) instead of returning a summary, and
    so does [runCleaningPipeline], although the load and the schema check
    succeeded; the empty table has been exported by then. *)
Theorem empty_table_raises remove_aggregates remove_display now s name df :
  input_dir s = CsvFile name df →
  Forall (λ col, col ∈ columns df) required_columns →
  Forall (castable parse_number) (rows df) →
  rows (cleaned_table parse_number remove_aggregates remove_display df) = [] →
  (∀ c t, data c = Some t → "year" ∈ columns t → rows t = [] →
          (generateSummaryStatistics sorted_mixed now c).1 = Raised TypeError)
  ∧ (run remove_aggregates remove_display now s).1 = Raised TypeError
  ∧ files (run remove_aggregates remove_display now s).2
      !! output_path (output_dir s) now
    = Some (cleaned_table parse_number remove_aggregates remove_display df).
Proof.
  intros Hi Hreq Hc Hempty. split.
  - intros c t Hd Hy Ht. by apply generateSummaryStatistics_empty with t.
  - destruct (runCleaningPipeline_final remove_aggregates remove_display now
                s name df Hi Hreq Hc) as [lg' Hfinal].
    rewrite Hfinal.
    destruct (runCleaningPipeline_exports parse_number sorted_mixed
                remove_aggregates remove_display now s name df Hi Hreq Hc) as [lg ->].
    unfold summarize_and_return, mbind at 1, M_bind at 1.
    match goal with
    | |- context [generateSummaryStatistics sorted_mixed now ?st] =>
        pose proof (generateSummaryStatistics_empty sorted_mixed now st _
                      eq_refl
                      (year_in_cleaned_table remove_aggregates remove_display df
                         (proj1 (required_columns_in df Hreq)))
                      Hempty) as He;
        destruct (generateSummaryStatistics sorted_mixed now st) as [o st'];
        cbn in He; subst o
    end.
    split; [done|]. cbn. apply lookup_insert_eq.
Qed.

(** C3: after a successful run the cleaned row count is at most the raw row
    count, and [rows_removed], which is their difference, is the number of
    rows dropped by [removeNullValues] plus the number dropped by
    [removeAggregateRows] (none when [remove_aggregates] is off).  The two
    numbers are taken on the tables the stages meet in the run:
    [removeNullValues] takes the coerced table to [after_nulls], and
    [removeAggregateRows] takes that one to [after_aggregates]. *)
Theorem rows_removed_accounting remove_aggregates remove_display now s
    output_file summary :
  (run remove_aggregates remove_display now s).1
  = Returned (true, Some output_file, Some summary) →
  ∃ name df,
    input_dir s = CsvFile name df ∧
    let s' := (run remove_aggregates remove_display now s).2 in
    let coerced := after_types parse_number df in
    let dropped_nulls := (len coerced - len (after_nulls coerced))%Z in
    let dropped_aggregates :=
      (len (after_nulls coerced)
       - len (after_aggregates remove_aggregates (after_nulls coerced)))%Z in
    raw_row_count s' = len df
    ∧ Summary.raw_row_count summary = raw_row_count s'
    ∧ Summary.cleaned_row_count summary = cleaned_row_count s'
    ∧ (cleaned_row_count s' ≤ raw_row_count s')%Z
    ∧ Summary.rows_removed summary = (raw_row_count s' - cleaned_row_count s')%Z
    ∧ Summary.rows_removed summary = (dropped_nulls + dropped_aggregates)%Z
    ∧ (0 ≤ dropped_nulls)%Z ∧ (0 ≤ dropped_aggregates)%Z
    ∧ (remove_aggregates = false → dropped_aggregates = 0%Z)
    ∧ (∀ c, data c = Some coerced →
            data (removeNullValues c).2 = Some (after_nulls coerced))
    ∧ (∀ c, data c = Some (after_nulls coerced) →
            data (removeAggregateRows remove_aggregates c).2
            = Some (after_aggregates remove_aggregates (after_nulls coerced))).
Proof.
  intros Hrun.
  destruct (runCleaningPipeline_cases parse_number sorted_mixed
              remove_aggregates remove_display now s)
    as [(lg & _ & E) | [(name & df & lg & _ & _ & E)
       | [(name & df & e & lg & _ & _ & _ & E)
       | (name & df & lg & Hi & Hreq & Hc & E)]]];
    rewrite E in Hrun; try done.
  exists name, df. split; [done|].
  destruct (runCleaningPipeline_final remove_aggregates remove_display now
              s name df Hi Hreq Hc) as [lg' Hfinal].
  cbn zeta. rewrite Hfinal.
  destruct (summarize_and_return sorted_mixed now _ _) as [o st] eqn:Hs.
  cbn in Hrun. subst o.
  apply summarize_and_return_Returned in Hs
    as (summary' & t & Hr & Ht & Hraw & Hcl & Hrem).
  injection Hr as _ <-. cbn in Ht. injection Ht as <-.
  cbn in Hraw, Hcl, Hrem. cbn [raw_row_count cleaned_row_count with_log exported
    set_cleaned_row_count write_file set_data loaded set_raw_row_count].
  rewrite Hraw, Hcl, Hrem.
  unfold cleaned_table. rewrite len_after_display.
  assert (len (after_nulls (after_types parse_number df))
          ≤ len (after_types parse_number df))%Z as Hn.
  { unfold len. apply inj_le. cbn [rows after_nulls]. apply length_filter. }
  assert (len (after_aggregates remove_aggregates
                 (after_nulls (after_types parse_number df)))
          ≤ len (after_nulls (after_types parse_number df)))%Z as Ha.
  { destruct remove_aggregates; [|done].
    unfold len. apply inj_le. cbn [rows after_aggregates]. apply length_filter. }
  assert (len (after_types parse_number df) = len df) as Ht.
  { unfold len. cbn. by rewrite length_fmap. }
  destruct (required_columns_in df Hreq) as (_ & _ & _ & _ & Heco & Hev).
  repeat split; try lia.
  - intros ->. cbn. lia.
  - intros c Hd.
    by destruct (removeNullValues_run c _ Hd Hev) as [lg1 ->].
  - intros c Hd.
    by destruct (removeAggregateRows_run remove_aggregates c _ Hd Heco) as [lg1 ->].
Qed.

(** C4: for a loaded table that passes the schema check and whose years can
    be cast, the run exports a table.  With [remove_aggregates=False] every
    "All Ecosystems" row of the loaded table whose exchange value is not
    null after coercion is in the exported table (as coerced, and without
    its display columns when those are removed); with
    [remove_aggregates=True] the exported table holds no "All Ecosystems"
    row. *)
Theorem aggregate_flag remove_display now s name df :
  input_dir s = CsvFile name df →
  Forall (λ col, col ∈ columns df) required_columns →
  Forall (castable parse_number) (rows df) →
  (∃ out,
     files (run false remove_display now s).2 !! output_path (output_dir s) now
     = Some out
     ∧ ∀ r, r ∈ rows df → is_rollup r →
            cell "exchange_value" (coerce_row parse_number r) ≠ NA →
            strip_row remove_display df (coerce_row parse_number r) ∈ rows out)
  ∧ (∃ out,
       files (run true remove_display now s).2 !! output_path (output_dir s) now
       = Some out
       ∧ ∀ r, r ∈ rows out → ¬ is_rollup r).
Proof.
  intros Hi Hreq Hc. split.
  - destruct (runCleaningPipeline_final false remove_display now
                s name df Hi Hreq Hc) as [lg ->].
    eexists. split; [apply lookup_insert_eq|].
    intros r Hr _ Hv. rewrite rows_cleaned_table. cbn.
    apply list_elem_of_fmap_2, list_elem_of_filter. split; [done|].
    by apply list_elem_of_fmap_2.
  - destruct (runCleaningPipeline_final true remove_display now
                s name df Hi Hreq Hc) as [lg ->].
    eexists. split; [apply lookup_insert_eq|].
    intros r. rewrite rows_cleaned_table. cbn.
    intros (r' & -> & Hr')%list_elem_of_fmap.
    apply list_elem_of_filter in Hr' as [Hr' _].
    unfold is_rollup in *. rewrite cell_strip_row; [done | compute_done].
Qed.

(** C10: the row-removal stages keep the rows they keep in order.  The
    table after [removeNullValues], and after [removeAggregateRows], is a
    subsequence of the table before; and the exported table is a subsequence
    of the loaded table (its rows coerced, and without their display columns
    when those are removed). *)
Theorem removal_preserves_order remove_aggregates remove_display now s name df :
  input_dir s = CsvFile name df →
  Forall (λ col, col ∈ columns df) required_columns →
  Forall (castable parse_number) (rows df) →
  (∀ c t t', data c = Some t → data (removeNullValues c).2 = Some t' →
             rows t' `sublist_of` rows t)
  ∧ (∀ c t t', data c = Some t →
               data (removeAggregateRows remove_aggregates c).2 = Some t' →
               rows t' `sublist_of` rows t)
  ∧ ∃ out,
      files (run remove_aggregates remove_display now s).2
        !! output_path (output_dir s) now = Some out
      ∧ rows out `sublist_of`
          (strip_row remove_display df ∘ coerce_row parse_number <$> rows df).
Proof.
  intros Hi Hreq Hc.
  split; [apply removeNullValues_sublist|].
  split; [apply removeAggregateRows_sublist|].
  destruct (runCleaningPipeline_final remove_aggregates remove_display now
              s name df Hi Hreq Hc) as [lg ->].
  eexists. split; [apply lookup_insert_eq|].
  rewrite rows_cleaned_table, list_fmap_compose.
  apply fmap_sublist.
  transitivity (rows (after_nulls (after_types parse_number df))).
  - destruct remove_aggregates; [apply sublist_filter | done].
  - apply sublist_filter.
Qed.

End Claims.

(** ** Properties of the orchestrator *)

Lemma truthy_success_record output_file summary :
  truthy (Some (success_record output_file summary)) = true.
Proof.
  unfold truthy, success_record. apply bool_decide_eq_true, insert_non_empty.
Qed.

Lemma truthy_failure_record error :
  truthy (Some (failure_record error)) = true.
Proof.
  unfold truthy, failure_record. apply bool_decide_eq_true, insert_non_empty.
Qed.

Lemma success_record_success output_file summary :
  subscript (success_record output_file summary) "success" = Returned (VBool true).
Proof. unfold subscript, success_record. by rewrite lookup_insert_eq. Qed.

Lemma success_record_summary output_file summary :
  subscript (success_record output_file summary) "summary" = Returned summary.
Proof.
  unfold subscript, success_record.
  by rewrite !lookup_insert_ne, lookup_insert_eq by done.
Qed.

Lemma failure_record_success error :
  subscript (failure_record error) "success" = Returned (VBool false).
Proof. unfold subscript, failure_record. by rewrite lookup_insert_eq. Qed.

Lemma failure_record_summary error :
  subscript (failure_record error) "summary" = Raised (KeyError "summary").
Proof.
  unfold subscript, failure_record.
  by rewrite !lookup_insert_ne, lookup_empty by done.
Qed.

Lemma success_record_lookup output_file summary :
  success_record output_file summary !! "success" = Some (VBool true)
  ∧ success_record output_file summary !! "summary" = Some summary
  ∧ success_record output_file summary !! "output_file"
    = Some (VStr (default "None" output_file))
  ∧ success_record output_file summary !! "error" = None.
Proof.
  unfold success_record, py_str. by repeat split.
Qed.

Lemma failure_record_lookup error :
  failure_record error !! "success" = Some (VBool false)
  ∧ failure_record error !! "error" = Some (VStr error)
  ∧ failure_record error !! "summary" = None
  ∧ failure_record error !! "output_file" = None.
Proof.
  unfold failure_record. by repeat split.
Qed.

Section OrchestratorProofs.
Context (parse_number : string → option Q).
Context (sorted_mixed : list Cell → Outcome (list Cell)).
Context (CommercialDataCleaner : Type).
Context (commercial_runCleaningPipeline :
  bool → bool → DateTime →
  M CommercialDataCleaner (bool * option string * option CommercialSummary.t)).

Local Abbreviation Pipeline := (FisheriesCleaningPipeline CommercialDataCleaner).

Ltac run_pipeline :=
  unfold mbind, M_bind, mret, M_ret, say, modify, lift, get, on_commercial,
    on_noncommercial; cbn.

Lemma runCommercialCleaning_run remove_aggregates remove_display now (p : Pipeline) r cc :
  commercial_runCleaningPipeline remove_aggregates remove_display now
    (commercial_cleaner p) = (Returned r, cc) →
  ∃ rp, runCommercialCleaning commercial_runCleaningPipeline
          remove_aggregates remove_display now p
        = (Returned r.1.1,
           mkPipeline cc (noncommercial_cleaner p)
             (mkResults (Some (commercial_record r)) (non_commercial (results p)))
             rp).
Proof.
  intros H. unfold runCommercialCleaning. run_pipeline. rewrite H.
  destruct r as [[[] output_file] summary]; cbn; eexists; reflexivity.
Qed.

Lemma runNoncommercialCleaning_run remove_aggregates remove_display now (p : Pipeline) r nc :
  runCleaningPipeline parse_number sorted_mixed remove_aggregates remove_display now
    (noncommercial_cleaner p) = (Returned r, nc) →
  ∃ rp, runNoncommercialCleaning parse_number sorted_mixed
          remove_aggregates remove_display now p
        = (Returned r.1.1,
           mkPipeline (commercial_cleaner p) nc
             (mkResults (commercial (results p)) (Some (noncommercial_record r)))
             rp).
Proof.
  intros H. unfold runNoncommercialCleaning. run_pipeline. rewrite H.
  destruct r as [[[] output_file] summary]; cbn; eexists; reflexivity.
Qed.

Lemma report_block_failure kind error dims (p : Pipeline) :
  ∃ rp, report_block kind (Some (failure_record error)) dims p
        = (Returned (), with_report rp p).
Proof.
  unfold report_block. rewrite truthy_failure_record.
  unfold the_dict. run_pipeline. unfold mbind, Outcome_bind.
  rewrite failure_record_success. cbn. eexists. reflexivity.
Qed.

Lemma report_block_success kind output_file summary dims (p : Pipeline) :
  (∃ s, summary = VSummary s) ∨ (∃ s, summary = VCommercialSummary s) →
  (∃ ds, collect (λ f, f summary) dims = Returned ds) →
  ∃ rp, report_block kind (Some (success_record output_file summary)) dims p
        = (Returned (), with_report rp p).
Proof.
  intros Hs [ds Hds]. unfold report_block. rewrite truthy_success_record.
  unfold result_summary, the_dict. run_pipeline. unfold mbind, Outcome_bind.
  rewrite success_record_success, success_record_summary. cbn.
  rewrite Hds.
  destruct Hs as [[s ->] | [s ->]]; cbn; eexists; reflexivity.
Qed.

Lemma generatePipelineReport_run (p : Pipeline) rc rn :
  commercial (results p) = Some (commercial_record rc) →
  non_commercial (results p) = Some (noncommercial_record rn) →
  (rc.1.1 = true → is_Some rc.2) →
  (rn.1.1 = true → is_Some rn.2) →
  ∃ rp, generatePipelineReport p = (Returned (), with_report rp p).
Proof.
  intros Hc Hn Hcs Hns. unfold generatePipelineReport.
  unfold mbind at 1, M_bind at 1, say, modify. cbn.
  unfold mbind at 1, M_bind at 1, get. cbn. rewrite Hc.
  match goal with
  | |- context [ (report_block ?k ?r ?d ≫= ?f) ?st ] =>
      assert (∃ rp, report_block k r d st = (Returned (), with_report rp st))
        as [rp1 E1]
  end.
  { unfold commercial_record. destruct rc as [[[] oc] mc]; cbn in *.
    - destruct (Hcs eq_refl) as [cs ->]. cbn.
      apply report_block_success; [right; eauto | cbn; eauto].
    - apply report_block_failure. }
  rewrite (bind_Returned _ _ _ _ _ E1).
  unfold mbind at 1, M_bind at 1, get. cbn. rewrite Hn.
  match goal with
  | |- context [ report_block ?k ?r ?d ?st ] =>
      assert (∃ rp, report_block k r d st = (Returned (), with_report rp st))
        as [rp2 E2]
  end.
  { unfold noncommercial_record. destruct rn as [[[] on] mn]; cbn in *.
    - destruct (Hns eq_refl) as [ns ->]. cbn.
      apply report_block_success; [left; eauto | cbn; eauto].
    - apply report_block_failure. }
  rewrite E2. eexists. reflexivity.
Qed.

(** A run of the non-commercial cleaner that returns reports either a
    failure with nothing else, or a success with a path and a summary. *)
Lemma runCleaningPipeline_Returned remove_aggregates remove_display now s r :
  (runCleaningPipeline parse_number sorted_mixed
     remove_aggregates remove_display now s).1 = Returned r →
  r = (false, None, None) ∨ ∃ output_file summary, r = (true, Some output_file, Some summary).
Proof.
  intros Hrun.
  destruct (runCleaningPipeline_cases parse_number sorted_mixed
              remove_aggregates remove_display now s)
    as [(lg & _ & E) | [(name & df & lg & _ & _ & E)
       | [(name & df & e & lg & _ & _ & _ & E)
       | (name & df & lg & Hi & Hreq & Hc & E)]]];
    rewrite E in Hrun; cbn in Hrun; try (injection Hrun as <-; by left); try done.
  right.
  destruct (summarize_and_return sorted_mixed now _ _) as [o st] eqn:Hs.
  cbn in Hrun. subst o.
  apply summarize_and_return_Returned in Hs as (summary & t & -> & _). eauto.
Qed.

(** C7, as amended: in every run of [runFullPipeline] in which the two
    cleaners return, [rc] for the commercial one (with a summary when it
    reports success) and [rn] for the non-commercial one, both cleaners are
    run whether or not the first one reported success, and the result is the
    conjunction of the two success flags.  Each outcome is recorded under
    its own key of [results]: a dictionary whose ['success'] entry is the
    cleaner's flag, and which holds the cleaner's summary and an output file
    and no error marker after a success, and the error marker and neither
    summary nor output file after a failure. *)
Theorem runFullPipeline_outcomes remove_aggregates remove_display now (p : Pipeline)
    rc rn :
  (commercial_runCleaningPipeline remove_aggregates remove_display now
     (commercial_cleaner p)).1 = Returned rc →
  (rc.1.1 = true → is_Some rc.2) →
  (runCleaningPipeline parse_number sorted_mixed remove_aggregates remove_display now
     (noncommercial_cleaner p)).1 = Returned rn →
  ∃ p',
    runFullPipeline parse_number sorted_mixed commercial_runCleaningPipeline
      remove_aggregates remove_display now p
    = (Returned (rc.1.1 && rn.1.1), p')
    ∧ commercial_cleaner p'
      = (commercial_runCleaningPipeline remove_aggregates remove_display now
           (commercial_cleaner p)).2
    ∧ noncommercial_cleaner p'
      = (runCleaningPipeline parse_number sorted_mixed
           remove_aggregates remove_display now (noncommercial_cleaner p)).2
    ∧ (∃ d, commercial (results p') = Some d
            ∧ d !! "success" = Some (VBool rc.1.1)
            ∧ if rc.1.1
              then (∃ summary, rc.2 = Some summary
                               ∧ d !! "summary" = Some (VCommercialSummary summary))
                   ∧ is_Some (d !! "output_file") ∧ d !! "error" = None
              else d !! "error" = Some (VStr "Commercial data cleaning failed")
                   ∧ d !! "summary" = None ∧ d !! "output_file" = None)
    ∧ (∃ d, non_commercial (results p') = Some d
            ∧ d !! "success" = Some (VBool rn.1.1)
            ∧ if rn.1.1
              then (∃ summary, rn.2 = Some summary
                               ∧ d !! "summary" = Some (VSummary summary))
                   ∧ is_Some (d !! "output_file") ∧ d !! "error" = None
              else d !! "error" = Some (VStr "Non commercial data cleaning failed")
                   ∧ d !! "summary" = None ∧ d !! "output_file" = None).
Proof.
  intros Hc Hcs Hn.
  assert (rn.1.1 = true → is_Some rn.2) as Hns.
  { destruct (runCleaningPipeline_Returned _ _ _ _ _ Hn) as [-> | (o & sm & ->)];
      cbn; [done | eauto]. }
  destruct (commercial_runCleaningPipeline remove_aggregates remove_display now
              (commercial_cleaner p)) as [oc cc] eqn:Ec.
  destruct (runCleaningPipeline parse_number sorted_mixed remove_aggregates
              remove_display now (noncommercial_cleaner p)) as [on nc] eqn:En.
  cbn in Hc, Hn. subst oc on.
  unfold runFullPipeline, setupLogging.
  do 4 (unfold mbind at 1, M_bind at 1, say at 1, modify at 1; cbn).
  match goal with
  | |- context [ (runCommercialCleaning _ _ _ _ ≫= ?f) ?st ] =>
      edestruct (runCommercialCleaning_run remove_aggregates remove_display now st)
        as [rp1 E1]; [exact Ec|];
      pose proof (bind_Returned _ f st _ _ E1) as Hstep
  end.
  rewrite Hstep. clear Hstep E1.
  match goal with
  | |- context [ (runNoncommercialCleaning _ _ _ _ _ ≫= ?f) ?st ] =>
      edestruct (runNoncommercialCleaning_run remove_aggregates remove_display now st)
        as [rp2 E2]; [exact En|];
      pose proof (bind_Returned _ f st _ _ E2) as Hstep
  end.
  rewrite Hstep. clear Hstep E2.
  cbn [commercial_cleaner noncommercial_cleaner results commercial non_commercial].
  match goal with
  | |- context [ (generatePipelineReport ≫= ?f) ?st ] =>
      edestruct (generatePipelineReport_run st rc rn) as [rp3 E3];
        [reflexivity | reflexivity | exact Hcs | exact Hns |];
      pose proof (bind_Returned _ f st _ _ E3) as Hstep
  end.
  rewrite Hstep. clear Hstep E3.
  run_pipeline. eexists. split; [reflexivity|].
  split; [done|]. split; [done|]. cbn. split.
  - eexists. split; [reflexivity|]. unfold commercial_record.
    destruct rc as [[[] oc] mc]; cbn in *.
    + destruct (Hcs eq_refl) as [cs ->]. cbn.
      destruct (success_record_lookup oc (VCommercialSummary cs))
        as (-> & -> & -> & ->).
      eauto 10.
    + by destruct (failure_record_lookup "Commercial data cleaning failed")
        as (-> & -> & -> & ->).
  - eexists. split; [reflexivity|]. unfold noncommercial_record.
    destruct rn as [[[] on] mn]; cbn in *.
    + destruct (Hns eq_refl) as [ns ->]. cbn.
      destruct (success_record_lookup on (VSummary ns)) as (-> & -> & -> & ->).
      eauto 10.
    + by destruct (failure_record_lookup "Non commercial data cleaning failed")
        as (-> & -> & -> & ->).
Qed.

End OrchestratorProofs.

(** ** The combined summary after a failure, and two exports in one day *)

Lemma generateCombinedSummary_after_failure {C} now (p : FisheriesCleaningPipeline C)
    error :
  non_commercial (results p) = Some (failure_record error) →
  (commercial (results p) = None
   ∨ ∃ output_file summary,
       commercial (results p) = Some (success_record output_file summary)) →
  (generateCombinedSummary now p).1 = Raised (KeyError "summary").
Proof.
  intros Hn Hc. unfold generateCombinedSummary.
  unfold mbind at 1, M_bind at 1, say, modify. cbn -[truthy].
  unfold mbind at 1, M_bind at 1, get. cbn -[truthy].
  rewrite Hn, truthy_failure_record.
  assert (result_summary (Some (failure_record error)) = Raised (KeyError "summary"))
    as ->.
  { unfold result_summary. cbn. apply failure_record_summary. }
  destruct Hc as [-> | (o & v & ->)].
  - reflexivity.
  - rewrite truthy_success_record.
    assert (result_summary (Some (success_record o v)) = Returned v) as ->.
    { unfold result_summary. cbn. apply success_record_summary. }
    reflexivity.
Qed.

Lemma generateCombinedSummary_not_run {C} now (p : FisheriesCleaningPipeline C) :
  commercial (results p) = None → non_commercial (results p) = None →
  (generateCombinedSummary now p).1 = Returned (mkCombined now VNone VNone None).
Proof.
  intros Hc Hn. unfold generateCombinedSummary.
  unfold mbind, M_bind, mret, M_ret, say, modify, lift, get. cbn.
  by rewrite Hc, Hn.
Qed.

Lemma output_path_same_day out now now' :
  dt_year now = dt_year now' → dt_month now = dt_month now' →
  dt_day now = dt_day now' →
  output_path out now = output_path out now'.
Proof. intros Hy Hm Hd. unfold output_path, strftime_Ymd. by rewrite Hy, Hm, Hd. Qed.

(** C1: after a run in which the commercial cleaner succeeded and the
    non-commercial cleaner found no input file, [results] holds a success
    record and a failure record, and [generateCombinedSummary] raises
    [KeyError('summary')]: no combined summary is returned at all. *)
Theorem combined_summary_after_partial_failure :
  commercial (results after_partial_failure)
  = Some (success_record (Some "data/cleaned/cleaned_commercial_20260223.csv")
                         (VCommercialSummary commercial_summary))
  ∧ non_commercial (results after_partial_failure)
    = Some (failure_record "Non commercial data cleaning failed")
  ∧ (generateCombinedSummary day1 after_partial_failure).1
    = Raised (KeyError "summary").
Proof. repeat split; vm_compute; reflexivity. Qed.

(** C6: two runs on the same day export to the same path; after the second
    run the file holds the second table, the first export is gone, and the
    output directory holds one file, not two.  (A run on the next day has a
    path of its own.) *)
Theorem same_day_export_overwrites :
  output_path "data/cleaned" day1 = "data/cleaned/cleaned_noncommercial_20260223.csv"
  ∧ output_path "data/cleaned" day1_later = output_path "data/cleaned" day1
  ∧ output_path "data/cleaned" day2 ≠ output_path "data/cleaned" day1
  ∧ files morning_run !! output_path "data/cleaned" day1
    = Some (cleaned_table parse_decimal true false sample)
  ∧ files afternoon_run !! output_path "data/cleaned" day1
    = Some (cleaned_table parse_decimal true false sample_later)
  ∧ len (cleaned_table parse_decimal true false sample) = 1%Z
  ∧ len (cleaned_table parse_decimal true false sample_later) = 2%Z
  ∧ size (files afternoon_run) = 1.
Proof. repeat split; try (vm_compute; reflexivity). compute_done. Qed.

(** C7, as stated for every run, fails: when the commercial cleaner succeeds
    and every exchange value of the non-commercial table is blank, the
    non-commercial cleaner raises [TypeError] (its cleaned table is empty),
    and so does [runFullPipeline]: it returns no flag at all, and no outcome
    of the non-commercial cleaner is recorded. *)
Lemma runFullPipeline_returns_no_flag :
  let r := runFullPipeline parse_decimal no_mixed_sort commercial_succeeds
             true false day1 (new_pipeline () (fresh all_blank)) in
  r.1 = Raised TypeError
  ∧ (∀ flag, r.1 ≠ Returned flag)
  ∧ non_commercial (results r.2) = None.
Proof.
  assert ((runFullPipeline parse_decimal no_mixed_sort commercial_succeeds
             true false day1 (new_pipeline () (fresh all_blank))).1
          = Raised TypeError) as E by (vm_compute; reflexivity).
  cbv zeta. rewrite E. split; [done|]. split; [done|].
  vm_compute. reflexivity.
Qed.

(** ** The properties at concrete inputs *)

Lemma schema_gate_witness :
  (validateSchema (loaded no_island (fresh no_island))).1 = Returned false
  ∧ (runCleaningPipeline parse_decimal no_mixed_sort true false day1
       (fresh no_island)).1 = Returned (false, None, None)
  ∧ files (runCleaningPipeline parse_decimal no_mixed_sort true false day1
             (fresh no_island)).2 = ∅.
Proof.
  destruct (schema_gate parse_decimal no_mixed_sort true false day1 (fresh no_island))
    as (Hv & Hr).
  - right. right. exists "tidied_noncomm_ev.csv", no_island.
    split; [reflexivity | compute_done].
  - split; [|exact Hr].
    by apply (Hv "tidied_noncomm_ev.csv" no_island).
Defined.

Lemma rows_removed_accounting_witness :
  match (runCleaningPipeline parse_decimal no_mixed_sort true false day1
           (fresh sample)).1 with
  | Returned (true, Some _, Some summary) =>
      Summary.raw_row_count summary = 3%Z
      ∧ Summary.rows_removed summary = (1 + 1)%Z
  | _ => False
  end.
Proof.
  assert (succeeded (runCleaningPipeline parse_decimal no_mixed_sort true false
                       day1 (fresh sample)).1 = true) as Hok
    by (vm_compute; reflexivity).
  destruct (runCleaningPipeline parse_decimal no_mixed_sort true false day1
              (fresh sample)).1 as [[[[] [output_file|]] [summary|]]|e] eqn:E;
    try discriminate Hok.
  destruct (rows_removed_accounting parse_decimal no_mixed_sort true false day1
              (fresh sample) output_file summary E)
    as (name & df & Hi & Hraw & Hsr & _ & _ & _ & Hsum & _).
  injection Hi as _ <-. split.
  - rewrite Hsr, Hraw. reflexivity.
  - rewrite Hsum. vm_compute. reflexivity.
Defined.

Lemma aggregate_flag_witness :
  ∃ out,
    files (runCleaningPipeline parse_decimal no_mixed_sort true false day1
             (fresh sample)).2 !! output_path "data/cleaned" day1 = Some out
    ∧ ∀ r, r ∈ rows out → ¬ is_rollup r.
Proof.
  refine (proj2 (aggregate_flag parse_decimal no_mixed_sort false day1
                   (fresh sample) "tidied_noncomm_ev.csv" sample eq_refl _ _)).
  - compute_done.
  - compute_done.
Defined.

Lemma validateDataTypes_idempotent_witness :
  let s1 := (validateDataTypes parse_decimal (loaded sample (fresh sample))).2 in
  ∃ s2, validateDataTypes parse_decimal s1 = (Returned (), s2) ∧ unchanged s1 s2.
Proof.
  assert ((validateDataTypes parse_decimal (loaded sample (fresh sample))).1
          = Returned ()) as Hok by (vm_compute; reflexivity).
  destruct (validateDataTypes parse_decimal (loaded sample (fresh sample)))
    as [o s1] eqn:E.
  cbn in Hok. subst o. cbn.
  destruct (validateDataTypes_idempotent parse_decimal _ s1 E)
    as (s2 & df1 & H2 & Hu & _).
  exists s2. split; [exact H2 | exact Hu].
Defined.

Lemma empty_table_raises_witness :
  (runCleaningPipeline parse_decimal no_mixed_sort true false day1
     (fresh all_blank)).1 = Raised TypeError.
Proof.
  refine (proj1 (proj2 (empty_table_raises parse_decimal no_mixed_sort true false
                          day1 (fresh all_blank) "tidied_noncomm_ev.csv" all_blank
                          eq_refl _ _ _))).
  - compute_done.
  - compute_done.
  - vm_compute. reflexivity.
Defined.

Lemma removal_preserves_order_witness :
  ∃ out,
    files (runCleaningPipeline parse_decimal no_mixed_sort true false day1
             (fresh interleaved)).2 !! output_path "data/cleaned" day1 = Some out
    ∧ rows out `sublist_of`
        (strip_row false interleaved ∘ coerce_row parse_decimal <$> rows interleaved)
    ∧ cell "island" <$> rows out = [CStr "Oahu"; CStr "Kauai"; CStr "Lanai"].
Proof.
  destruct (proj2 (proj2 (removal_preserves_order parse_decimal no_mixed_sort
                            true false day1 (fresh interleaved)
                            "tidied_noncomm_ev.csv" interleaved eq_refl
                            ltac:(compute_done) ltac:(compute_done))))
    as (out & Hf & Hs).
  exists out. split; [exact Hf|]. split; [exact Hs|].
  assert ((λ t, cell "island" <$> rows t)
            <$> files (runCleaningPipeline parse_decimal no_mixed_sort true false
                         day1 (fresh interleaved)).2
                !! output_path (output_dir (fresh interleaved)) day1
          = Some [CStr "Oahu"; CStr "Kauai"; CStr "Lanai"]) as Hi
    by (vm_compute; reflexivity).
  rewrite Hf in Hi. by injection Hi.
Defined.

Lemma runFullPipeline_outcomes_witness :
  ∃ p' dc dn,
    runFullPipeline parse_decimal no_mixed_sort commercial_fails true false day1
      (new_pipeline () (fresh sample)) = (Returned false, p')
    ∧ commercial (results p') = Some dc
    ∧ dc !! "success" = Some (VBool false)
    ∧ dc !! "error" = Some (VStr "Commercial data cleaning failed")
    ∧ non_commercial (results p') = Some dn
    ∧ dn !! "success" = Some (VBool true)
    ∧ dn !! "error" = None.
Proof.
  assert (succeeded (runCleaningPipeline parse_decimal no_mixed_sort true false
                       day1 (fresh sample)).1 = true) as Hok
    by (vm_compute; reflexivity).
  destruct (runCleaningPipeline parse_decimal no_mixed_sort true false day1
              (fresh sample)).1 as [[[[] [output_file|]] [summary|]]|e] eqn:E;
    try discriminate Hok.
  destruct (runFullPipeline_outcomes parse_decimal no_mixed_sort () commercial_fails
              true false day1 (new_pipeline () (fresh sample))
              (false, None, None) (true, Some output_file, Some summary) eq_refl)
    as (p' & Hrun & _ & _ & (dc & Hc & Hcs & Hce & _) & (dn & Hn & Hns & _ & _ & Hne)).
  - intros [=].
  - exact E.
  - exists p', dc, dn. repeat split; assumption.
Defined.

(** * Further properties of the cleaner *)

(** ** Loading and the schema check *)

(** X1: [loadData] never raises.  When no file is found or the read fails it
    returns [False] and leaves the table (also one loaded earlier), the
    counters and the files as they were; when a file is read it returns
    [True], holds that table and sets [raw_row_count] to its length, and
    touches neither [cleaned_row_count] nor the files. *)
Theorem loadData_outcome s :
  match input_dir s with
  | CsvFile name df =>
      (loadData s).1 = Returned true
      ∧ data (loadData s).2 = Some df
      ∧ raw_row_count (loadData s).2 = len df
      ∧ cleaned_row_count (loadData s).2 = cleaned_row_count s
      ∧ files (loadData s).2 = files s
  | _ => (loadData s).1 = Returned false ∧ unchanged s (loadData s).2
  end.
Proof.
  destruct (input_dir s) as [| |name df] eqn:Hi.
  - by destruct (loadData_fails s (or_introl Hi)) as [lg ->].
  - by destruct (loadData_fails s (or_intror Hi)) as [lg ->].
  - by destruct (loadData_file s name df Hi) as [lg ->].
Qed.

(** X2: on a loaded table [validateSchema] returns [True] exactly when each
    of the six required columns is present, whatever other columns there
    are, and it changes nothing but the log. *)
Theorem validateSchema_iff s df :
  data s = Some df →
  ((validateSchema s).1 = Returned true
   ↔ Forall (λ col, col ∈ columns df) required_columns)
  ∧ ((validateSchema s).1 = Returned false
     ↔ Exists (λ col, col ∉ columns df) required_columns)
  ∧ unchanged s (validateSchema s).2.
Proof.
  intros Hd.
  destruct (decide (Forall (λ col, col ∈ columns df) required_columns)) as [Hall|Hex].
  - destruct (validateSchema_ok s df Hd Hall) as [lg ->]. cbn.
    split; [done|]. split; [|done]. split; [done|].
    intros Hex. exfalso. apply Exists_exists in Hex as (c & Hc & Hn).
    rewrite Forall_forall in Hall. by apply Hn, Hall.
  - pose proof Hex as Hex'. apply not_Forall_Exists in Hex'; [|apply _].
    destruct (validateSchema_missing s df Hd Hex') as [lg ->]. cbn.
    split; [split; [done | by intros ?]|]. done.
Qed.

(** ** Coercion *)

Lemma collect_Raised_kind {A B} (f : A → Outcome B) (e : PyExc) (l : list A) e' :
  (∀ x e'', f x = Raised e'' → e'' = e) → collect f l = Raised e' → e' = e.
Proof.
  intros Hf. induction l as [|x l IH]; cbn; [done|].
  destruct (f x) as [y|e''] eqn:Hx.
  - destruct (collect f l); [done|]. intros [= <-]. by apply IH.
  - intros [= <-]. by eapply Hf.
Qed.

Section MoreStages.
Context (parse_number : string → option Q).
Context (sorted_mixed : list Cell → Outcome (list Cell)).

Lemma astype_to_numeric_Raised c e :
  astype_Int64 (to_numeric parse_number c) = Raised e → e = TypeError.
Proof.
  destruct c as [|z|q|t]; cbn; try done.
  - destruct (in_int64 _); [done|]. by intros [= <-].
  - destruct (decide _); [|by intros [= <-]].
    destruct (in_int64 _); [done|]. by intros [= <-].
  - destruct (parse_number t) as [q|]; cbn; [|done].
    destruct (decide _); [|by intros [= <-]].
    destruct (in_int64 _); [done|]. by intros [= <-].
Qed.

(** X3: a year that cannot be cast to [Int64] (a float that is not a whole
    number, or a whole number outside the range of [int64]) makes
    [validateDataTypes] raise [TypeError] before any column is assigned: the
    table, the counters and the files are as they were. *)
Theorem validateDataTypes_uncastable s df :
  data s = Some df → "year" ∈ columns df →
  ¬ Forall (castable parse_number) (rows df) →
  (validateDataTypes parse_number s).1 = Raised TypeError
  ∧ unchanged s (validateDataTypes parse_number s).2.
Proof.
  intros Hd Hy Hc.
  destruct (validateDataTypes_raises parse_number s df Hd Hy Hc) as (e & lg & E).
  rewrite E. split; [|done]. cbn. f_equal.
  revert E. unfold validateDataTypes. run_unfold. rewrite Hd. cbn.
  rewrite (getitem_in _ _ Hy), <- list_fmap_compose, collect_fmap.
  destruct (collect _ (rows df)) as [ys|e'] eqn:Hcol.
  - apply collect_Returned_inv in Hcol.
    apply not_Forall_Exists in Hc; [|apply _].
    apply Exists_exists in Hc as (r & Hr & Hnc).
    rewrite Forall_forall in Hcol. by specialize (Hcol r Hr).
  - intros [= <- _].
    eapply (collect_Raised_kind _ TypeError) in Hcol; [done|].
    intros r e''. apply astype_to_numeric_Raised.
Qed.

(** X4: without an [exchange_value] column, and with years that can all be
    cast (each missing or a whole number in the range of [int64]),
    [validateDataTypes] raises [KeyError], but only after it has assigned
    the coerced [year] column: the table is left half coerced. *)
Theorem validateDataTypes_missing_exchange_value s df :
  data s = Some df → "year" ∈ columns df → "exchange_value" ∉ columns df →
  Forall (castable parse_number) (rows df) →
  (validateDataTypes parse_number s).1 = Raised (KeyError "exchange_value")
  ∧ data (validateDataTypes parse_number s).2
    = Some {| columns := columns df;
              rows := (λ r, <["year" := year_cast parse_number (cell "year" r)]> r)
                        <$> rows df |}.
Proof.
  intros Hd Hy He Hc. unfold validateDataTypes. run_unfold.
  rewrite Hd. cbn. rewrite (getitem_in _ _ Hy).
  rewrite <- list_fmap_compose, collect_fmap.
  rewrite (collect_Returned _ (λ r, year_cast parse_number (cell "year" r)))
    by (eapply Forall_impl; [exact Hc | intros r Hr; by apply year_cast_Returned]).
  rewrite (setitem_in df "year" _ Hy).
  rewrite getitem_notin by exact He. done.
Qed.

Lemma isnull_to_numeric c : isnull c = true → isnull (to_numeric parse_number c) = true.
Proof. by destruct c. Qed.

Lemma isnull_year_cast c : isnull c = true → isnull (year_cast parse_number c) = true.
Proof. by destruct c. Qed.

Lemma mask_sum_mono {A} (f g : A → bool) (l : list A) :
  (∀ x, f x = true → g x = true) → (mask_sum (f <$> l) ≤ mask_sum (g <$> l))%Z.
Proof.
  intros Hfg. unfold mask_sum. apply inj_le.
  induction l as [|x l IH]; [done|].
  rewrite !fmap_cons, !filter_cons.
  destruct (f x) eqn:Hf.
  - rewrite (Hfg x Hf). rewrite !decide_True by done. cbn. lia.
  - rewrite (decide_False (P := Is_true false)) by (by intros []).
    destruct (decide _); cbn; lia.
Qed.

(** X5: when [validateDataTypes] returns it has kept the columns, the number
    and the order of the rows, and every cell outside [year] and
    [exchange_value]; the [year] cell of a row is then missing or an
    integer, its [exchange_value] cell is what [pd.to_numeric] makes of the
    old one (a number is kept, a text is parsed or becomes missing), and
    neither column has fewer missing cells than before. *)
Theorem validateDataTypes_effect s s1 :
  validateDataTypes parse_number s = (Returned (), s1) →
  ∃ df df1,
    data s = Some df ∧ data s1 = Some df1
    ∧ columns df1 = columns df
    ∧ length (rows df1) = length (rows df)
    ∧ (∀ i r, rows df !! i = Some r →
         ∃ r1, rows df1 !! i = Some r1
               ∧ (∀ c, c ≠ "year" → c ≠ "exchange_value" → r1 !! c = r !! c)
               ∧ (cell "year" r1 = NA ∨ ∃ z, cell "year" r1 = CInt z)
               ∧ cell "exchange_value" r1
                 = to_numeric parse_number (cell "exchange_value" r))
    ∧ (null_count "year" df ≤ null_count "year" df1)%Z
    ∧ (null_count "exchange_value" df ≤ null_count "exchange_value" df1)%Z.
Proof.
  intros H1.
  destruct (validateDataTypes_inv parse_number s s1 H1) as (df & Hd & Hy & He & Hc).
  rewrite (validateDataTypes_run parse_number s df Hd Hy He Hc) in H1.
  injection H1 as <-.
  exists df, (after_types parse_number df).
  split; [done|]. split; [done|]. split; [done|].
  split; [cbn; by rewrite length_fmap|].
  split; [|split].
  - intros i r Hr. exists (coerce_row parse_number r). cbn.
    rewrite list_lookup_fmap, Hr. split; [done|]. unfold coerce_row. split; [|split].
    + intros c Hcy Hce. by rewrite !lookup_insert_ne.
    + rewrite cell_insert_ne, cell_insert_eq by done.
      unfold year_cast. destruct (to_numeric parse_number (cell "year" r)); cbn;
        repeat first [destruct (decide _) | destruct (in_int64 _)]; cbn; eauto.
    + by rewrite cell_insert_eq.
  - unfold null_count. cbn. rewrite <- !list_fmap_compose.
    apply mask_sum_mono. intros r. cbn. unfold coerce_row.
    rewrite cell_insert_ne, cell_insert_eq by done. apply isnull_year_cast.
  - unfold null_count. cbn. rewrite <- !list_fmap_compose.
    apply mask_sum_mono. intros r. cbn. unfold coerce_row.
    rewrite cell_insert_eq. apply isnull_to_numeric.
Qed.

End MoreStages.

(** ** The range check *)

Lemma collect_lt_bool k (l : list Cell) :
  Forall (λ c, is_text c = false) l →
  collect (cell_lt k) l = Returned (lt_bool k <$> l).
Proof.
  intros H. apply collect_Returned. eapply Forall_impl; [exact H|].
  intros c Hc. unfold lt_bool. by destruct (cell_lt_Returned k c Hc) as [b ->].
Qed.

Lemma collect_gt_bool k (l : list Cell) :
  Forall (λ c, is_text c = false) l →
  collect (cell_gt k) l = Returned (gt_bool k <$> l).
Proof.
  intros H. apply collect_Returned. eapply Forall_impl; [exact H|].
  intros c Hc. unfold gt_bool. by destruct (cell_gt_Returned k c Hc) as [b ->].
Qed.

Lemma mask_any_false {A} (f : A → bool) (l : list A) :
  mask_any (f <$> l) = false ↔ Forall (λ x, f x = false) l.
Proof.
  unfold mask_any. induction l as [|x l IH]; cbn; [by split; [constructor|]|].
  rewrite orb_false_iff, IH, Forall_cons. done.
Qed.

Lemma lt_bool_false k c :
  lt_bool k c = false ↔ ∀ q, value c = Some q → Qle (inject_Z k) q.
Proof.
  unfold lt_bool, cell_lt, Qltb.
  destruct c as [|z|q'|t]; cbn; try (split; [by intros _ q [=] | done]).
  - rewrite negb_false_iff, Qle_bool_iff. split; [by intros H q [= <-]|eauto].
  - rewrite negb_false_iff, Qle_bool_iff. split; [by intros H q [= <-]|eauto].
Qed.

Lemma gt_bool_false k c :
  gt_bool k c = false ↔ ∀ q, value c = Some q → Qle q (inject_Z k).
Proof.
  unfold gt_bool, cell_gt, Qltb.
  destruct c as [|z|q'|t]; cbn; try (split; [by intros _ q [=] | done]).
  - rewrite negb_false_iff, Qle_bool_iff. split; [by intros H q [= <-]|eauto].
  - rewrite negb_false_iff, Qle_bool_iff. split; [by intros H q [= <-]|eauto].
Qed.

Lemma range_issues_nil df :
  range_issues df = [] ↔ Forall in_range (rows df).
Proof.
  unfold range_issues.
  set (neg := mask_any _). set (lo := mask_any _). set (hi := mask_any _).
  assert (neg = false ∧ lo = false ∧ hi = false ↔ Forall in_range (rows df)) as <-.
  { unfold neg, lo, hi. rewrite <- !list_fmap_compose, !mask_any_false.
    rewrite <- !Forall_and. apply Forall_iff. intros r. cbn.
    rewrite !lt_bool_false, gt_bool_false. unfold in_range.
    split.
    - intros (H0 & Hlo & Hhi). split; [exact H0|]. intros y Hy. eauto.
    - intros (H0 & Hy). split; [exact H0|]. split; intros y ?; by apply Hy. }
  destruct neg, lo, hi; cbn; split; try done; intros (? & ? & ?); done.
Qed.

(** X6: on a table whose [year] and [exchange_value] columns hold no text
    (as [validateDataTypes] leaves them) [validateDataRanges] returns
    [True] and changes nothing but the log; it logs that the validation
    passed exactly when no row has a negative exchange value or a year
    outside 2005-2022 (both bounds and missing cells are in range), and one
    warning per issue otherwise. *)
Theorem validateDataRanges_report s df :
  data s = Some df →
  "year" ∈ columns df → "exchange_value" ∈ columns df →
  Forall (λ r, is_text (cell "year" r) = false
               ∧ is_text (cell "exchange_value" r) = false) (rows df) →
  validateDataRanges s = (Returned true, with_log (log s ++ ranges_log df) s)
  ∧ (ranges_log df = [(INFO, Text "Validating data ranges ");
                      (INFO, Text "Data range validation passed")]
     ↔ Forall in_range (rows df)).
Proof.
  intros Hd Hy He Hn. split.
  - unfold validateDataRanges. run_unfold. rewrite Hd. cbn.
    rewrite !getitem_in by done.
    rewrite !collect_lt_bool, collect_gt_bool
      by (apply Forall_fmap; eapply Forall_impl; [exact Hn|]; by intros r []).
    unfold ranges_log, range_issues.
    destruct (mask_any (lt_bool 0 <$> _)), (mask_any (lt_bool 2005 <$> _)),
      (mask_any (gt_bool 2022 <$> _)); cbn;
      unfold with_log, add_log; cbn; by rewrite <- ?app_assoc.
  - rewrite <- range_issues_nil. unfold ranges_log.
    destruct (range_issues df) as [|i l]; cbn; [done|].
    split; [|done]. destruct l; intros [=].
Qed.

Lemma collect_Exists_Raised {A B} (f : A → Outcome B) (l : list A) :
  Exists (λ x, is_raised (f x) = true) l → ∃ e, collect f l = Raised e.
Proof.
  induction 1 as [x l Hx | x l _ [e IH]]; cbn.
  - destruct (f x); [done | eauto].
  - destruct (f x); [|eauto]. rewrite IH. eauto.
Qed.

Lemma cell_lt_Raised k c e : cell_lt k c = Raised e → e = TypeError.
Proof. destruct c; cbn; try done. by intros [= <-]. Qed.

(** X7: [validateDataRanges] relies on [validateDataTypes] having run: a
    text left in the [exchange_value] column makes the comparison with 0
    raise [TypeError] (and nothing but the log changes). *)
Theorem validateDataRanges_text_raises s df :
  data s = Some df → "exchange_value" ∈ columns df →
  Exists (λ r, is_text (cell "exchange_value" r) = true) (rows df) →
  (validateDataRanges s).1 = Raised TypeError
  ∧ unchanged s (validateDataRanges s).2.
Proof.
  intros Hd He Ht. split; [|apply logs_only_unchanged, validateDataRanges_logs_only].
  unfold validateDataRanges. run_unfold. rewrite Hd. cbn.
  rewrite getitem_in by done.
  destruct (collect_Exists_Raised (cell_lt 0) (cell "exchange_value" <$> rows df))
    as [e Hcol].
  { apply Exists_fmap. eapply Exists_impl; [exact Ht|].
    intros r Hr. unfold compose. cbn beta in Hr.
    by destruct (cell "exchange_value" r). }
  rewrite Hcol. cbn. f_equal.
  eapply (collect_Raised_kind _ TypeError); [|exact Hcol].
  intros c e'. apply cell_lt_Raised.
Qed.

Section Composition.
Context (parse_number : string → option Q).

(** X8: once [validateDataTypes] has returned, [validateDataRanges] cannot
    raise: it returns [True] and changes nothing but the log. *)
Theorem validateDataRanges_after_validateDataTypes s s1 :
  validateDataTypes parse_number s = (Returned (), s1) →
  (validateDataRanges s1).1 = Returned true
  ∧ unchanged s1 (validateDataRanges s1).2.
Proof.
  intros H1.
  destruct (validateDataTypes_inv parse_number s s1 H1) as (df & Hd & Hy & He & Hc).
  rewrite (validateDataTypes_run parse_number s df Hd Hy He Hc) in H1.
  injection H1 as <-.
  edestruct (validateDataRanges_run) as [lg ->];
    [reflexivity | exact Hy | exact He | apply after_types_not_text |].
  done.
Qed.

End Composition.

(** ** The categorical validators *)

Lemma elem_of_unique (l : list Cell) v : v ∈ unique l ↔ v ∈ l.
Proof. unfold unique. by rewrite elem_of_reverse, elem_of_remove_dups, elem_of_reverse. Qed.

Lemma NoDup_unique (l : list Cell) : NoDup (unique l).
Proof. unfold unique. rewrite reverse_Permutation. apply NoDup_remove_dups. Qed.

Lemma mapM_text_of (l : list Cell) ss : mapM text_of l = Some ss → l = CStr <$> ss.
Proof.
  intros H%mapM_Some. induction H as [|c s l ss Hc _ IH]; [done|].
  destruct c; try done. cbn in Hc. injection Hc as ->. cbn. by f_equal.
Qed.

Section Vocabulary.
Context (sorted_mixed : list Cell → Outcome (list Cell)).

(** [sorted] on texts gives the same texts in ascending order. *)
Lemma py_sorted_text_spec (l l' : list Cell) :
  Forall (λ c, is_text c = true) l → py_sorted sorted_mixed l = Returned l' →
  l' ≡ₚ l
  ∧ ∃ ss, l' = CStr <$> ss ∧ Sorted (λ a b : string, Is_true (String.leb a b)) ss.
Proof.
  intros Ht. unfold py_sorted.
  destruct (mapM text_of l) as [ss|] eqn:E.
  - intros [= <-]. apply mapM_text_of in E as ->. split.
    + by rewrite merge_sort_Permutation.
    + eexists. split; [done|]. apply Sorted_merge_sort.
      intros a b. destruct (String.leb_total a b) as [->| ->]; [by left | by right].
  - exfalso. destruct (mapM_is_Some_2 text_of l) as [ss' Hss]; [|congruence].
    eapply Forall_impl; [exact Ht|]. by intros [] ?; cbn; eauto.
Qed.

(** X9: a categorical validator ([validateEcosystemTypes],
    [validateSpeciesGroups], [validateIslands], [validateCounties]) whose
    column is present returns, whatever the cells hold, and changes nothing
    but the log.  When some cell is not in the vocabulary (a missing cell
    counts) it logs one warning that lists each such value once; otherwise
    it logs the values of the column, each once, in ascending order. *)
Theorem validate_vocabulary_report intro col what expected s df :
  data s = Some df → col ∈ columns df →
  let run := validate_vocabulary sorted_mixed intro col what expected s in
  let unexpected :=
    filter (λ e, ¬ Is_true (isin expected e)) (unique (cell col <$> rows df)) in
  run.1 = Returned ()
  ∧ unchanged s run.2
  ∧ NoDup unexpected
  ∧ (∀ v, v ∈ unexpected
          ↔ (∃ r, r ∈ rows df ∧ cell col r = v) ∧ isin expected v = false)
  ∧ (unexpected ≠ [] →
     log run.2 = log s ++ [(INFO, Text intro); (WARNING, Unexpected what unexpected)])
  ∧ (unexpected = [] →
     ∃ names,
       log run.2
       = log s ++ [(INFO, Text intro); (INFO, AllValid what (CStr <$> names))]
       ∧ Sorted (λ a b : string, Is_true (String.leb a b)) names
       ∧ NoDup names
       ∧ ∀ v, v ∈ CStr <$> names ↔ ∃ r, r ∈ rows df ∧ cell col r = v).
Proof.
  intros Hd Hc run unexpected.
  destruct (validate_vocabulary_run sorted_mixed intro col what expected s df Hd Hc)
    as [lg Hrun].
  split; [by subst run; rewrite Hrun|].
  split; [by subst run; rewrite Hrun|].
  split; [apply NoDup_filter, NoDup_unique|].
  split.
  { intros v. unfold unexpected.
    rewrite list_elem_of_filter, elem_of_unique, list_elem_of_fmap.
    rewrite Is_true_false. split.
    - intros [Hf (r & -> & Hr)]. split; [by exists r | done].
    - intros [(r & Hr & <-) Hf]. split; [done | by exists r]. }
  subst run. clear Hrun lg.
  unfold validate_vocabulary. run_unfold. rewrite Hd. cbn -[filter].
  rewrite getitem_in by done. fold unexpected.
  split.
  - intros Hne. destruct unexpected; [done|]. cbn. by rewrite <- app_assoc.
  - intros Hnil. rewrite Hnil. cbn.
    assert (Forall (λ c, is_text c = true) (unique (cell col <$> rows df))) as Ht.
    { apply Forall_forall. intros c Hc'. apply (isin_text expected).
      destruct (isin expected c) eqn:E; [done|].
      exfalso. eapply (filter_nil_not_elem_of _ _ c Hnil); [|done].
      rewrite E. by intros []. }
    destruct (py_sorted_texts sorted_mixed _ Ht) as [l' El].
    destruct (py_sorted_text_spec _ l' Ht El) as (Hp & names & -> & Hs).
    rewrite El. cbn. exists names.
    split; [by rewrite <- app_assoc|]. split; [done|]. split.
    + eapply (NoDup_fmap_1 CStr). rewrite Hp. apply NoDup_unique.
    + intros v. rewrite Hp, elem_of_unique, list_elem_of_fmap.
      split; intros (r & ? & ?); exists r; by split.
Qed.

(** X10: a categorical validator whose column is missing raises
    [KeyError] for that column. *)
Theorem validate_vocabulary_missing_column intro col what expected s df :
  data s = Some df → col ∉ columns df →
  (validate_vocabulary sorted_mixed intro col what expected s).1
  = Raised (KeyError col)
  ∧ unchanged s (validate_vocabulary sorted_mixed intro col what expected s).2.
Proof.
  intros Hd Hc. split;
    [|apply logs_only_unchanged, validate_vocabulary_logs_only].
  unfold validate_vocabulary. run_unfold. rewrite Hd. cbn -[filter].
  by rewrite getitem_notin.
Qed.

End Vocabulary.

(** ** The removal stages *)

Lemma removeNullValues_exact s df :
  data s = Some df → "exchange_value" ∈ columns df →
  removeNullValues s
  = (Returned (),
     with_log (log s ++ [(INFO, Text "Removing null/NA exchange values ");
                         (INFO, if (0 <? len df - len (after_nulls df))%Z
                                then RemovedNulls (len df - len (after_nulls df))
                                else Text "No null/NA values to remove")])
              (set_data (Some (after_nulls df)) s)).
Proof.
  intros Hd He. unfold removeNullValues. run_unfold. rewrite Hd. cbn.
  rewrite getitem_in by done. rewrite <- list_fmap_compose.
  assert (getitem_mask df (notna ∘ cell "exchange_value" <$> rows df) = after_nulls df)
    as ->.
  { unfold getitem_mask, after_nulls. f_equal.
    apply select_rows_filter. intros r. cbn.
    by destruct (cell "exchange_value" r). }
  destruct (0 <? _)%Z; cbn; unfold with_log, add_log, set_data; cbn;
    by rewrite <- app_assoc.
Qed.

Lemma removeNullValues_inv s s1 :
  removeNullValues s = (Returned (), s1) →
  ∃ df, data s = Some df ∧ "exchange_value" ∈ columns df.
Proof.
  unfold removeNullValues. run_unfold.
  destruct (data s) as [df|]; [|done]. cbn.
  unfold getitem. destruct (decide _); [|done]. eauto.
Qed.

Lemma after_nulls_idem df : after_nulls (after_nulls df) = after_nulls df.
Proof.
  unfold after_nulls. cbn. f_equal.
  apply list_filter_filter_r. done.
Qed.

(** X11: when [removeNullValues] returns it has kept the columns and exactly
    the rows whose [exchange_value] is not missing, and logged how many rows
    it removed.  A second application returns too, removes nothing and logs
    that there was nothing to remove. *)
Theorem removeNullValues_idempotent s s1 :
  removeNullValues s = (Returned (), s1) →
  ∃ df df1,
    data s = Some df ∧ data s1 = Some df1
    ∧ columns df1 = columns df
    ∧ (∀ r, r ∈ rows df1 ↔ r ∈ rows df ∧ cell "exchange_value" r ≠ NA)
    ∧ log s1
      = log s ++ [(INFO, Text "Removing null/NA exchange values ");
                  (INFO, if (0 <? len df - len df1)%Z
                         then RemovedNulls (len df - len df1)
                         else Text "No null/NA values to remove")]
    ∧ removeNullValues s1
      = (Returned (),
         with_log (log s1 ++ [(INFO, Text "Removing null/NA exchange values ");
                              (INFO, Text "No null/NA values to remove")]) s1).
Proof.
  intros H1. destruct (removeNullValues_inv s s1 H1) as (df & Hd & He).
  rewrite (removeNullValues_exact s df Hd He) in H1. injection H1 as <-.
  exists df, (after_nulls df).
  split; [done|]. split; [done|]. split; [done|].
  split; [intros r; cbn; rewrite list_elem_of_filter; tauto|].
  split; [done|].
  erewrite removeNullValues_exact; [|reflexivity|exact He].
  rewrite after_nulls_idem, Z.sub_diag. done.
Qed.

(** Without an [exchange_value] column [removeNullValues] raises
    [KeyError] and removes nothing. *)
Lemma removeNullValues_missing_column s df :
  data s = Some df → "exchange_value" ∉ columns df →
  (removeNullValues s).1 = Raised (KeyError "exchange_value")
  ∧ unchanged s (removeNullValues s).2.
Proof.
  intros Hd He. unfold removeNullValues. run_unfold. rewrite Hd. cbn.
  rewrite getitem_notin by done. done.
Qed.

Lemma removeAggregateRows_exact s df :
  data s = Some df → "ecosystem_type" ∈ columns df →
  removeAggregateRows true s
  = (Returned (),
     with_log (log s ++ [(INFO, Text "Removing aggregate rows ");
                         (INFO, if (0 <? len df - len (after_aggregates true df))%Z
                                then RemovedAggregates
                                       (len df - len (after_aggregates true df))
                                else Text "No aggregate rows found to remove")])
              (set_data (Some (after_aggregates true df)) s)).
Proof.
  intros Hd He. unfold removeAggregateRows, after_aggregates. run_unfold.
  rewrite Hd. cbn. rewrite getitem_in by done. rewrite <- !list_fmap_compose.
  match goal with |- context [getitem_mask df ?m] =>
    assert (getitem_mask df m
            = {| columns := columns df;
                 rows := filter (λ r, ¬ is_rollup r) (rows df) |}) as ->
  end.
  { unfold getitem_mask. f_equal.
    apply select_rows_filter. intros r. cbn. unfold is_rollup.
    rewrite negb_true_iff, <- not_true_iff_false. by rewrite isin_singleton. }
  destruct (0 <? _)%Z; cbn; unfold with_log, add_log, set_data; cbn;
    by rewrite <- app_assoc.
Qed.

Lemma removeAggregateRows_inv s s1 :
  removeAggregateRows true s = (Returned (), s1) →
  ∃ df, data s = Some df ∧ "ecosystem_type" ∈ columns df.
Proof.
  unfold removeAggregateRows. run_unfold.
  destruct (data s) as [df|]; [|done]. cbn.
  unfold getitem. destruct (decide _); [|done]. eauto.
Qed.

Lemma after_aggregates_idem b df :
  after_aggregates b (after_aggregates b df) = after_aggregates b df.
Proof.
  destruct b; [|done]. unfold after_aggregates. cbn. f_equal.
  apply list_filter_filter_r. done.
Qed.

(** X12: with [remove_aggregates=True], when [removeAggregateRows] returns
    it has kept the columns and exactly the rows whose [ecosystem_type] is
    not "All Ecosystems" (a row with any other value, or none, is kept), and
    logged how many rows it removed; a second application removes nothing
    and logs that no aggregate rows were found. *)
Theorem removeAggregateRows_idempotent s s1 :
  removeAggregateRows true s = (Returned (), s1) →
  ∃ df df1,
    data s = Some df ∧ data s1 = Some df1
    ∧ columns df1 = columns df
    ∧ (∀ r, r ∈ rows df1
            ↔ r ∈ rows df ∧ cell "ecosystem_type" r ≠ CStr "All Ecosystems")
    ∧ log s1
      = log s ++ [(INFO, Text "Removing aggregate rows ");
                  (INFO, if (0 <? len df - len df1)%Z
                         then RemovedAggregates (len df - len df1)
                         else Text "No aggregate rows found to remove")]
    ∧ removeAggregateRows true s1
      = (Returned (),
         with_log (log s1 ++ [(INFO, Text "Removing aggregate rows ");
                              (INFO, Text "No aggregate rows found to remove")]) s1).
Proof.
  intros H1. destruct (removeAggregateRows_inv s s1 H1) as (df & Hd & He).
  rewrite (removeAggregateRows_exact s df Hd He) in H1. injection H1 as <-.
  exists df, (after_aggregates true df).
  split; [done|]. split; [done|]. split; [done|].
  split; [intros r; cbn; rewrite list_elem_of_filter; unfold is_rollup; tauto|].
  split; [done|].
  erewrite removeAggregateRows_exact; [|reflexivity|exact He].
  change (mkDataFrame (columns df) (filter (λ r, ¬ is_rollup r) (rows df)))
    with (after_aggregates true df).
  rewrite after_aggregates_idem, Z.sub_diag. done.
Qed.

(** With [remove_aggregates=False], [removeAggregateRows] returns and
    changes nothing but the log in every state. *)
Lemma removeAggregateRows_off s :
  removeAggregateRows false s
  = (Returned (),
     with_log (log s ++ [(INFO, Text "Skipping aggregate row removal (remove_aggregates=False)")])
              s).
Proof. by destruct s. Qed.

(** X13: the two removal stages commute: removing the rows with a missing
    exchange value and then the aggregate rows leaves the table that the
    other order leaves. *)
Theorem removal_stages_commute remove_aggregates s df :
  data s = Some df →
  "exchange_value" ∈ columns df → "ecosystem_type" ∈ columns df →
  data ((removeNullValues ≫= λ _, removeAggregateRows remove_aggregates) s).2
  = data ((removeAggregateRows remove_aggregates ≫= λ _, removeNullValues) s).2.
Proof.
  intros Hd Hev Heco.
  destruct (removeNullValues_run s df Hd Hev) as [lg1 E1].
  rewrite (bind_Returned _ _ _ _ _ E1).
  edestruct (removeAggregateRows_run remove_aggregates) as [lg2 ->];
    [reflexivity | exact Heco |].
  destruct (removeAggregateRows_run remove_aggregates s df Hd Heco) as [lg3 E3].
  rewrite (bind_Returned _ _ _ _ _ E3).
  edestruct (removeNullValues_run) as [lg4 ->];
    [reflexivity | by rewrite columns_after_aggregates |].
  cbn. f_equal. unfold after_nulls, after_aggregates.
  destruct remove_aggregates; cbn; [|done].
  f_equal. rewrite !list_filter_filter. apply list_filter_iff. tauto.
Qed.

(** ** Display columns and export *)

Lemma filter_ext_in {A} (P Q : A → Prop) `{!∀ x, Decision (P x), !∀ x, Decision (Q x)}
    (l : list A) :
  (∀ x, x ∈ l → P x ↔ Q x) → filter P l = filter Q l.
Proof.
  induction l as [|x l IH]; intros Hext; [done|].
  rewrite !filter_cons, IH by (intros y Hy; apply Hext; by right).
  apply decide_ext, Hext. by left.
Qed.

Lemma filter_all {A} (P : A → Prop) `{!∀ x, Decision (P x)} (l : list A) :
  Forall P l → filter P l = l.
Proof.
  induction 1 as [|x l Hx _ IH]; [done|].
  by rewrite filter_cons_True, IH.
Qed.

Lemma columns_after_display df :
  columns (after_display true df)
  = filter (λ c, c ∉ display_columns) (columns df).
Proof.
  unfold after_display. cbn [andb].
  destruct (nonempty _) eqn:Hne; cbn [columns drop_columns].
  - apply filter_ext_in. intros c Hc. rewrite list_elem_of_filter. tauto.
  - symmetry. apply filter_all, Forall_forall. intros c Hc Hdisp.
    destruct (filter _ display_columns) as [|x l] eqn:Hf; [|done].
    by eapply (filter_nil_not_elem_of _ _ c Hf).
Qed.

(** X14: with [remove_display=True], [removeDisplayColumns] on a loaded table
    returns; the columns left are those that are not display columns, in
    their order, so no required column is ever dropped; the rows are as many
    as before, in order, and each keeps its cells in every column that is
    not a display column.  With [remove_display=False] nothing but the log
    changes. *)
Theorem removeDisplayColumns_effect s df :
  data s = Some df →
  (removeDisplayColumns false s).1 = Returned ()
  ∧ unchanged s (removeDisplayColumns false s).2
  ∧ (removeDisplayColumns true s).1 = Returned ()
  ∧ ∃ df1,
      data (removeDisplayColumns true s).2 = Some df1
      ∧ columns df1 = filter (λ c, c ∉ display_columns) (columns df)
      ∧ (∀ c, c ∈ required_columns → c ∈ columns df → c ∈ columns df1)
      ∧ length (rows df1) = length (rows df)
      ∧ ∀ i r, rows df !! i = Some r →
          ∃ r1, rows df1 !! i = Some r1
                ∧ ∀ c, c ∉ display_columns → r1 !! c = r !! c.
Proof.
  intros Hd.
  destruct (removeDisplayColumns_run false s df Hd) as [lg0 ->].
  split; [done|]. split; [unfold unchanged; cbn; by rewrite Hd|].
  destruct (removeDisplayColumns_run true s df Hd) as [lg1 ->].
  split; [done|]. exists (after_display true df). split; [done|].
  split; [apply columns_after_display|].
  split.
  { intros c Hreq Hc. rewrite columns_after_display.
    apply list_elem_of_filter. split; [|done].
    revert Hreq. unfold required_columns, display_columns.
    rewrite !elem_of_cons, !elem_of_nil.
    intros H1 H2. repeat destruct H1 as [-> | H1]; try done;
      repeat destruct H2 as [H2 | H2]; done. }
  split; [by rewrite rows_after_display, length_fmap|].
  intros i r Hr. exists (strip_row true df r).
  rewrite rows_after_display, list_lookup_fmap, Hr. split; [done|].
  intros c Hc. unfold strip_row. cbn [andb].
  destruct (nonempty _); [|done].
  apply lookup_foldr_delete_not_elem_of.
  intros Hin. apply list_elem_of_filter in Hin as [_ Hin]. done.
Qed.

(** X15: [exportCleanedData] on a loaded table writes that table, columns
    and rows, to the dated path, returns the path, sets
    [cleaned_row_count] to the number of rows, and leaves the table,
    [raw_row_count] and every other file as they were.  With no table
    loaded it raises [AttributeError] and writes nothing. *)
Theorem exportCleanedData_effect now s :
  let path := output_path (output_dir s) now in
  let s' := (exportCleanedData now s).2 in
  match data s with
  | Some df =>
      (exportCleanedData now s).1 = Returned path
      ∧ files s' !! path = Some df
      ∧ (∀ p, p ≠ path → files s' !! p = files s !! p)
      ∧ cleaned_row_count s' = len df
      ∧ data s' = data s ∧ raw_row_count s' = raw_row_count s
  | None =>
      (exportCleanedData now s).1 = Raised AttributeError ∧ unchanged s s'
  end.
Proof.
  intros path s'. subst s'. destruct (data s) as [df|] eqn:Hd.
  - destruct (exportCleanedData_run now s df Hd) as [lg ->]. cbn.
    split; [done|]. split; [apply lookup_insert_eq|].
    split; [intros p Hp; by apply lookup_insert_ne|]. done.
  - unfold exportCleanedData. run_unfold. by rewrite Hd.
Qed.

(** ** The name of the exported file *)

Lemma digit_inj n m : digit n = digit m → n `mod` 10 = m `mod` 10.
Proof.
  unfold digit. intros H. apply (f_equal nat_of_ascii) in H.
  rewrite !nat_ascii_embedding in H.
  - lia.
  - pose proof (Nat.mod_upper_bound m 10). lia.
  - pose proof (Nat.mod_upper_bound n 10). lia.
Qed.

Lemma two_digits_inj n m :
  n < 100 → m < 100 →
  (n `div` 10) `mod` 10 = (m `div` 10) `mod` 10 →
  n `mod` 10 = m `mod` 10 → n = m.
Proof.
  intros Hn Hm H1 H0.
  pose proof (Nat.div_mod_eq n 10). pose proof (Nat.div_mod_eq m 10).
  pose proof (Nat.div_mod_eq (n `div` 10) 10).
  pose proof (Nat.div_mod_eq (m `div` 10) 10).
  lia.
Qed.

Lemma four_digits_inj n m :
  n < 100 * 100 → m < 100 * 100 →
  (n `div` 1000) `mod` 10 = (m `div` 1000) `mod` 10 →
  (n `div` 100) `mod` 10 = (m `div` 100) `mod` 10 →
  (n `div` 10) `mod` 10 = (m `div` 10) `mod` 10 →
  n `mod` 10 = m `mod` 10 → n = m.
Proof.
  intros Hn Hm.
  replace (n `div` 1000) with (((n `div` 10) `div` 10) `div` 10)
    by (by rewrite !Nat.Div0.div_div).
  replace (m `div` 1000) with (((m `div` 10) `div` 10) `div` 10)
    by (by rewrite !Nat.Div0.div_div).
  replace (n `div` 100) with ((n `div` 10) `div` 10)
    by (by rewrite !Nat.Div0.div_div).
  replace (m `div` 100) with ((m `div` 10) `div` 10)
    by (by rewrite !Nat.Div0.div_div).
  intros H3 H2 H1 H0.
  pose proof (Nat.div_mod_eq n 10). pose proof (Nat.div_mod_eq m 10).
  pose proof (Nat.div_mod_eq (n `div` 10) 10).
  pose proof (Nat.div_mod_eq (m `div` 10) 10).
  pose proof (Nat.div_mod_eq ((n `div` 10) `div` 10) 10).
  pose proof (Nat.div_mod_eq ((m `div` 10) `div` 10) 10).
  pose proof (Nat.div_mod_eq (((n `div` 10) `div` 10) `div` 10) 10).
  pose proof (Nat.div_mod_eq (((m `div` 10) `div` 10) `div` 10) 10).
  lia.
Qed.

Lemma strftime_Ymd_inj d d' :
  valid_date d → valid_date d' →
  strftime_Ymd d = strftime_Ymd d' → same_day d d'.
Proof.
  intros (Hy & Hm & Hd) (Hy' & Hm' & Hd'). unfold strftime_Ymd.
  intros [= H1 H2 H3 H4 H5 H6 H7 H8].
  apply digit_inj in H1, H2, H3, H4, H5, H6, H7, H8.
  unfold same_day. split; [|split].
  - apply four_digits_inj; [lia..|done|done|done|done].
  - apply two_digits_inj; [lia..|done|done].
  - apply two_digits_inj; [lia..|done|done].
Qed.

Lemma app_inj_prefix (p a b : string) : p +:+ a = p +:+ b → a = b.
Proof. induction p as [|c p IH]; cbn; [done|]. intros [= H]. by apply IH. Qed.

Lemma eight_chars_inj (a1 a2 a3 a4 a5 a6 a7 a8 b1 b2 b3 b4 b5 b6 b7 b8 : ascii)
    (s t : string) :
  String a1 (String a2 (String a3 (String a4 (String a5 (String a6
    (String a7 (String a8 s)))))))
  = String b1 (String b2 (String b3 (String b4 (String b5 (String b6
    (String b7 (String b8 t))))))) →
  String a1 (String a2 (String a3 (String a4 (String a5 (String a6
    (String a7 (String a8 ""))))))) 
  = String b1 (String b2 (String b3 (String b4 (String b5 (String b6
    (String b7 (String b8 ""))))))).
Proof. intros [= -> -> -> -> -> -> -> -> _]. reflexivity. Qed.

(** X16: the exports of two moments go to the same path exactly when the
    two moments are on the same day: runs on different days never overwrite
    each other's file, whatever the output directory. *)
Theorem output_path_same_path_iff out now now' :
  valid_date now → valid_date now' →
  output_path out now = output_path out now' ↔ same_day now now'.
Proof.
  intros Hv Hv'. split.
  - unfold output_path. intros H.
    do 3 apply app_inj_prefix in H.
    apply strftime_Ymd_inj; [done..|].
    unfold strftime_Ymd in *. cbn [append] in H.
    exact (eight_chars_inj _ _ _ _ _ _ _ _ _ _ _ _ _ _ _ _ _ _ H).
  - intros (Hy & Hm & Hd). by apply output_path_same_day.
Qed.

(** ** The summary *)

Lemma series_min_bound (l : list (option Q)) q :
  Some q ∈ l → ∃ m, series_min l = Some m ∧ Qle m q.
Proof.
  unfold series_min.
  induction l as [|a l IH]; [by intros ?%elem_of_nil|].
  intros [<- | Hin]%elem_of_cons; cbn [foldr].
  - destruct (foldr _ None l) as [y|]; cbn.
    + destruct (Qle_bool q y) eqn:E; eexists; split; try reflexivity.
      * apply Qle_refl.
      * apply Qlt_le_weak, Qnot_le_lt. intros H%Qle_bool_iff. congruence.
    + eexists; split; [reflexivity | apply Qle_refl].
  - destruct (IH Hin) as (m & -> & Hm). destruct a as [x|]; cbn; [|eauto].
    destruct (Qle_bool x m) eqn:E; eexists; split; try reflexivity; [|done].
    apply Qle_bool_iff in E. by eapply Qle_trans.
Qed.

Lemma series_max_bound (l : list (option Q)) q :
  Some q ∈ l → ∃ m, series_max l = Some m ∧ Qle q m.
Proof.
  unfold series_max.
  induction l as [|a l IH]; [by intros ?%elem_of_nil|].
  intros [<- | Hin]%elem_of_cons; cbn [foldr].
  - destruct (foldr _ None l) as [y|]; cbn.
    + destruct (Qle_bool y q) eqn:E; eexists; split; try reflexivity.
      * apply Qle_refl.
      * apply Qlt_le_weak, Qnot_le_lt. intros H%Qle_bool_iff. congruence.
    + eexists; split; [reflexivity | apply Qle_refl].
  - destruct (IH Hin) as (m & -> & Hm). destruct a as [x|]; cbn; [|eauto].
    destruct (Qle_bool m x) eqn:E; eexists; split; try reflexivity; [|done].
    apply Qle_bool_iff in E. by eapply Qle_trans.
Qed.

Lemma series_min_missing (l : list (option Q)) :
  Forall (λ v, v = None) l → series_min l = None.
Proof.
  unfold series_min. induction 1 as [|v l -> _ IH]; [done|].
  cbn [foldr]. by rewrite IH.
Qed.

(** [int] of a number that is at most, or at least, a whole number. *)
Lemma py_int_le q z k :
  Qle q (inject_Z z) → py_int (Some q) = Returned k → (k ≤ z)%Z.
Proof.
  destruct q as [n d]. unfold Qle. cbn. intros H [= <-].
  pose proof (Z.quot_rem' n (Z.pos d)) as Hqr.
  destruct (Z.le_ge_cases 0 n) as [Hn|Hn].
  - pose proof (Z.rem_bound_pos n (Z.pos d) Hn ltac:(lia)). nia.
  - pose proof (Z.rem_bound_pos_neg n (Z.pos d) ltac:(lia) Hn). nia.
Qed.

Lemma py_int_ge q z k :
  Qle (inject_Z z) q → py_int (Some q) = Returned k → (z ≤ k)%Z.
Proof.
  destruct q as [n d]. unfold Qle. cbn. intros H [= <-].
  pose proof (Z.quot_rem' n (Z.pos d)) as Hqr.
  destruct (Z.le_ge_cases 0 n) as [Hn|Hn].
  - pose proof (Z.rem_bound_pos n (Z.pos d) Hn ltac:(lia)). nia.
  - pose proof (Z.rem_bound_pos_neg n (Z.pos d) ltac:(lia) Hn). nia.
Qed.

Lemma collect_elem_of {A B} (f : A → Outcome B) (l : list A) ys x y :
  collect f l = Returned ys → x ∈ l → f x = Returned y → y ∈ ys.
Proof.
  revert ys. induction l as [|a l IH]; intros ys; cbn; [by intros _ ?%elem_of_nil|].
  destruct (f a) as [b|] eqn:Ha; [|done].
  destruct (collect f l) as [bs|] eqn:Hl; [|done].
  intros [= <-] [->|Hin]%elem_of_cons Hx.
  - rewrite Hx in Ha. injection Ha as ->. apply elem_of_cons. by left.
  - apply elem_of_cons. right. by eapply IH.
Qed.

Lemma isnull_NA c : isnull c = true ↔ c = NA.
Proof. by destruct c. Qed.

Lemma group_size_lookup (keys : list Cell) k :
  group_size keys !! k
  = if isnull k then None
    else if decide (0 < count_of k keys)%Z then Some (count_of k keys) else None.
Proof.
  unfold count_of, group_size. induction keys as [|c keys IH]; cbn [foldr].
  - rewrite lookup_empty. by destruct (isnull k).
  - rewrite filter_cons. destruct (isnull c) eqn:Hc.
    + rewrite IH. apply isnull_NA in Hc as ->.
      destruct (decide (NA = k)) as [<-|Hk]; [done|done].
    + destruct (decide (c = k)) as [->|Hk].
      * rewrite lookup_insert_eq, IH, Hc. cbn [length].
        set (n := length (filter (λ c, c = k) keys)).
        rewrite (decide_True (P := (0 < Z.of_nat (S n))%Z)) by lia.
        destruct (decide _) as [Hp|Hp]; cbn; f_equal; lia.
      * by rewrite lookup_insert_ne, IH.
Qed.

Section SummaryProperties.
Context (sorted_mixed : list Cell → Outcome (list Cell)).

Local Abbreviation summarize := (generateSummaryStatistics sorted_mixed).

(** What a summary that is returned has been computed from. *)
Lemma generateSummaryStatistics_inv now s summary :
  (summarize now s).1 = Returned summary →
  ∃ df years,
    data s = Some df
    ∧ collect numeric (cell "year" <$> rows df) = Returned years
    ∧ py_int (series_min years) = Returned (Summary.min_year summary)
    ∧ py_int (series_max years) = Returned (Summary.max_year summary)
    ∧ Summary.records_by_year summary = group_size (cell "year" <$> rows df)
    ∧ Summary.records_by_island summary = group_size (cell "island" <$> rows df)
    ∧ py_sorted sorted_mixed (unique (cell "island" <$> rows df))
      = Returned (Summary.unique_islands summary)
    ∧ py_sorted sorted_mixed (unique (cell "county" <$> rows df))
      = Returned (Summary.unique_counties summary)
    ∧ py_sorted sorted_mixed (unique (cell "species_group" <$> rows df))
      = Returned (Summary.unique_species_groups summary)
    ∧ py_sorted sorted_mixed (unique (cell "ecosystem_type" <$> rows df))
      = Returned (Summary.unique_ecosystem_types summary).
Proof.
  unfold generateSummaryStatistics, sorted_unique. run_unfold.
  destruct (data s) as [df|]; [|done]. cbn.
  unfold getitem.
  repeat (match goal with
          | |- context [decide (?c ∈ columns df)] =>
              destruct (decide (c ∈ columns df)); cbn; [|done]
          | |- context [match ?x with Returned _ => _ | Raised _ => _ end] =>
              destruct x eqn:?; cbn; try done
          end).
  intros [= <-]. cbn. eexists _, _. by repeat split.
Qed.

(** X17: the date range of a returned summary bounds every whole year of
    the table it was computed from. *)
Theorem generateSummaryStatistics_year_bounds now s summary df r y :
  (summarize now s).1 = Returned summary →
  data s = Some df → r ∈ rows df → cell "year" r = CInt y →
  (Summary.min_year summary ≤ y ≤ Summary.max_year summary)%Z.
Proof.
  intros Hs Hd Hr Hy.
  apply generateSummaryStatistics_inv in Hs
    as (df' & years & Hd' & Hc & Hmin & Hmax & _).
  rewrite Hd in Hd'. injection Hd' as <-.
  assert (Some (inject_Z y) ∈ years) as Hin.
  { eapply (collect_elem_of numeric _ _ (cell "year" r)); [exact Hc | |].
    - by apply list_elem_of_fmap_2.
    - by rewrite Hy. }
  destruct (series_min_bound _ _ Hin) as (m & Em & Hm).
  destruct (series_max_bound _ _ Hin) as (M & EM & HM).
  rewrite Em in Hmin. rewrite EM in Hmax.
  split; [by eapply py_int_le | by eapply py_int_ge].
Qed.

(** X18: [records_by_year] and [records_by_island] of a returned summary
    hold, for each value that occurs in the column, the number of rows that
    hold it; a missing value has no entry, and neither has a value that
    does not occur. *)
Theorem records_by_key_counts now s summary df k n :
  (summarize now s).1 = Returned summary → data s = Some df →
  (Summary.records_by_year summary !! k = Some n
   ↔ k ≠ NA ∧ n = count_of k (cell "year" <$> rows df) ∧ (0 < n)%Z)
  ∧ (Summary.records_by_island summary !! k = Some n
     ↔ k ≠ NA ∧ n = count_of k (cell "island" <$> rows df) ∧ (0 < n)%Z).
Proof.
  intros Hs Hd.
  apply generateSummaryStatistics_inv in Hs
    as (df' & years & Hd' & _ & _ & _ & -> & -> & _).
  rewrite Hd in Hd'. injection Hd' as <-.
  rewrite !group_size_lookup.
  split; (destruct (isnull k) eqn:Hk;
    [apply isnull_NA in Hk as ->; split; [done | by intros []]|]);
    (assert (k ≠ NA) by (intros ->; done));
    (destruct (decide _); split; [by intros [= <-] | intros (_ & -> & _); done
                                  | done | intros (_ & -> & ?); done]).
Qed.

(** X19: when the island column holds only text, [unique_islands] of a
    returned summary lists exactly the islands of the table, each once, in
    ascending order. *)
Theorem unique_islands_sorted_distinct now s summary df :
  (summarize now s).1 = Returned summary → data s = Some df →
  Forall (λ r, is_text (cell "island" r) = true) (rows df) →
  NoDup (Summary.unique_islands summary)
  ∧ (∀ c, c ∈ Summary.unique_islands summary ↔ ∃ r, r ∈ rows df ∧ cell "island" r = c)
  ∧ ∃ names, Summary.unique_islands summary = CStr <$> names
             ∧ Sorted (λ a b : string, Is_true (String.leb a b)) names.
Proof.
  intros Hs Hd Ht.
  apply generateSummaryStatistics_inv in Hs
    as (df' & years & Hd' & _ & _ & _ & _ & _ & Hi & _).
  rewrite Hd in Hd'. injection Hd' as <-.
  apply py_sorted_text_spec in Hi as (Hp & Hsorted).
  - split; [|split; [|exact Hsorted]].
    + rewrite Hp. apply NoDup_unique.
    + intros c. rewrite Hp, elem_of_unique, list_elem_of_fmap.
      split; intros (r & ? & ?); exists r; by split.
  - apply Forall_forall. intros c Hc.
    apply (proj1 (elem_of_unique _ _)) in Hc.
    apply list_elem_of_fmap in Hc as (r & -> & Hr).
    by eapply Forall_forall in Ht.
Qed.

Lemma generateSummaryStatistics_all_missing now s df :
  data s = Some df → "year" ∈ columns df →
  Forall (λ r, cell "year" r = NA) (rows df) →
  (summarize now s).1 = Raised TypeError.
Proof.
  intros Hd Hy Hna. unfold generateSummaryStatistics. run_unfold.
  rewrite Hd. cbn. rewrite getitem_in by done. cbn.
  rewrite (collect_Returned numeric (λ _, None)).
  - cbn. rewrite series_min_missing; [done|].
    apply Forall_fmap, Forall_forall. by intros.
  - apply Forall_fmap. eapply Forall_impl; [exact Hna|]. cbn. by intros r ->.
Qed.

End SummaryProperties.

(** ** Runs of the cleaner *)

Section RunProperties.
Context (parse_number : string → option Q).
Context (sorted_mixed : list Cell → Outcome (list Cell)).

Local Abbreviation run := (runCleaningPipeline parse_number sorted_mixed).

Lemma not_structural_failure s name df :
  input_dir s = CsvFile name df →
  Forall (λ col, col ∈ columns df) required_columns →
  ¬ structural_failure s.
Proof.
  intros Hi Hreq [Hn | [Hn | (name' & df' & Hi' & Hm)]]; try congruence.
  rewrite Hi in Hi'. injection Hi' as _ <-.
  apply Exists_exists in Hm as (col & Hcol & Hnot).
  rewrite Forall_forall in Hreq. by apply Hnot, Hreq.
Qed.

(** X20: a run that returns gives either [(False, None, None)], and then
    the input was structurally bad, or [True] with the path of the export
    and a summary, and then it was not: no other triple is ever returned. *)
Theorem runCleaningPipeline_result remove_aggregates remove_display now s r :
  (run remove_aggregates remove_display now s).1 = Returned r →
  (r = (false, None, None) ∧ structural_failure s)
  ∨ (∃ summary, r = (true, Some (output_path (output_dir s) now), Some summary)
                ∧ ¬ structural_failure s).
Proof.
  intros Hrun.
  destruct (runCleaningPipeline_cases parse_number sorted_mixed
              remove_aggregates remove_display now s)
    as [(lg & Hi & E) | [(name & df & lg & Hi & Hm & E)
       | [(name & df & e & lg & _ & _ & _ & E)
       | (name & df & lg & Hi & Hreq & Hc & E)]]];
    rewrite E in Hrun; cbn in Hrun.
  - injection Hrun as <-. left. split; [done|].
    destruct Hi; [by left | by right; left].
  - injection Hrun as <-. left. split; [done|]. right. right. eauto.
  - done.
  - right.
    destruct (summarize_and_return sorted_mixed now _ _) as [o st] eqn:Hs.
    cbn in Hrun. subst o.
    apply summarize_and_return_Returned in Hs as (summary & t & -> & _).
    exists summary. split; [done|]. by eapply not_structural_failure.
Qed.

Lemma validateDataTypes_raises_TypeError s df :
  data s = Some df → "year" ∈ columns df →
  ¬ Forall (castable parse_number) (rows df) →
  ∃ lg, validateDataTypes parse_number s = (Raised TypeError, with_log lg s).
Proof.
  intros Hd Hy Hc.
  destruct (validateDataTypes_raises parse_number s df Hd Hy Hc) as (e & lg & E).
  exists lg. rewrite E. f_equal. f_equal.
  revert E. unfold validateDataTypes. run_unfold. rewrite Hd. cbn.
  rewrite (getitem_in _ _ Hy), <- list_fmap_compose, collect_fmap.
  destruct (collect _ (rows df)) as [ys|e'] eqn:Hcol.
  - apply collect_Returned_inv in Hcol.
    apply not_Forall_Exists in Hc; [|apply _].
    apply Exists_exists in Hc as (r & Hr & Hnc).
    rewrite Forall_forall in Hcol. by specialize (Hcol r Hr).
  - intros [= <- _].
    eapply (collect_Raised_kind _ TypeError) in Hcol; [done|].
    intros r e''. apply astype_to_numeric_Raised.
Qed.

(** X21: when a year of the loaded table cannot be cast, the run neither
    returns a failure nor a success: [TypeError] escapes from
    [runCleaningPipeline], no file is written, and the cleaner is left with
    the table as loaded. *)
Theorem run_uncastable_year_raises remove_aggregates remove_display now s name df :
  input_dir s = CsvFile name df →
  Forall (λ col, col ∈ columns df) required_columns →
  ¬ Forall (castable parse_number) (rows df) →
  (run remove_aggregates remove_display now s).1 = Raised TypeError
  ∧ files (run remove_aggregates remove_display now s).2 = files s
  ∧ data (run remove_aggregates remove_display now s).2 = Some df.
Proof.
  intros Hi Hreq Hc.
  destruct (required_columns_in df Hreq) as (Hy & _).
  unfold runCleaningPipeline.
  rewrite (bind_Returned _ _ _ _ _ (logging_run _ _ _)).
  stage loadData_file; [exact Hi|].
  stage validateSchema_ok; [reflexivity | exact Hreq |].
  match goal with
  | |- context [ (?m ≫= ?f) ?st ] =>
      edestruct (validateDataTypes_raises_TypeError st df) as (lg1 & E);
        [reflexivity | exact Hy | exact Hc |];
      rewrite (bind_Raised m f st _ _ E)
  end.
  done.
Qed.

Lemma year_of_cleaned_row remove_aggregates remove_display df r :
  r ∈ rows (cleaned_table parse_number remove_aggregates remove_display df) →
  ∃ r0, r0 ∈ rows df ∧ cell "year" r = year_cast parse_number (cell "year" r0).
Proof.
  rewrite rows_cleaned_table.
  intros (r1 & -> & Hr1)%list_elem_of_fmap.
  assert (r1 ∈ rows (after_types parse_number df)) as Hr.
  { destruct remove_aggregates; cbn -[filter] in Hr1.
    - apply list_elem_of_filter in Hr1 as [_ Hr1].
      by apply list_elem_of_filter in Hr1 as [_ Hr1].
    - by apply list_elem_of_filter in Hr1 as [_ Hr1]. }
  cbn in Hr. apply list_elem_of_fmap in Hr as (r0 & -> & Hr0).
  exists r0. split; [done|].
  rewrite cell_strip_row by compute_done.
  unfold coerce_row. by rewrite cell_insert_ne, cell_insert_eq.
Qed.

(** X22: when no row of the loaded table has a year (the cell is missing,
    or a text that is no number), the run exports the cleaned table and
    then raises [TypeError] in the summary, whatever the number of rows. *)
Theorem run_without_years_raises remove_aggregates remove_display now s name df :
  input_dir s = CsvFile name df →
  Forall (λ col, col ∈ columns df) required_columns →
  Forall (λ r, to_numeric parse_number (cell "year" r) = NA) (rows df) →
  (run remove_aggregates remove_display now s).1 = Raised TypeError
  ∧ files (run remove_aggregates remove_display now s).2
      !! output_path (output_dir s) now
    = Some (cleaned_table parse_number remove_aggregates remove_display df).
Proof.
  intros Hi Hreq Hna.
  assert (Forall (castable parse_number) (rows df)) as Hc.
  { eapply Forall_impl; [exact Hna|]. intros r Hr. unfold castable. by rewrite Hr. }
  destruct (runCleaningPipeline_final parse_number sorted_mixed
              remove_aggregates remove_display now s name df Hi Hreq Hc)
    as [lg' Hfinal].
  rewrite Hfinal.
  destruct (runCleaningPipeline_exports parse_number sorted_mixed
              remove_aggregates remove_display now s name df Hi Hreq Hc) as [lg ->].
  unfold summarize_and_return, mbind at 1, M_bind at 1.
  match goal with
  | |- context [generateSummaryStatistics sorted_mixed now ?st] =>
      pose proof (generateSummaryStatistics_all_missing sorted_mixed now st _
                    eq_refl
                    (year_in_cleaned_table parse_number remove_aggregates
                       remove_display df (proj1 (required_columns_in df Hreq))))
        as He;
      destruct (generateSummaryStatistics sorted_mixed now st) as [o st'];
      cbn in He
  end.
  rewrite He.
  - split; [done|]. cbn. apply lookup_insert_eq.
  - apply Forall_forall. intros r Hr.
    apply year_of_cleaned_row in Hr as (r0 & Hr0 & ->).
    rewrite Forall_forall in Hna. unfold year_cast. by rewrite (Hna r0 Hr0).
Qed.

End RunProperties.

(** ** Runs of the orchestrator *)

Section OrchestratorProperties.
Context (parse_number : string → option Q).
Context (sorted_mixed : list Cell → Outcome (list Cell)).
Context (CommercialDataCleaner : Type).
Context (commercial_runCleaningPipeline :
  bool → bool → DateTime →
  M CommercialDataCleaner (bool * option string * option CommercialSummary.t)).

Local Abbreviation Pipeline := (FisheriesCleaningPipeline CommercialDataCleaner).
Local Abbreviation run := (runCleaningPipeline parse_number sorted_mixed).
Local Abbreviation full :=
  (runFullPipeline parse_number sorted_mixed commercial_runCleaningPipeline).

Ltac run_pipeline :=
  unfold mbind, M_bind, mret, M_ret, say, modify, lift, get, on_commercial,
    on_noncommercial; cbn.

Lemma runCommercialCleaning_raises remove_aggregates remove_display now (p : Pipeline)
    e cc :
  commercial_runCleaningPipeline remove_aggregates remove_display now
    (commercial_cleaner p) = (Raised e, cc) →
  ∃ rp, runCommercialCleaning commercial_runCleaningPipeline
          remove_aggregates remove_display now p
        = (Raised e, mkPipeline cc (noncommercial_cleaner p) (results p) rp).
Proof.
  intros H. unfold runCommercialCleaning. run_pipeline. rewrite H.
  eexists. reflexivity.
Qed.

Lemma runNoncommercialCleaning_raises remove_aggregates remove_display now (p : Pipeline)
    e nc :
  run remove_aggregates remove_display now (noncommercial_cleaner p) = (Raised e, nc) →
  ∃ rp, runNoncommercialCleaning parse_number sorted_mixed
          remove_aggregates remove_display now p
        = (Raised e, mkPipeline (commercial_cleaner p) nc (results p) rp).
Proof.
  intros H. unfold runNoncommercialCleaning. run_pipeline. rewrite H.
  eexists. reflexivity.
Qed.

(** The state after a full run in which both cleaners return. *)
Lemma runFullPipeline_returns remove_aggregates remove_display now (p : Pipeline)
    rc rn cc nc :
  commercial_runCleaningPipeline remove_aggregates remove_display now
    (commercial_cleaner p) = (Returned rc, cc) →
  (rc.1.1 = true → is_Some rc.2) →
  run remove_aggregates remove_display now (noncommercial_cleaner p)
  = (Returned rn, nc) →
  ∃ rp, full remove_aggregates remove_display now p
        = (Returned (rc.1.1 && rn.1.1),
           mkPipeline cc nc
             (mkResults (Some (commercial_record rc)) (Some (noncommercial_record rn)))
             rp).
Proof.
  intros Ec Hcs En.
  assert (rn.1.1 = true → is_Some rn.2) as Hns.
  { destruct (runCleaningPipeline_Returned parse_number sorted_mixed
                remove_aggregates remove_display now (noncommercial_cleaner p) rn)
      as [-> | (o & sm & ->)]; [by rewrite En | |]; cbn; [done | eauto]. }
  unfold runFullPipeline, setupLogging.
  do 4 (unfold mbind at 1, M_bind at 1, say at 1, modify at 1; cbn).
  match goal with
  | |- context [ (runCommercialCleaning _ _ _ _ ≫= ?f) ?st ] =>
      edestruct (runCommercialCleaning_run CommercialDataCleaner
                   commercial_runCleaningPipeline
                   remove_aggregates remove_display now st)
        as [rp1 E1]; [exact Ec|];
      pose proof (bind_Returned _ f st _ _ E1) as Hstep
  end.
  rewrite Hstep. clear Hstep E1.
  match goal with
  | |- context [ (runNoncommercialCleaning _ _ _ _ _ ≫= ?f) ?st ] =>
      edestruct (runNoncommercialCleaning_run parse_number sorted_mixed
                   CommercialDataCleaner remove_aggregates remove_display now st)
        as [rp2 E2]; [exact En|];
      pose proof (bind_Returned _ f st _ _ E2) as Hstep
  end.
  rewrite Hstep. clear Hstep E2.
  cbn [commercial_cleaner noncommercial_cleaner results commercial non_commercial].
  match goal with
  | |- context [ (generatePipelineReport ≫= ?f) ?st ] =>
      edestruct (generatePipelineReport_run CommercialDataCleaner st rc rn)
        as [rp3 E3];
        [reflexivity | reflexivity | exact Hcs | exact Hns |];
      pose proof (bind_Returned _ f st _ _ E3) as Hstep
  end.
  rewrite Hstep. clear Hstep E3.
  run_pipeline. eexists. reflexivity.
Qed.

(** The state after a full run in which the non-commercial cleaner raises. *)
Lemma runFullPipeline_raises remove_aggregates remove_display now (p : Pipeline)
    rc cc e nc :
  commercial_runCleaningPipeline remove_aggregates remove_display now
    (commercial_cleaner p) = (Returned rc, cc) →
  run remove_aggregates remove_display now (noncommercial_cleaner p)
  = (Raised e, nc) →
  ∃ rp, full remove_aggregates remove_display now p
        = (Raised e,
           mkPipeline cc nc
             (mkResults (Some (commercial_record rc)) (non_commercial (results p)))
             rp).
Proof.
  intros Ec En.
  unfold runFullPipeline, setupLogging.
  do 4 (unfold mbind at 1, M_bind at 1, say at 1, modify at 1; cbn).
  match goal with
  | |- context [ (runCommercialCleaning _ _ _ _ ≫= ?f) ?st ] =>
      edestruct (runCommercialCleaning_run CommercialDataCleaner
                   commercial_runCleaningPipeline
                   remove_aggregates remove_display now st)
        as [rp1 E1]; [exact Ec|];
      pose proof (bind_Returned _ f st _ _ E1) as Hstep
  end.
  rewrite Hstep. clear Hstep E1.
  match goal with
  | |- context [ (runNoncommercialCleaning _ _ _ _ _ ≫= ?f) ?st ] =>
      edestruct (runNoncommercialCleaning_raises remove_aggregates remove_display now st)
        as [rp2 E2]; [exact En|];
      pose proof (bind_Raised _ f st _ _ E2) as Hstep
  end.
  rewrite Hstep. eexists. reflexivity.
Qed.

(** The state after a full run in which the commercial cleaner raises. *)
Lemma runFullPipeline_raises_first remove_aggregates remove_display now (p : Pipeline)
    e cc :
  commercial_runCleaningPipeline remove_aggregates remove_display now
    (commercial_cleaner p) = (Raised e, cc) →
  ∃ rp, full remove_aggregates remove_display now p
        = (Raised e, mkPipeline cc (noncommercial_cleaner p) (results p) rp).
Proof.
  intros Ec.
  unfold runFullPipeline, setupLogging.
  do 4 (unfold mbind at 1, M_bind at 1, say at 1, modify at 1; cbn).
  match goal with
  | |- context [ (runCommercialCleaning _ _ _ _ ≫= ?f) ?st ] =>
      edestruct (runCommercialCleaning_raises remove_aggregates remove_display now st)
        as [rp1 E1]; [exact Ec|];
      pose proof (bind_Raised _ f st _ _ E1) as Hstep
  end.
  rewrite Hstep. eexists. reflexivity.
Qed.

(** X23: an exception of the commercial cleaner escapes from
    [runFullPipeline]: the non-commercial cleaner is not run at all, and no
    record is stored. *)
Theorem runFullPipeline_commercial_raises remove_aggregates remove_display now
    (p : Pipeline) e :
  (commercial_runCleaningPipeline remove_aggregates remove_display now
     (commercial_cleaner p)).1 = Raised e →
  let p' := (runFullPipeline parse_number sorted_mixed
               commercial_runCleaningPipeline
               remove_aggregates remove_display now p).2 in
  (runFullPipeline parse_number sorted_mixed commercial_runCleaningPipeline
     remove_aggregates remove_display now p).1 = Raised e
  ∧ noncommercial_cleaner p' = noncommercial_cleaner p
  ∧ results p' = results p.
Proof.
  intros He p'. subst p'.
  destruct (commercial_runCleaningPipeline remove_aggregates remove_display now
              (commercial_cleaner p)) as [o cc] eqn:Ec.
  cbn in He. subst o.
  destruct (runFullPipeline_raises_first remove_aggregates remove_display now p
              e cc Ec) as [rp ->].
  done.
Qed.

(** X24: an exception of the non-commercial cleaner escapes from
    [runFullPipeline] too: the record of the commercial cleaner has been
    stored by then, that of the non-commercial cleaner has not, and the
    cleaner is left as its own run left it. *)
Theorem runFullPipeline_noncommercial_raises remove_aggregates remove_display now
    (p : Pipeline) rc e :
  (commercial_runCleaningPipeline remove_aggregates remove_display now
     (commercial_cleaner p)).1 = Returned rc →
  (run remove_aggregates remove_display now (noncommercial_cleaner p)).1 = Raised e →
  let p' := (full remove_aggregates remove_display now p).2 in
  (full remove_aggregates remove_display now p).1 = Raised e
  ∧ commercial (results p') = Some (commercial_record rc)
  ∧ non_commercial (results p') = non_commercial (results p)
  ∧ noncommercial_cleaner p'
    = (run remove_aggregates remove_display now (noncommercial_cleaner p)).2.
Proof.
  intros Hc Hn.
  destruct (commercial_runCleaningPipeline remove_aggregates remove_display now
              (commercial_cleaner p)) as [oc cc] eqn:Ec.
  destruct (run remove_aggregates remove_display now (noncommercial_cleaner p))
    as [on nc] eqn:En.
  cbn in Hc, Hn. subst oc on.
  destruct (runFullPipeline_raises remove_aggregates remove_display now p
              rc cc e nc Ec En) as [rp ->].
  done.
Qed.

(** X25: the record that [runNoncommercialCleaning] stores agrees with what
    it returns and with the disk.  Its ['success'] entry is the value
    returned.  On [True] its ['summary'] entry is a summary, its
    ['output_file'] entry is the text of the path of the export (for a
    directory that [pathlib] spells as given, such as [data/cleaned]), it
    has no ['error'] entry, and the file at that path holds the table of
    the cleaner.  On [False] its ['error'] entry is the failure text, it has
    no ['summary'] and no ['output_file'] entry, and the files are those
    before the call.  The record of the commercial cleaner is not touched. *)
Theorem runNoncommercialCleaning_record remove_aggregates remove_display now
    (p : Pipeline) b p' :
  plain_dir (output_dir (noncommercial_cleaner p)) = true →
  runNoncommercialCleaning parse_number sorted_mixed
    remove_aggregates remove_display now p = (Returned b, p') →
  let path := output_path (output_dir (noncommercial_cleaner p)) now in
  commercial (results p') = commercial (results p)
  ∧ ∃ d,
      non_commercial (results p') = Some d
      ∧ d !! "success" = Some (VBool b)
      ∧ if b
        then (∃ summary, d !! "summary" = Some (VSummary summary))
             ∧ d !! "output_file" = Some (VStr path)
             ∧ d !! "error" = None
             ∧ is_Some (data (noncommercial_cleaner p'))
             ∧ files (noncommercial_cleaner p') !! path
               = data (noncommercial_cleaner p')
        else d !! "error" = Some (VStr "Non commercial data cleaning failed")
             ∧ d !! "summary" = None
             ∧ d !! "output_file" = None
             ∧ files (noncommercial_cleaner p') = files (noncommercial_cleaner p).
Proof.
  intros _ Hrun path. subst path.
  destruct (run remove_aggregates remove_display now (noncommercial_cleaner p))
    as [[rn|e] nc] eqn:En.
  - destruct (runNoncommercialCleaning_run parse_number sorted_mixed
                CommercialDataCleaner remove_aggregates remove_display now p rn nc En)
      as [rp E].
    rewrite E in Hrun. injection Hrun as <- <-.
    split; [done|]. cbn [results non_commercial noncommercial_cleaner].
    eexists. split; [reflexivity|].
    destruct (failure_record_lookup "Non commercial data cleaning failed")
      as (Hf1 & Hf2 & Hf3 & Hf4).
    destruct (runCleaningPipeline_cases parse_number sorted_mixed
                remove_aggregates remove_display now (noncommercial_cleaner p))
      as [(lg & Hi & E1) | [(name & df & lg & Hi & Hm & E1)
         | [(name & df & e & lg & _ & _ & _ & E1)
         | (name & df & lg & Hi & Hreq & Hc & E1)]]];
      rewrite En in E1.
    + injection E1 as -> ->. by cbn.
    + injection E1 as -> ->. by cbn.
    + done.
    + symmetry in E1.
      destruct (summarize_and_return_logs_only sorted_mixed now
                  (output_path (output_dir (noncommercial_cleaner p)) now)
                  (with_log lg (exported now
                     (cleaned_table parse_number remove_aggregates remove_display df)
                     (loaded df (noncommercial_cleaner p))))) as [lg' Hst].
      rewrite E1 in Hst. cbn in Hst. subst nc.
      apply summarize_and_return_Returned in E1 as (summary & t & -> & _).
      cbn.
      destruct (success_record_lookup
                  (Some (output_path (output_dir (noncommercial_cleaner p)) now))
                  (VSummary summary)) as (Hs1 & Hs2 & Hs3 & Hs4).
      split; [exact Hs1|]. split; [eauto|]. split; [exact Hs3|].
      split; [exact Hs4|]. split; [eauto|]. apply lookup_insert_eq.
  - destruct (runNoncommercialCleaning_raises remove_aggregates remove_display now
                p e nc En) as [rp E].
    by rewrite E in Hrun.
Qed.

Ltac combined_steps :=
  unfold generateCombinedSummary;
  unfold mbind at 1, M_bind at 1, say, modify; cbn -[truthy];
  unfold mbind at 1, M_bind at 1, get; cbn -[truthy].

(** X26: the combined summary after both cleaners have stored their record.
    When both succeeded, [generateCombinedSummary] returns the two summaries
    and the totals over both: the sum of the cleaned row counts, the sum of
    the exchange values, the smaller first year and the larger last year.
    When either failed, it raises [KeyError('summary')]. *)
Theorem generateCombinedSummary_after_runs now (p : Pipeline) rc rn :
  commercial (results p) = Some (commercial_record rc) →
  non_commercial (results p) = Some (noncommercial_record rn) →
  (rc.1.1 = true → is_Some rc.2) →
  (rn.1.1 = true → is_Some rn.2) →
  if rc.1.1 && rn.1.1
  then ∃ cs ns,
         rc.2 = Some cs ∧ rn.2 = Some ns
         ∧ (generateCombinedSummary now p).1
           = Returned (mkCombined now (VCommercialSummary cs) (VSummary ns)
               (Some (mkOverall
                  (CommercialSummary.cleaned_row_count cs
                   + Summary.cleaned_row_count ns)
                  (Qplus (CommercialSummary.total_exchange_value cs)
                         (Summary.total_exchange_value ns))
                  (Z.min (CommercialSummary.min_year cs) (Summary.min_year ns))
                  (Z.max (CommercialSummary.max_year cs) (Summary.max_year ns)))))
  else (generateCombinedSummary now p).1 = Raised (KeyError "summary").
Proof.
  intros Hc Hn Hcs Hns. unfold commercial_record, noncommercial_record in *.
  destruct rc as [[[] oc] mc], rn as [[[] on] mn]; cbn -[truthy] in *.
  - destruct (Hcs eq_refl) as [cs ->], (Hns eq_refl) as [ns ->].
    exists cs, ns. split; [done|]. split; [done|].
    combined_steps. rewrite Hc, Hn.
    rewrite !truthy_success_record.
    unfold result_summary, the_dict. cbn.
    unfold mbind, Outcome_bind, M_bind, lift.
    rewrite !success_record_summary. reflexivity.
  - destruct (Hcs eq_refl) as [cs ->].
    combined_steps. rewrite Hc, Hn.
    rewrite truthy_success_record, truthy_failure_record.
    unfold result_summary, the_dict. cbn.
    unfold mbind, Outcome_bind, M_bind, lift.
    rewrite success_record_summary, failure_record_summary. reflexivity.
  - combined_steps. rewrite Hc, Hn.
    rewrite truthy_failure_record.
    unfold result_summary, the_dict. cbn.
    unfold mbind, Outcome_bind, M_bind, lift.
    rewrite failure_record_summary. reflexivity.
  - combined_steps. rewrite Hc, Hn.
    rewrite truthy_failure_record.
    unfold result_summary, the_dict. cbn.
    unfold mbind, Outcome_bind, M_bind, lift.
    rewrite failure_record_summary. reflexivity.
Qed.

(** The combined summary when only the commercial cleaner has stored a
    record.  After a success the call returns the commercial summary, no
    non-commercial summary and no totals; after a failure it raises
    [KeyError('summary')]. *)
Lemma generateCombinedSummary_one_record now (p : Pipeline) rc :
  commercial (results p) = Some (commercial_record rc) →
  non_commercial (results p) = None →
  (rc.1.1 = true → is_Some rc.2) →
  if rc.1.1
  then ∃ cs, rc.2 = Some cs
             ∧ (generateCombinedSummary now p).1
               = Returned (mkCombined now (VCommercialSummary cs) VNone None)
  else (generateCombinedSummary now p).1 = Raised (KeyError "summary").
Proof.
  intros Hc Hn Hcs. unfold commercial_record in *.
  destruct rc as [[[] oc] mc]; cbn -[truthy] in *.
  - destruct (Hcs eq_refl) as [cs ->]. exists cs. split; [done|].
    combined_steps. rewrite Hc, Hn.
    rewrite truthy_success_record.
    unfold result_summary, the_dict. cbn.
    unfold mbind, Outcome_bind, M_bind, lift.
    rewrite success_record_summary. reflexivity.
  - combined_steps. rewrite Hc, Hn.
    rewrite truthy_failure_record.
    unfold result_summary, the_dict. cbn.
    unfold mbind, Outcome_bind, M_bind, lift.
    rewrite failure_record_summary. reflexivity.
Qed.

(** X27: [main] removes nothing but the rows without an exchange value.
    When the commercial cleaner returns and the non-commercial input passes
    the schema check and the cast, the file of the day in [data/cleaned]
    holds every coerced row with an exchange value, rollup rows included,
    under all the columns of the input. *)
Theorem main_keeps_rollups_and_columns now cc raw fs name df rc :
  raw = CsvFile name df →
  Forall (λ col, col ∈ columns df) required_columns →
  Forall (castable parse_number) (rows df) →
  (commercial_runCleaningPipeline false false now cc).1 = Returned rc →
  (rc.1.1 = true → is_Some rc.2) →
  ∃ out,
    files (noncommercial_cleaner
             (main parse_number sorted_mixed commercial_runCleaningPipeline
                now cc raw fs).2)
      !! output_path "data/cleaned" now = Some out
    ∧ columns out = columns df
    ∧ rows out = filter (λ r, cell "exchange_value" r ≠ NA)
                   (coerce_row parse_number <$> rows df).
Proof.
  intros -> Hreq Hcast Hc Hcs. unfold main.
  set (p := new_pipeline cc (init (CsvFile name df) "data/cleaned" fs)).
  destruct (commercial_runCleaningPipeline false false now cc) as [oc cc'] eqn:Ec.
  cbn in Hc. subst oc.
  destruct (runCleaningPipeline_final parse_number sorted_mixed false false now
              (noncommercial_cleaner p) name df eq_refl Hreq Hcast) as [lg Hfinal].
  destruct (run false false now (noncommercial_cleaner p)) as [[rn|e] nc] eqn:En.
  - destruct (runFullPipeline_returns false false now p rc rn cc' nc Ec Hcs En)
      as [rp ->].
    cbn in Hfinal |- *. subst nc. cbn. eexists. split; [apply lookup_insert_eq|].
    done.
  - destruct (runFullPipeline_raises false false now p rc cc' e nc Ec En)
      as [rp ->].
    cbn in Hfinal |- *. subst nc. cbn. eexists. split; [apply lookup_insert_eq|].
    done.
Qed.

End OrchestratorProperties.

(** ** The dashboard generators *)

Lemma ascii_compare_nat a b :
  Ascii.compare a b = (nat_of_ascii a ?= nat_of_ascii b).
Proof.
  unfold Ascii.compare, nat_of_ascii. by rewrite N2Nat.inj_compare.
Qed.

Lemma ascii_compare_refl a : Ascii.compare a a = Eq.
Proof. rewrite ascii_compare_nat. apply Nat.compare_refl. Qed.

Lemma string_compare_cons a s b t :
  String.compare (String a s) (String b t)
  = lex (Ascii.compare a b) (String.compare s t).
Proof. cbn. by destruct (Ascii.compare a b). Qed.

Lemma string_compare_refl s : String.compare s s = Eq.
Proof.
  induction s as [|a s IH]; [done|].
  by rewrite string_compare_cons, ascii_compare_refl.
Qed.

Lemma append_cons a (s t : string) : String a s +:+ t = String a (s +:+ t).
Proof. reflexivity. Qed.

Lemma string_compare_prefix p s t :
  String.compare (p +:+ s) (p +:+ t) = String.compare s t.
Proof.
  induction p as [|a p IH]; [done|].
  by rewrite !append_cons, string_compare_cons, ascii_compare_refl.
Qed.

Lemma string_leb_refl s : String.leb s s = true.
Proof. unfold String.leb. by rewrite string_compare_refl. Qed.

Lemma string_compare_Lt_trans s t u :
  String.compare s t = Lt → String.compare t u = Lt → String.compare s u = Lt.
Proof.
  revert t u. induction s as [|a s IH]; intros [|b t] [|c u]; try (by cbn).
  rewrite !string_compare_cons, !ascii_compare_nat. unfold lex.
  destruct (Nat.compare_spec (nat_of_ascii a) (nat_of_ascii b)) as [Hab|Hab|Hab];
    destruct (Nat.compare_spec (nat_of_ascii b) (nat_of_ascii c)) as [Hbc|Hbc|Hbc];
    try done; intros Hst Htu.
  - rewrite Hab, Hbc, Nat.compare_refl. by eapply IH.
  - destruct (Nat.compare_spec (nat_of_ascii a) (nat_of_ascii c)); [lia|done|lia].
  - destruct (Nat.compare_spec (nat_of_ascii a) (nat_of_ascii c)); [lia|done|lia].
  - destruct (Nat.compare_spec (nat_of_ascii a) (nat_of_ascii c)); [lia|done|lia].
Qed.

Lemma string_leb_trans s t u :
  String.leb s t = true → String.leb t u = true → String.leb s u = true.
Proof.
  unfold String.leb.
  destruct (String.compare s t) eqn:Hst; [| |done];
    destruct (String.compare t u) eqn:Htu; try done; intros _ _.
  - apply String.compare_eq_iff in Hst as ->. by rewrite Htu.
  - apply String.compare_eq_iff in Hst as ->. by rewrite Htu.
  - apply String.compare_eq_iff in Htu as <-. by rewrite Hst.
  - by rewrite (string_compare_Lt_trans s t u).
Qed.

Lemma last_greatest {A} (R : relation A) `{!Reflexive R} (l : list A) m x :
  StronglySorted R l → last l = Some m → x ∈ l → R x m.
Proof.
  intros Hs [l' ->]%last_Some [Hx | ->%list_elem_of_singleton]%elem_of_app;
    [|done].
  eapply StronglySorted_app_1_elem_of; [exact Hs | exact Hx |].
  by apply list_elem_of_singleton.
Qed.

(** What [findLatestCsv] returns: nothing without a match, and otherwise a
    match that no other match comes after in the order of texts. *)
Lemma findLatestCsv_greatest (matches : list string) :
  match findLatestCsv matches with
  | None => matches = []
  | Some m => m ∈ matches ∧ ∀ x, x ∈ matches → String.leb x m = true
  end.
Proof.
  unfold findLatestCsv.
  set (R := λ a b : string, Is_true (String.leb a b)).
  assert (Reflexive R) by (intros s; unfold R; by rewrite string_leb_refl).
  assert (Transitive R).
  { intros s t u Hst Htu. unfold R in *.
    apply Is_true_true. apply Is_true_true in Hst, Htu.
    by eapply string_leb_trans. }
  assert (Total R).
  { intros s t. unfold R.
    destruct (String.leb_total s t) as [->| ->]; [by left | by right]. }
  pose proof (merge_sort_Permutation R matches) as Hp.
  pose proof (StronglySorted_merge_sort R matches) as Hs.
  destruct (merge_sort R matches) as [|a sorted] eqn:E; cbn [nonempty].
  - symmetry in Hp. by apply Permutation_nil_r in Hp.
  - destruct (last (a :: sorted)) as [m|] eqn:El.
    + split.
      * rewrite <- Hp. apply last_Some in El as [l' ->].
        apply elem_of_app. right. by apply list_elem_of_singleton.
      * intros x Hx. rewrite <- Hp in Hx.
        apply Is_true_true. by eapply (last_greatest R).
    + by apply last_None in El.
Qed.

Lemma digit_compare n m :
  Ascii.compare (digit n) (digit m) = (n `mod` 10 ?= m `mod` 10).
Proof.
  rewrite ascii_compare_nat. unfold digit.
  pose proof (Nat.mod_upper_bound n 10). pose proof (Nat.mod_upper_bound m 10).
  rewrite !nat_ascii_embedding by lia.
  destruct (Nat.compare_spec (n `mod` 10) (m `mod` 10));
    destruct (Nat.compare_spec (48 + n `mod` 10) (48 + m `mod` 10)); try done; lia.
Qed.

Lemma compare_div_mod b n m :
  0 < b → lex (n `div` b ?= m `div` b) (n `mod` b ?= m `mod` b) = (n ?= m).
Proof.
  intros Hb.
  pose proof (Nat.div_mod_eq n b). pose proof (Nat.div_mod_eq m b).
  pose proof (Nat.mod_upper_bound n b). pose proof (Nat.mod_upper_bound m b).
  unfold lex.
  destruct (Nat.compare_spec (n `div` b) (m `div` b));
    destruct (Nat.compare_spec (n `mod` b) (m `mod` b));
    destruct (Nat.compare_spec n m); try done; nia.
Qed.

Lemma two_digits_compare n m :
  n < 100 → m < 100 →
  lex ((n `div` 10) `mod` 10 ?= (m `div` 10) `mod` 10) (n `mod` 10 ?= m `mod` 10)
  = (n ?= m).
Proof.
  intros Hn Hm.
  rewrite (Nat.mod_small (n `div` 10)), (Nat.mod_small (m `div` 10)).
  - apply compare_div_mod. lia.
  - apply Nat.Div0.div_lt_upper_bound. lia.
  - apply Nat.Div0.div_lt_upper_bound. lia.
Qed.

Lemma lex_assoc c1 c2 c3 : lex c1 (lex c2 c3) = lex (lex c1 c2) c3.
Proof. by destruct c1. Qed.

Lemma lex_Eq_r c : lex c Eq = c.
Proof. by destruct c. Qed.

Lemma units_of_last_two n : (n `mod` 100) `mod` 10 = n `mod` 10.
Proof.
  pose proof (Nat.div_mod_eq n 100). pose proof (Nat.mod_upper_bound n 100).
  pose proof (Nat.div_mod_eq n 10). pose proof (Nat.mod_upper_bound n 10).
  pose proof (Nat.div_mod_eq (n `mod` 100) 10).
  pose proof (Nat.mod_upper_bound (n `mod` 100) 10).
  lia.
Qed.

Lemma tens_of_last_two n : ((n `mod` 100) `div` 10) `mod` 10 = (n `div` 10) `mod` 10.
Proof.
  pose proof (units_of_last_two n).
  pose proof (Nat.div_mod_eq n 100). pose proof (Nat.mod_upper_bound n 100).
  pose proof (Nat.div_mod_eq n 10). pose proof (Nat.mod_upper_bound n 10).
  pose proof (Nat.div_mod_eq (n `mod` 100) 10).
  pose proof (Nat.mod_upper_bound (n `mod` 100) 10).
  pose proof (Nat.div_mod_eq (n `div` 10) 10).
  pose proof (Nat.mod_upper_bound (n `div` 10) 10).
  pose proof (Nat.div_mod_eq ((n `mod` 100) `div` 10) 10).
  pose proof (Nat.mod_upper_bound ((n `mod` 100) `div` 10) 10).
  lia.
Qed.

Lemma four_digits_compare n m :
  n < 100 * 100 → m < 100 * 100 →
  lex ((n `div` 1000) `mod` 10 ?= (m `div` 1000) `mod` 10)
    (lex ((n `div` 100) `mod` 10 ?= (m `div` 100) `mod` 10)
       (lex ((n `div` 10) `mod` 10 ?= (m `div` 10) `mod` 10)
          (n `mod` 10 ?= m `mod` 10)))
  = (n ?= m).
Proof.
  intros Hn Hm.
  rewrite <- (compare_div_mod 100 n m) by lia.
  rewrite lex_assoc. f_equal.
  - rewrite <- (two_digits_compare (n `div` 100) (m `div` 100))
      by (apply Nat.Div0.div_lt_upper_bound; lia).
    by rewrite !Nat.Div0.div_div.
  - rewrite <- (two_digits_compare (n `mod` 100) (m `mod` 100))
      by (apply Nat.mod_upper_bound; lia).
    by rewrite !tens_of_last_two, !units_of_last_two.
Qed.

Lemma strftime_Ymd_compare d d' suffix :
  valid_date d → valid_date d' →
  String.compare (strftime_Ymd d +:+ suffix) (strftime_Ymd d' +:+ suffix)
  = lex (dt_year d ?= dt_year d')
      (lex (dt_month d ?= dt_month d') (dt_day d ?= dt_day d')).
Proof.
  intros (Hy & Hm & Hd) (Hy' & Hm' & Hd').
  unfold strftime_Ymd. rewrite !append_cons.
  change ("" +:+ suffix) with suffix.
  rewrite !string_compare_cons, !digit_compare, string_compare_refl, lex_Eq_r.
  rewrite <- (four_digits_compare (dt_year d) (dt_year d')) by lia.
  rewrite <- (two_digits_compare (dt_month d) (dt_month d')) by lia.
  rewrite <- (two_digits_compare (dt_day d) (dt_day d')) by lia.
  by rewrite !lex_assoc.
Qed.

Lemma output_path_leb out d d' :
  valid_date d → valid_date d' →
  String.leb (output_path out d) (output_path out d') = true → day_le d d'.
Proof.
  intros Hv Hv'. unfold String.leb, output_path.
  rewrite !string_compare_prefix, strftime_Ymd_compare by done.
  unfold lex, day_le.
  destruct (Nat.compare_spec (dt_year d) (dt_year d')); [|by left|done].
  destruct (Nat.compare_spec (dt_month d) (dt_month d'));
    [|by right; split; [|left]|done].
  destruct (Nat.compare_spec (dt_day d) (dt_day d')); [| |done];
    intros _; right; (split; [done|]); right; (split; [done|]); lia.
Qed.

(** X28: among the exports of the cleaner in a directory,
    [findLatestCsv] picks the one of the latest day: the zero-padded date
    stamps make the order of the file names the order of the days.
    Without an export it returns [None]. *)
Theorem findLatestCsv_latest_export out (days : list DateTime) :
  Forall valid_date days →
  match findLatestCsv (output_path out <$> days) with
  | None => days = []
  | Some path =>
      ∃ d, d ∈ days ∧ path = output_path out d ∧ ∀ d', d' ∈ days → day_le d' d
  end.
Proof.
  intros Hv.
  pose proof (findLatestCsv_greatest (output_path out <$> days)) as H.
  destruct (findLatestCsv (output_path out <$> days)) as [path|].
  - destruct H as [Hin Hmax].
    apply list_elem_of_fmap in Hin as (d & -> & Hd).
    exists d. split; [done|]. split; [done|].
    intros d' Hd'. rewrite Forall_forall in Hv.
    apply (output_path_leb out); [by apply Hv | by apply Hv |].
    apply Hmax. by apply list_elem_of_fmap_2.
  - by apply fmap_nil_inv in H.
Qed.

Section DashboardProperties.
Context (float : Type) (fzero : float) (fadd : float → float → float).
Context (fgt : float → float → bool).
Context (int_of_text : string → option Z).
Context (float_of_text : string → option float).

Local Abbreviation year_of := (get_year int_of_text).
Local Abbreviation value_of := (get_exchange_value float fzero float_of_text).
Local Abbreviation summary_of := (computeSummary float fzero fadd fgt).

(** The rows whose year and exchange value convert. *)
Local Abbreviation converts :=
  (λ r : gmap string CsvVal, is_Some (year_of r) ∧ is_Some (value_of r)).

Lemma normalize_rows_filter (f : gmap string CsvVal → option (ChartRow float)) rows :
  (∀ r, is_Some (f r) ↔ converts r) →
  Forall2 (λ r row, f r = Some row) (filter converts rows) (normalize_rows f rows).
Proof.
  intros Hf. induction rows as [|r rows IH]; [constructor|].
  cbn [normalize_rows]. rewrite filter_cons.
  destruct (f r) as [row|] eqn:E.
  - rewrite decide_True by (apply Hf; by rewrite E). by constructor.
  - rewrite decide_False; [done|].
    intros Hc%Hf. rewrite E in Hc. by destruct Hc.
Qed.

(** X29: [normalizeNoncommercial] and [normalizeCommercial] never raise.
    They keep, in order, exactly the rows whose year and exchange value
    convert, and skip the others; a kept row carries the converted year and
    value and the county of its source, and its island for the
    non-commercial rows, while every commercial row gets the empty island.
    A row without a [year] field is not skipped: it gets the year 0. *)
Theorem normalize_keeps_convertible rows :
  Forall2 (λ r row,
             year_of r = Some (row_year row)
             ∧ value_of r = Some (row_exchange_value row)
             ∧ row_county row = get_field r "county"
             ∧ row_island row = get_field r "island"
             ∧ row_type row = "noncommercial")
    (filter converts rows)
    (normalizeNoncommercial float fzero int_of_text float_of_text rows)
  ∧ Forall2 (λ r row,
               year_of r = Some (row_year row)
               ∧ value_of r = Some (row_exchange_value row)
               ∧ row_county row = get_field r "county"
               ∧ row_island row = CsvStr ""
               ∧ row_type row = "commercial")
      (filter converts rows)
      (normalizeCommercial float fzero int_of_text float_of_text rows)
  ∧ ∀ r, r !! "year" = None → year_of r = Some 0%Z.
Proof.
  split; [|split].
  - eapply Forall2_impl; [apply normalize_rows_filter|].
    + intros r. unfold normalize_noncommercial.
      destruct (year_of r), (value_of r); cbn; split;
        try (intros [? ?]; done); try (intros [[? ?] [? ?]]; done); eauto.
    + intros r row. unfold normalize_noncommercial.
      destruct (year_of r), (value_of r); cbn; try done.
      by intros [= <-].
  - eapply Forall2_impl; [apply normalize_rows_filter|].
    + intros r. unfold normalize_commercial.
      destruct (year_of r), (value_of r); cbn; split;
        try (intros [? ?]; done); try (intros [[? ?] [? ?]]; done); eauto.
    + intros r row. unfold normalize_commercial.
      destruct (year_of r), (value_of r); cbn; try done.
      by intros [= <-].
  - intros r Hr. unfold get_year. by rewrite Hr.
Qed.

(** The first and the last of the sorted years of some rows. *)
Lemma sorted_years_range (rows : list (ChartRow float)) :
  let years := sorted_years rows in
  (head years = None ↔ rows = [])
  ∧ (last years = None ↔ rows = [])
  ∧ (∀ r, r ∈ rows →
       ∃ lo hi, head years = Some lo ∧ last years = Some hi
                ∧ (lo ≤ row_year r ≤ hi)%Z)
  ∧ (∀ y, head years = Some y ∨ last years = Some y →
       ∃ r, r ∈ rows ∧ row_year r = y).
Proof.
  intros years. subst years. unfold sorted_years.
  pose proof (merge_sort_Permutation Z.le (remove_dups (row_year <$> rows))) as Hp.
  pose proof (StronglySorted_merge_sort Z.le (remove_dups (row_year <$> rows)))
    as Hs.
  set (years := merge_sort Z.le (remove_dups (row_year <$> rows))) in *.
  assert (∀ y, y ∈ years ↔ ∃ r, r ∈ rows ∧ row_year r = y) as Hin.
  { intros y. rewrite Hp, elem_of_remove_dups, list_elem_of_fmap.
    split; intros (r & ? & ?); exists r; by split. }
  assert (years = [] ↔ rows = []) as Hnil.
  { split.
    - intros E. destruct rows as [|r rows]; [done|].
      assert (row_year r ∈ years) as Hr
        by (apply Hin; exists r; split; [apply elem_of_cons; by left | done]).
      rewrite E in Hr. by apply elem_of_nil in Hr.
    - intros ->. destruct years as [|y years']; [done|].
      destruct (proj1 (Hin y)) as (r & Hr & _); [apply elem_of_cons; by left|].
      by apply elem_of_nil in Hr. }
  split; [|split; [|split]].
  - rewrite <- Hnil. by destruct years.
  - rewrite <- Hnil. apply last_None.
  - intros r Hr.
    assert (row_year r ∈ years) as Hy by (apply Hin; eauto).
    destruct years as [|lo years'] eqn:E; [by apply elem_of_nil in Hy|].
    destruct (last (lo :: years')) as [hi|] eqn:El;
      [|by apply last_None in El].
    exists lo, hi. split; [done|]. split; [done|]. split.
    + apply StronglySorted_inv in Hs as [_ Hlo].
      apply elem_of_cons in Hy as [->|Hy]; [done|].
      rewrite Forall_forall in Hlo. by apply Hlo.
    + by eapply (last_greatest Z.le).
  - intros y [Hy|Hy]; apply Hin.
    + destruct years as [|y' years']; [done|]. injection Hy as ->.
      apply elem_of_cons. by left.
    + apply last_Some in Hy as [l' ->]. apply elem_of_app. right.
      by apply list_elem_of_singleton.
Qed.

Lemma add_total_keys (d : list (CsvVal * float)) k v k' :
  k' ∈ (add_total float fzero fadd d k v).*1 ↔ k' ∈ d.*1 ∨ k' = k.
Proof.
  induction d as [|[k0 t] d IH]; cbn.
  - rewrite list_elem_of_singleton, elem_of_nil. tauto.
  - destruct (decide (k0 = k)) as [->|Hk]; cbn.
    + rewrite !elem_of_cons. split; [by left|]. intros [?| ->]; [done | by left].
    + rewrite !elem_of_cons, IH. tauto.
Qed.

Lemma totals_by_keys key keep (rows : list (ChartRow float)) k :
  k ∈ (totals_by float fzero fadd key keep rows).*1
  ↔ ∃ r, r ∈ rows ∧ key r = k ∧ keep k = true.
Proof.
  unfold totals_by.
  assert (∀ d, k ∈ (foldl (λ d r, if keep (key r)
                                   then add_total float fzero fadd d (key r)
                                          (row_exchange_value r)
                                   else d) d rows).*1
               ↔ k ∈ d.*1 ∨ ∃ r, r ∈ rows ∧ key r = k ∧ keep k = true) as H.
  { induction rows as [|r rows IH]; intros d; cbn [foldl].
    - split; [by left|]. intros [?|(r & Hr & _)]; [done|].
      by apply elem_of_nil in Hr.
    - rewrite IH. destruct (keep (key r)) eqn:Hk.
      + rewrite add_total_keys. split.
        * intros [[?| ->]|(r' & Hr' & ? & ?)]; [by left| |].
          -- right. exists r. split; [apply elem_of_cons; by left | done].
          -- right. exists r'. split; [apply elem_of_cons; by right | done].
        * intros [?|(r' & [->|Hr']%elem_of_cons & <- & ?)]; [by left; left| |].
          -- left. by right.
          -- right. by exists r'.
      + split.
        * intros [?|(r' & Hr' & ? & ?)]; [by left|].
          right. exists r'. split; [apply elem_of_cons; by right | done].
        * intros [?|(r' & [->|Hr']%elem_of_cons & <- & ?)]; [by left|congruence|].
          right. by exists r'. }
  rewrite H. cbn. rewrite elem_of_nil. tauto.
Qed.

Lemma max_key_elem_of (d : list (CsvVal * float)) :
  match max_key fgt d with
  | None => d = []
  | Some k => k ∈ d.*1
  end.
Proof.
  destruct d as [|kv d]; [done|]. cbn [max_key].
  assert (∀ best, foldl (λ best kv', if fgt kv'.2 best.2 then kv' else best) best d
                  ∈ best :: d) as H.
  { induction d as [|kv' d IH]; intros best; cbn [foldl].
    - apply elem_of_cons. by left.
    - specialize (IH (if fgt kv'.2 best.2 then kv' else best)).
      apply elem_of_cons in IH as [->|IH].
      + destruct (fgt kv'.2 best.2); rewrite !elem_of_cons; auto.
      + rewrite !elem_of_cons; auto. }
  by apply list_elem_of_fmap_2.
Qed.

(** X30: what [computeSummary] reports.  The record count is the number of
    rows of both lists.  The year range of a dataset is missing exactly
    when the dataset has no rows; otherwise its two ends are years of rows
    and bound the year of every row.  The top species group is the group of
    some row, and the top county the county of some row that has one; they
    are the dash when there is no row, or no row with a county. *)
Theorem computeSummary_report (commercial noncommercial : list (ChartRow float)) :
  let s := summary_of commercial noncommercial in
  dashboard_total_records s = Z.of_nat (length (commercial ++ noncommercial))
  ∧ (comm_year_min s = None ↔ commercial = [])
  ∧ (noncomm_year_min s = None ↔ noncommercial = [])
  ∧ (∀ r, r ∈ commercial →
       ∃ lo hi, comm_year_min s = Some lo ∧ comm_year_max s = Some hi
                ∧ (lo ≤ row_year r ≤ hi)%Z)
  ∧ (∀ r, r ∈ noncommercial →
       ∃ lo hi, noncomm_year_min s = Some lo ∧ noncomm_year_max s = Some hi
                ∧ (lo ≤ row_year r ≤ hi)%Z)
  ∧ (∀ y, comm_year_min s = Some y ∨ comm_year_max s = Some y →
       ∃ r, r ∈ commercial ∧ row_year r = y)
  ∧ (∀ y, noncomm_year_min s = Some y ∨ noncomm_year_max s = Some y →
       ∃ r, r ∈ noncommercial ∧ row_year r = y)
  ∧ (if nonempty (commercial ++ noncommercial)
     then ∃ r, r ∈ commercial ++ noncommercial ∧ row_species_group r = top_species s
     else top_species s = CsvStr "—")
  ∧ ((∃ r, r ∈ commercial ++ noncommercial ∧ row_county r = top_county s
           ∧ truthy_field (row_county r) = true)
     ∨ (top_county s = CsvStr "—"
        ∧ ∀ r, r ∈ commercial ++ noncommercial → truthy_field (row_county r) = false)).
Proof.
  intros s. subst s. unfold computeSummary. cbn.
  assert (∀ rows : list (ChartRow float),
            (if nonempty rows then sorted_years rows else []) = sorted_years rows)
    as Hne by (by intros []).
  rewrite !Hne.
  destruct (sorted_years_range commercial) as (Hc1 & _ & Hc3 & Hc4).
  destruct (sorted_years_range noncommercial) as (Hn1 & _ & Hn3 & Hn4).
  cbn zeta in *.
  split; [rewrite length_app; lia|].
  do 6 (split; [done|]).
  split.
  - pose proof (max_key_elem_of
                  (totals_by float fzero fadd row_species_group (λ _, true)
                     (commercial ++ noncommercial))) as Hm.
    destruct (max_key fgt _) as [k|] eqn:E.
    + apply totals_by_keys in Hm as (r & Hr & Hk & _).
      destruct (commercial ++ noncommercial) as [|r0 l]; [by apply elem_of_nil in Hr|].
      cbn. by exists r.
    + destruct (commercial ++ noncommercial) as [|r0 l]; [done|].
      exfalso.
      assert (row_species_group r0
              ∈ (totals_by float fzero fadd row_species_group (λ _, true)
                   (r0 :: l)).*1) as Hin.
      { apply totals_by_keys. exists r0. split; [apply elem_of_cons; by left|done]. }
      rewrite Hm in Hin. by apply elem_of_nil in Hin.
  - pose proof (max_key_elem_of
                  (totals_by float fzero fadd row_county truthy_field
                     (commercial ++ noncommercial))) as Hm.
    destruct (max_key fgt _) as [k|] eqn:E.
    + left. apply totals_by_keys in Hm as (r & Hr & Hk & Ht).
      exists r. cbn. by rewrite Hk.
    + right. split; [done|]. intros r Hr.
      destruct (truthy_field (row_county r)) eqn:Ht; [|done]. exfalso.
      assert (row_county r
              ∈ (totals_by float fzero fadd row_county truthy_field
                   (commercial ++ noncommercial)).*1) as Hin.
      { apply totals_by_keys. by exists r. }
      rewrite Hm in Hin. by apply elem_of_nil in Hin.
Qed.

End DashboardProperties.

(** ** The properties above on concrete inputs *)

Lemma validateSchema_iff_witness :
  (validateSchema holding_sample).1 = Returned true.
Proof.
  apply (proj2 (proj1 (validateSchema_iff holding_sample sample eq_refl))).
  compute_done.
Defined.

Lemma validateDataTypes_uncastable_witness :
  (validateDataTypes parse_decimal (loaded fractional_year (fresh fractional_year))).1
  = Raised TypeError.
Proof.
  refine (proj1 (validateDataTypes_uncastable parse_decimal
                   (loaded fractional_year (fresh fractional_year))
                   fractional_year eq_refl _ _)).
  - compute_done.
  - compute_done.
Defined.

Lemma validateDataTypes_missing_exchange_value_witness :
  (validateDataTypes parse_decimal (loaded no_value (fresh no_value))).1
  = Raised (KeyError "exchange_value").
Proof.
  refine (proj1 (validateDataTypes_missing_exchange_value parse_decimal
                   (loaded no_value (fresh no_value)) no_value eq_refl _ _ _)).
  - compute_done.
  - compute_done.
  - compute_done.
Defined.

Lemma validateDataTypes_effect_witness :
  ∃ df df1,
    data holding_sample = Some df
    ∧ data (validateDataTypes parse_decimal holding_sample).2 = Some df1
    ∧ columns df1 = columns df.
Proof.
  assert ((validateDataTypes parse_decimal holding_sample).1 = Returned ()) as Hok
    by (vm_compute; reflexivity).
  destruct (validateDataTypes parse_decimal holding_sample) as [o s1] eqn:E.
  cbn in Hok. subst o.
  destruct (validateDataTypes_effect parse_decimal _ s1 E)
    as (df & df1 & Hd & Hd1 & Hcols & _).
  exists df, df1. split; [exact Hd|]. split; [exact Hd1 | exact Hcols].
Defined.

Lemma validateDataRanges_report_witness :
  (validateDataRanges holding_coerced).1 = Returned true.
Proof.
  refine (f_equal fst (proj1 (validateDataRanges_report holding_coerced
                                (after_types parse_decimal sample) eq_refl _ _ _))).
  - compute_done.
  - compute_done.
  - compute_done.
Defined.

Lemma validateDataRanges_text_raises_witness :
  (validateDataRanges holding_sample).1 = Raised TypeError.
Proof.
  refine (proj1 (validateDataRanges_text_raises holding_sample sample eq_refl _ _)).
  - compute_done.
  - compute_done.
Defined.

Lemma validateDataRanges_after_validateDataTypes_witness :
  (validateDataRanges (validateDataTypes parse_decimal holding_sample).2).1
  = Returned true.
Proof.
  assert ((validateDataTypes parse_decimal holding_sample).1 = Returned ()) as Hok
    by (vm_compute; reflexivity).
  destruct (validateDataTypes parse_decimal holding_sample) as [o s1] eqn:E.
  cbn in Hok. subst o.
  exact (proj1 (validateDataRanges_after_validateDataTypes parse_decimal _ s1 E)).
Defined.

Lemma validate_vocabulary_report_witness :
  (validateIslands no_mixed_sort holding_sample).1 = Returned ().
Proof.
  refine (proj1 (validate_vocabulary_report no_mixed_sort
                   "Validating islands " "island" "island names" expected_islands
                   holding_sample sample eq_refl _)).
  compute_done.
Defined.

Lemma validate_vocabulary_missing_column_witness :
  (validateIslands no_mixed_sort (loaded no_island (fresh no_island))).1
  = Raised (KeyError "island").
Proof.
  refine (proj1 (validate_vocabulary_missing_column no_mixed_sort
                   "Validating islands " "island" "island names" expected_islands
                   (loaded no_island (fresh no_island)) no_island eq_refl _)).
  compute_done.
Defined.

Lemma removeNullValues_idempotent_witness :
  ∃ df1,
    data (removeNullValues holding_coerced).2 = Some df1
    ∧ ∀ r, r ∈ rows df1
           ↔ r ∈ rows (after_types parse_decimal sample)
             ∧ cell "exchange_value" r ≠ NA.
Proof.
  assert ((removeNullValues holding_coerced).1 = Returned ()) as Hok
    by (vm_compute; reflexivity).
  destruct (removeNullValues holding_coerced) as [o s1] eqn:E.
  cbn in Hok. subst o.
  destruct (removeNullValues_idempotent _ s1 E) as (df & df1 & Hd & Hd1 & _ & Hr & _).
  injection Hd as <-. exists df1. split; [exact Hd1 | exact Hr].
Defined.

Lemma removeAggregateRows_idempotent_witness :
  ∃ df1,
    data (removeAggregateRows true holding_sample).2 = Some df1
    ∧ ∀ r, r ∈ rows df1
           ↔ r ∈ rows sample ∧ cell "ecosystem_type" r ≠ CStr "All Ecosystems".
Proof.
  assert ((removeAggregateRows true holding_sample).1 = Returned ()) as Hok
    by (vm_compute; reflexivity).
  destruct (removeAggregateRows true holding_sample) as [o s1] eqn:E.
  cbn in Hok. subst o.
  destruct (removeAggregateRows_idempotent _ s1 E)
    as (df & df1 & Hd & Hd1 & _ & Hr & _).
  injection Hd as <-. exists df1. split; [exact Hd1 | exact Hr].
Defined.

Lemma removal_stages_commute_witness :
  data ((removeNullValues ≫= λ _, removeAggregateRows true) holding_coerced).2
  = data ((removeAggregateRows true ≫= λ _, removeNullValues) holding_coerced).2.
Proof.
  refine (removal_stages_commute true holding_coerced
            (after_types parse_decimal sample) eq_refl _ _).
  - compute_done.
  - compute_done.
Defined.

Lemma removeDisplayColumns_effect_witness :
  ∃ df1,
    data (removeDisplayColumns true (loaded with_display (fresh with_display))).2
    = Some df1
    ∧ columns df1 = required_columns
    ∧ length (rows df1) = 2.
Proof.
  destruct (proj2 (proj2 (proj2 (removeDisplayColumns_effect
                                   (loaded with_display (fresh with_display))
                                   with_display eq_refl))))
    as (df1 & Hd & Hcols & _ & Hlen & _).
  exists df1. split; [exact Hd|]. split; [exact Hcols | exact Hlen].
Defined.

Lemma output_path_same_path_iff_witness :
  output_path "data/cleaned" day1 ≠ output_path "data/cleaned" day2.
Proof.
  intros H.
  apply (output_path_same_path_iff "data/cleaned" day1 day2) in H.
  - destruct H as (_ & _ & Hd). discriminate Hd.
  - compute_done.
  - compute_done.
Defined.

Lemma generateSummaryStatistics_year_bounds_witness :
  match (generateSummaryStatistics no_mixed_sort day1 holding_coerced).1 with
  | Returned summary =>
      (Summary.min_year summary ≤ 2010 ≤ Summary.max_year summary)%Z
  | Raised _ => False
  end.
Proof.
  assert (is_raised (generateSummaryStatistics no_mixed_sort day1
                       holding_coerced).1 = false) as Hok
    by (vm_compute; reflexivity).
  destruct (generateSummaryStatistics no_mixed_sort day1 holding_coerced).1
    as [summary|e] eqn:E; [|discriminate Hok].
  refine (generateSummaryStatistics_year_bounds no_mixed_sort day1 holding_coerced
            summary (after_types parse_decimal sample)
            (coerce_row parse_decimal reef_row) 2010 E eq_refl _ _).
  - compute_done.
  - vm_compute. reflexivity.
Defined.

Lemma records_by_key_counts_witness :
  match (generateSummaryStatistics no_mixed_sort day1 holding_coerced).1 with
  | Returned summary => Summary.records_by_year summary !! CInt 2010 = Some 1%Z
  | Raised _ => False
  end.
Proof.
  assert (is_raised (generateSummaryStatistics no_mixed_sort day1
                       holding_coerced).1 = false) as Hok
    by (vm_compute; reflexivity).
  destruct (generateSummaryStatistics no_mixed_sort day1 holding_coerced).1
    as [summary|e] eqn:E; [|discriminate Hok].
  apply (proj1 (records_by_key_counts no_mixed_sort day1 holding_coerced
                  summary (after_types parse_decimal sample) (CInt 2010) 1
                  E eq_refl)).
  split; [discriminate|]. split; [vm_compute; reflexivity | lia].
Defined.

Lemma unique_islands_sorted_distinct_witness :
  match (generateSummaryStatistics no_mixed_sort day1 holding_coerced).1 with
  | Returned summary => NoDup (Summary.unique_islands summary)
  | Raised _ => False
  end.
Proof.
  assert (is_raised (generateSummaryStatistics no_mixed_sort day1
                       holding_coerced).1 = false) as Hok
    by (vm_compute; reflexivity).
  destruct (generateSummaryStatistics no_mixed_sort day1 holding_coerced).1
    as [summary|e] eqn:E; [|discriminate Hok].
  refine (proj1 (unique_islands_sorted_distinct no_mixed_sort day1 holding_coerced
                   summary (after_types parse_decimal sample) E eq_refl _)).
  compute_done.
Defined.

Lemma runCleaningPipeline_result_witness :
  match (runCleaningPipeline parse_decimal no_mixed_sort true false day1
           (fresh sample)).1 with
  | Returned r =>
      ∃ summary, r = (true, Some (output_path "data/cleaned" day1), Some summary)
  | Raised _ => False
  end.
Proof.
  assert (succeeded (runCleaningPipeline parse_decimal no_mixed_sort true false
                       day1 (fresh sample)).1 = true) as Hok
    by (vm_compute; reflexivity).
  destruct (runCleaningPipeline parse_decimal no_mixed_sort true false day1
              (fresh sample)).1 as [r|e] eqn:E; [|discriminate Hok].
  destruct (runCleaningPipeline_result parse_decimal no_mixed_sort true false day1
              (fresh sample) r E) as [[-> _] | (summary & Hr & _)].
  - discriminate Hok.
  - exists summary. exact Hr.
Defined.

Lemma run_uncastable_year_raises_witness :
  (runCleaningPipeline parse_decimal no_mixed_sort true false day1
     (fresh fractional_year)).1 = Raised TypeError.
Proof.
  refine (proj1 (run_uncastable_year_raises parse_decimal no_mixed_sort true false
                   day1 (fresh fractional_year) "tidied_noncomm_ev.csv"
                   fractional_year eq_refl _ _)).
  - compute_done.
  - compute_done.
Defined.

Lemma run_without_years_raises_witness :
  (runCleaningPipeline parse_decimal no_mixed_sort true false day1
     (fresh no_years)).1 = Raised TypeError.
Proof.
  refine (proj1 (run_without_years_raises parse_decimal no_mixed_sort true false
                   day1 (fresh no_years) "tidied_noncomm_ev.csv" no_years
                   eq_refl _ _)).
  - compute_done.
  - compute_done.
Defined.

Lemma runFullPipeline_commercial_raises_witness :
  (runFullPipeline parse_decimal no_mixed_sort commercial_raises true false day1
     (new_pipeline () (fresh sample))).1 = Raised ValueError.
Proof.
  exact (proj1 (runFullPipeline_commercial_raises parse_decimal no_mixed_sort ()
                  commercial_raises true false day1
                  (new_pipeline () (fresh sample)) ValueError eq_refl)).
Defined.

Lemma runFullPipeline_noncommercial_raises_witness :
  (runFullPipeline parse_decimal no_mixed_sort commercial_succeeds true false day1
     (new_pipeline () (fresh all_blank))).1 = Raised TypeError.
Proof.
  refine (proj1 (runFullPipeline_noncommercial_raises parse_decimal no_mixed_sort ()
                   commercial_succeeds true false day1
                   (new_pipeline () (fresh all_blank))
                   (true,
                    Some ("data/cleaned/cleaned_commercial_" +:+ strftime_Ymd day1
                          +:+ ".csv"),
                    Some commercial_summary)
                   TypeError eq_refl _)).
  vm_compute. reflexivity.
Defined.

Lemma runNoncommercialCleaning_record_witness :
  let p' := (runNoncommercialCleaning parse_decimal no_mixed_sort true false day1
               (new_pipeline () (fresh sample))).2 in
  ∃ d, non_commercial (results p') = Some d
       ∧ d !! "success" = Some (VBool true)
       ∧ d !! "output_file"
         = Some (VStr "data/cleaned/cleaned_noncommercial_20260223.csv")
       ∧ files (noncommercial_cleaner p') !! output_path "data/cleaned" day1
         = data (noncommercial_cleaner p').
Proof.
  assert ((runNoncommercialCleaning parse_decimal no_mixed_sort true false day1
             (new_pipeline () (fresh sample))).1 = Returned true) as Hok
    by (vm_compute; reflexivity).
  destruct (runNoncommercialCleaning parse_decimal no_mixed_sort true false day1
              (new_pipeline () (fresh sample))) as [o p'] eqn:E.
  cbn in Hok. subst o.
  destruct (runNoncommercialCleaning_record parse_decimal no_mixed_sort () true false
              day1 (new_pipeline () (fresh sample)) true p' eq_refl E)
    as (_ & d & Hd & Hs & _ & Ho & _ & _ & Hf).
  exists d. split; [exact Hd|]. split; [exact Hs|]. split; [exact Ho|]. exact Hf.
Defined.

Lemma generateCombinedSummary_after_runs_witness :
  (generateCombinedSummary day1
     (mkPipeline () (fresh sample)
        (mkResults
           (Some (commercial_record (true, Some "c.csv", Some commercial_summary)))
           (Some (noncommercial_record (false, None, None))))
        [])).1
  = Raised (KeyError "summary").
Proof.
  refine (generateCombinedSummary_after_runs () day1
            (mkPipeline () (fresh sample)
               (mkResults
                  (Some (commercial_record
                           (true, Some "c.csv", Some commercial_summary)))
                  (Some (noncommercial_record (false, None, None))))
               [])
            (true, Some "c.csv", Some commercial_summary) (false, None, None)
            eq_refl eq_refl _ _).
  - intros _. eexists. reflexivity.
  - intros [=].
Defined.

Lemma main_keeps_rollups_and_columns_witness :
  ∃ out,
    files (noncommercial_cleaner
             (main parse_decimal no_mixed_sort commercial_fails day1 ()
                (CsvFile "tidied_noncomm_ev.csv" sample) ∅).2)
      !! output_path "data/cleaned" day1 = Some out
    ∧ columns out = columns sample
    ∧ rows out = filter (λ r, cell "exchange_value" r ≠ NA)
                   (coerce_row parse_decimal <$> rows sample).
Proof.
  refine (main_keeps_rollups_and_columns parse_decimal no_mixed_sort ()
            commercial_fails day1 () (CsvFile "tidied_noncomm_ev.csv" sample) ∅
            "tidied_noncomm_ev.csv" sample (false, None, None) eq_refl _ _ eq_refl _).
  - compute_done.
  - compute_done.
  - intros [=].
Defined.

Lemma findLatestCsv_latest_export_witness :
  match findLatestCsv (output_path "data/cleaned" <$> [day2; day1]) with
  | Some path =>
      ∃ d, d ∈ [day2; day1] ∧ path = output_path "data/cleaned" d ∧ day_le day1 d
  | None => False
  end.
Proof.
  pose proof (findLatestCsv_latest_export "data/cleaned" [day2; day1]) as H.
  destruct (findLatestCsv (output_path "data/cleaned" <$> [day2; day1]))
    as [path|].
  - destruct H as (d & Hd & Hp & Hmax); [compute_done|].
    exists d. split; [exact Hd|]. split; [exact Hp|].
    apply Hmax. apply elem_of_cons. right. apply elem_of_cons. by left.
  - discriminate H. compute_done.
Defined.
